(** * Let Me Go: the reminder scheduler of let_me_go.py

    A shallow embedding of the parts of [let_me_go.py] that carry logic:
    the two time utilities [parse_time] and [time_in_range], the
    configuration store [ConfigManager], the validation done by the
    configuration editor and the form that its window shows, the body of
    the [reminder_service] loop, the countdown on the tray icon, the
    registry entry of [AutoStartManager], and the choice made when the
    program starts.

    Conventions.
    - A Python [str] is a [string] whose characters are the code points
      below 256.
    - A [datetime] is a point on the time line, counted in microseconds from
      the midnight that starts ordinal day 0, so that [dt_date] is
      [date.toordinal()]; a [timedelta] is a number of microseconds.  The
      bounds of Python's calendar (years 1 to 9999) and of a [timedelta]
      are represented where the configured interval enters a sum, by
      [datetime_add] and [new_timedelta]; the other sums move a clock
      reading by eight days at most and are taken as they are.
    - The arithmetic of Python's [float] is that of [SpecFloat] on
      [spec_float], the specification of binary64 that Rocq's primitive
      floats follow; a [float] read from the configuration file is a
      primitive float.
    - Exceptions are values of [exn]; a [try]/[except] is [try_except]. *)

From Stdlib Require Import ZArith String Ascii Bool Lia Sorted PrimFloat SpecFloat FloatOps.
From Stdlib Require Import Reals Lra.
From stdpp Require Import gmap strings list fin_maps.

Local Open Scope Z_scope.
Set Warnings "-register-all".

(** ** Exceptions and fallible computations *)

Inductive exn := ValueError | AttributeError | TypeError | OverflowError.

Inductive result (A : Type) :=
| Ret (a : A)
| Raise (e : exn).
Arguments Ret {A} a.
Arguments Raise {A} e.

Definition exn_eqb (a b : exn) : bool :=
  match a, b with
  | ValueError, ValueError | AttributeError, AttributeError
  | TypeError, TypeError | OverflowError, OverflowError => true
  | _, _ => false
  end.

Definition rbind {A B} (m : result A) (k : A -> result B) : result B :=
  match m with
  | Ret a => k a
  | Raise e => Raise e
  end.

(** [try: body except (e1, ..., en): handler] *)
Definition try_except {A} (body : result A) (caught : list exn) (handler : result A)
  : result A :=
  match body with
  | Ret a => Ret a
  | Raise e => if existsb (exn_eqb e) caught then handler else Raise e
  end.

(** [try: body except Exception: handler] *)
Definition try_except_all {A} (body : result A) (handler : A) : A :=
  match body with
  | Ret a => a
  | Raise _ => handler
  end.

Declare Scope result_scope.
Delimit Scope result_scope with result.
Notation "x <- m ;; k" := (rbind m (fun x => k))
  (at level 100, m at next level, right associativity) : result_scope.

(** ** Values read from and written to the configuration file *)

Inductive json :=
| JNull
| JBool (b : bool)
| JInt (z : Z)
| JFloat (f : float)
| JStr (s : string)
| JArr (l : list json)
| JObj (m : gmap string json).

(** Python's truth test, as used by [not v] and [if v]. *)
Definition truthy (v : json) : bool :=
  match v with
  | JNull => false
  | JBool b => b
  | JInt z => negb (z =? 0)
  | JFloat f => negb (PrimFloat.eqb f 0%float)
  | JStr s => negb (String.eqb s "")
  | JArr l => match l with [] => false | _ :: _ => true end
  | JObj m => negb (bool_decide (m = ∅))
  end.

(** ** Strings: [str.strip], [str.split] and [int] *)

Module PyStr.

Definition code (c : ascii) : Z := Z.of_N (N_of_ascii c).

(** [str.isspace] on one character: the twelve white-space code points
    below 256. *)
Definition isspace (c : ascii) : bool :=
  let n := code c in
  ((9 <=? n) && (n <=? 13)) || ((28 <=? n) && (n <=? 32))
  || (n =? 133) || (n =? 160).

(** The white space that [int] skips around a numeral: the ASCII blanks,
    and the two other white-space characters below 256, which [int] first
    rewrites to a blank.  The separators 28 to 31 are not among them. *)
Definition int_space (c : ascii) : bool :=
  let n := code c in
  ((9 <=? n) && (n <=? 13)) || (n =? 32) || (n =? 133) || (n =? 160).

Definition digit (c : ascii) : option Z :=
  let n := code c in
  if (48 <=? n) && (n <=? 57) then Some (n - 48) else None.

Definition is_digit (c : ascii) : bool :=
  match digit c with Some _ => true | None => false end.

Fixpoint lstrip (s : string) : string :=
  match s with
  | String c s' => if isspace c then lstrip s' else s
  | EmptyString => EmptyString
  end.

Fixpoint rstrip (s : string) : string :=
  match s with
  | String c s' =>
      match rstrip s' with
      | EmptyString => if isspace c then EmptyString else String c EmptyString
      | r => String c r
      end
  | EmptyString => EmptyString
  end.

(** [s.strip()] *)
Definition strip (s : string) : string := rstrip (lstrip s).

(** [s.split(sep)] for a one-character separator: always at least one
    piece. *)
Fixpoint split (sep : ascii) (s : string) : list string :=
  match s with
  | EmptyString => [EmptyString]
  | String c s' =>
      if Ascii.eqb c sep then EmptyString :: split sep s'
      else match split sep s' with
           | piece :: rest => String c piece :: rest
           | [] => [String c EmptyString]
           end
  end.

Fixpoint skip_int_space (s : string) : string :=
  match s with
  | String c s' => if int_space c then skip_int_space s' else s
  | EmptyString => EmptyString
  end.

(** The digits of a numeral, where single underscores may separate two
    digits; returns the value read and the unread rest. *)
Fixpoint digits_from (acc : Z) (s : string) : Z * string :=
  match s with
  | String c s' =>
      match digit c with
      | Some d => digits_from (10 * acc + d) s'
      | None =>
          if Ascii.eqb c "_" then
            match s' with
            | String c2 _ => if is_digit c2 then digits_from acc s' else (acc, s)
            | EmptyString => (acc, s)
            end
          else (acc, s)
      end
  | EmptyString => (acc, s)
  end.

(** The numeral grammar of [int(s)] in base ten: blanks, an optional sign,
    digits, blanks.  [None] stands for the [ValueError] of [int]. *)
Definition parse_int (s : string) : option Z :=
  let s1 := skip_int_space s in
  let '(sign, s2) :=
    match s1 with
    | String c s' =>
        if Ascii.eqb c "-" then (-1, s')
        else if Ascii.eqb c "+" then (1, s')
        else (1, s1)
    | EmptyString => (1, s1)
    end in
  match s2 with
  | String c _ =>
      if is_digit c then
        let '(v, rest) := digits_from 0 s2 in
        match skip_int_space rest with
        | EmptyString => Some (sign * v)
        | String _ _ => None
        end
      else None
  | EmptyString => None
  end.

(** [int(s)] for a string [s].  The ceiling that recent interpreters put on
    the number of digits of a numeral is not represented. *)
Definition int (s : string) : result Z :=
  match parse_int s with
  | Some z => Ret z
  | None => Raise ValueError
  end.

(** [needle in s] for two strings. *)
Fixpoint contains (needle s : string) : bool :=
  String.prefix needle s
  || match s with
     | String _ s' => contains needle s'
     | EmptyString => false
     end.

End PyStr.

(** ** Clock values *)

(** [datetime.time]: ordered field by field. *)
Record time := mkTime { hour : Z; minute : Z; second : Z; microsecond : Z }.

Abbreviation date := Z (only parsing).
Abbreviation datetime := Z (only parsing).
Abbreviation timedelta := Z (only parsing).

Definition us_per_second : Z := 1000000.
Definition us_per_minute : Z := 60 * us_per_second.
Definition us_per_hour : Z := 60 * us_per_minute.
Definition us_per_day : Z := 24 * us_per_hour.

Definition minutes (n : Z) : timedelta := n * us_per_minute.
Definition seconds (n : Z) : timedelta := n * us_per_second.
Definition hours (n : Z) : timedelta := n * us_per_hour.
Definition days (n : Z) : timedelta := n * us_per_day.

Definition time_compare (a b : time) : comparison :=
  match hour a ?= hour b with
  | Eq => match minute a ?= minute b with
          | Eq => match second a ?= second b with
                  | Eq => microsecond a ?= microsecond b
                  | c => c
                  end
          | c => c
          end
  | c => c
  end.

(** [a <= b] on [datetime.time] *)
Definition time_leb (a b : time) : bool :=
  match time_compare a b with Gt => false | _ => true end.

(** The microsecond of the day at which a clock shows [t]. *)
Definition time_offset (t : time) : Z :=
  ((hour t * 60 + minute t) * 60 + second t) * us_per_second + microsecond t.

(** [now.date()], as an ordinal *)
Definition dt_date (now : datetime) : date := now / us_per_day.

(** [now.time()] *)
Definition dt_time (now : datetime) : time :=
  let r := now mod us_per_day in
  mkTime (r / us_per_hour) (r / us_per_minute mod 60)
         (r / us_per_second mod 60) (r mod us_per_second).

(** [datetime.datetime.combine(d, t)] *)
Definition combine (d : date) (t : time) : datetime := d * us_per_day + time_offset t.

(** [d.weekday()]: Monday is 0; ordinal day 1 is a Monday. *)
Definition date_weekday (d : date) : Z := (d + 6) mod 7.

(** [datetime.time(hour, minute)]: the arguments must fit a C [int], then
    lie in range. *)
Definition c_int_min : Z := - 2 ^ 31.
Definition c_int_max : Z := 2 ^ 31 - 1.

Definition fits_c_int (z : Z) : bool := (c_int_min <=? z) && (z <=? c_int_max).

Definition time_new (h m : Z) : result time :=
  if negb (fits_c_int h && fits_c_int m) then Raise OverflowError
  else if (0 <=? h) && (h <=? 23) && (0 <=? m) && (m <=? 59)
       then Ret (mkTime h m 0 0)
       else Raise ValueError.

(** ** The two utility functions *)

(** [time_str.split(":")]: only a string has the method. *)
Definition str_split (v : json) (sep : ascii) : result (list string) :=
  match v with
  | JStr s => Ret (PyStr.split sep s)
  | _ => Raise AttributeError
  end.

(** [hour, minute = map(int, pieces)]: any number of pieces other than two
    ends in a [ValueError], raised by [int] or by the unpacking. *)
Definition unpack_ints (pieces : list string) : result (Z * Z) :=
  match pieces with
  | [a; b] => (h <- PyStr.int a ;; m <- PyStr.int b ;; Ret (h, m))%result
  | _ => Raise ValueError
  end.

Definition parse_time (time_str : json) : result (option time) :=
  try_except
    (pieces <- str_split time_str ":" ;;
     hm <- unpack_ints pieces ;;
     t <- time_new hm.1 hm.2 ;;
     Ret (Some t))%result
    [ValueError; AttributeError]
    (Ret None).

Definition time_in_range (start_time end_time current_time : time) : bool :=
  if time_leb start_time end_time
  then time_leb start_time current_time && time_leb current_time end_time
  else time_leb start_time current_time || time_leb current_time end_time.

(** ** ConfigManager *)

Definition period_json (start_text end_text : json) : json :=
  JObj (<["start" := start_text]> (<["end" := end_text]> ∅)).

Definition default_work_periods : json :=
  JArr [period_json (JStr "09:00") (JStr "18:00")].

Definition default_block_periods : json :=
  JArr [period_json (JStr "12:00") (JStr "13:30")].

(** The keys of [default_config], in the order a [for] loop visits them. *)
Definition default_keys : list string :=
  ["work_periods"; "block_periods"; "interval_minutes"; "auto_start";
   "workdays"; "off_work_time"; "off_work_reminder_enabled"]%string.

Definition default_config : gmap string json :=
  <["work_periods" := default_work_periods]>
  (<["block_periods" := default_block_periods]>
  (<["interval_minutes" := JInt 60]>
  (<["auto_start" := JBool false]>
  (<["workdays" := JArr [JInt 1; JInt 2; JInt 3; JInt 4; JInt 5]]>
  (<["off_work_time" := JStr "18:00"]>
  (<["off_work_reminder_enabled" := JBool true]> ∅)))))).

(** [self.default_config[key]] *)
Definition default_item (key : string) : json :=
  match default_config !! key with
  | Some v => v
  | None => JNull
  end.

(** [key in c]: key test on a dict, element test on a list, substring test
    on a string, [TypeError] on anything else. *)
Definition py_in (key : string) (c : json) : result bool :=
  match c with
  | JObj m => Ret (match m !! key with Some _ => true | None => false end)
  | JArr l =>
      Ret (existsb (fun v => match v with JStr s => String.eqb s key | _ => false end) l)
  | JStr s => Ret (PyStr.contains key s)
  | _ => Raise TypeError
  end.

(** [c.get(key, fallback)]: only a dict has the method. *)
Definition py_get (c : json) (key : string) (fallback : json) : result json :=
  match c with
  | JObj m => Ret (match m !! key with Some v => v | None => fallback end)
  | _ => Raise AttributeError
  end.

(** [c[key] = v] for a string [key]: only a dict accepts it. *)
Definition py_setitem (c : json) (key : string) (v : json) : result json :=
  match c with
  | JObj m => Ret (JObj (<[key := v]> m))
  | _ => Raise TypeError
  end.

(** What is at [config_file]: nothing, bytes that [open] or [json.load]
    reject, or the text of a JSON value. *)
Inductive file :=
| Missing
| Unreadable
| Stored (v : json).

(** [with open(...) as f: json.load(f)] *)
Definition read_json (f : file) : result json :=
  match f with
  | Stored v => Ret v
  | _ => Raise ValueError
  end.

(** The conversion of the old flat format. *)
Definition convert_legacy (config : json) : result json :=
  (has_start <- py_in "start_time" config ;;
   legacy <- (if has_start
              then (has_periods <- py_in "work_periods" config ;; Ret (negb has_periods))
              else Ret false) ;;
   if legacy then
     s <- py_get config "start_time" (JStr "09:00") ;;
     e <- py_get config "end_time" (JStr "18:00") ;;
     bs <- py_get config "block_start" (JStr "12:00") ;;
     be <- py_get config "block_end" (JStr "13:30") ;;
     i <- py_get config "interval_minutes" (JInt 60) ;;
     a <- py_get config "auto_start" (JBool false) ;;
     Ret (JObj (<["work_periods" := JArr [period_json s e]]>
               (<["block_periods" := JArr [period_json bs be]]>
               (<["interval_minutes" := i]>
               (<["auto_start" := a]> ∅)))))
   else Ret config)%result.

(** [for key in self.default_config: if key not in config: config[key] = ...] *)
Fixpoint merge_defaults (keys : list string) (config : json) : result json :=
  match keys with
  | [] => Ret config
  | key :: rest =>
      (present <- py_in key config ;;
       config' <- (if present then Ret config
                   else py_setitem config key (default_item key)) ;;
       merge_defaults rest config')%result
  end.

(** [if not config.get(key): config[key] = self.default_config[key]] *)
Definition ensure_nonempty (key : string) (config : json) : result json :=
  (v <- py_get config key JNull ;;
   if negb (truthy v) then py_setitem config key (default_item key)
   else Ret config)%result.

Definition load_config (f : file) : json :=
  match f with
  | Missing => JObj default_config
  | _ =>
      try_except_all
        (config <- read_json f ;;
         config <- convert_legacy config ;;
         config <- merge_defaults default_keys config ;;
         config <- ensure_nonempty "work_periods" config ;;
         config <- ensure_nonempty "block_periods" config ;;
         Ret config)%result
        (JObj default_config)
  end.

(** How a write to [config_file] ends: well, or with an exception that
    leaves [remains] behind. *)
Inductive write :=
| WriteOk
| WriteFails (remains : file).

(** [save_config] returns the file it leaves and its boolean result;
    reading back what [json.dump] wrote gives the value written. *)
Definition save_config (w : write) (config : json) : file * bool :=
  match w with
  | WriteOk => (Stored config, true)
  | WriteFails remains => (remains, false)
  end.

(** ** The configuration editor: [validate_and_start] *)

(** The contents of the form when the button is pressed. *)
Record form := mkForm {
  work_rows : list (string * string);
  block_rows : list (string * string);
  interval_text : string;
  workday_checks : list bool;
  off_work_text : string;
  off_work_reminder_checked : bool;
  auto_start_checked : bool
}.

Inductive rejection :=
| BadWorkPeriod
| NoWorkPeriod
| BadBlockPeriod
| BadInterval
| NoWorkday
| BadOffWorkTime
| StartFailed (e : exn).

Inductive verdict :=
| Rejected (why : rejection)
| Accepted (config : gmap string json).

(** One of the two loops over the rows of entry widgets; [None] is the
    format error that ends the validation. *)
Fixpoint collect_periods (rows : list (string * string)) : result (option (list json)) :=
  match rows with
  | [] => Ret (Some [])
  | (start_entry, end_entry) :: rest =>
      let start_time := PyStr.strip start_entry in
      let end_time := PyStr.strip end_entry in
      if String.eqb start_time "" || String.eqb end_time "" then collect_periods rest
      else
        (s <- parse_time (JStr start_time) ;;
         match s with
         | None => Ret None
         | Some _ =>
             e <- parse_time (JStr end_time) ;;
             match e with
             | None => Ret None
             | Some _ =>
                 more <- collect_periods rest ;;
                 Ret (option_map
                        (cons (period_json (JStr start_time) (JStr end_time))) more)
             end
         end)%result
  end.

(** [i + 1 for i, var in enumerate(workdays_vars) if var.get()] *)
Fixpoint selected_from (i : Z) (checks : list bool) : list Z :=
  match checks with
  | [] => []
  | b :: rest => if b then (i + 1) :: selected_from (i + 1) rest
                 else selected_from (i + 1) rest
  end.

Definition interval_of (text : string) : option Z :=
  match PyStr.int (PyStr.strip text) with
  | Ret i => if i <=? 0 then None else Some i
  | Raise _ => None
  end.

Definition validate (fm : form) : result verdict :=
  (work <- collect_periods (work_rows fm) ;;
   match work with
   | None => Ret (Rejected BadWorkPeriod)
   | Some [] => Ret (Rejected NoWorkPeriod)
   | Some work_periods =>
       block <- collect_periods (block_rows fm) ;;
       match block with
       | None => Ret (Rejected BadBlockPeriod)
       | Some block_periods =>
           match interval_of (interval_text fm) with
           | None => Ret (Rejected BadInterval)
           | Some interval =>
               match selected_from 0 (workday_checks fm) with
               | [] => Ret (Rejected NoWorkday)
               | selected_workdays =>
                   let off_work_time := PyStr.strip (off_work_text fm) in
                   off <- (if String.eqb off_work_time "" then Ret true
                           else t <- parse_time (JStr off_work_time) ;;
                                Ret (match t with Some _ => true | None => false end)) ;;
                   if negb off then Ret (Rejected BadOffWorkTime)
                   else Ret (Accepted
                     (<["work_periods" := JArr work_periods]>
                     (<["block_periods" := JArr block_periods]>
                     (<["interval_minutes" := JInt interval]>
                     (<["auto_start" := JBool (auto_start_checked fm)]>
                     (<["workdays" := JArr (JInt <$> selected_workdays)]>
                     (<["off_work_time" :=
                          JStr (if String.eqb off_work_time "" then "18:00"
                                else off_work_time)]>
                     (<["off_work_reminder_enabled" :=
                          JBool (off_work_reminder_checked fm)]> ∅))))))))
               end
           end
       end
   end)%result.

(** The validation part of [validate_and_start], whose outer [except]
    turns any exception into a refusal; an accepted configuration is the
    one handed to [save_config]. *)
Definition validate_and_start (fm : form) : verdict :=
  match validate fm with
  | Ret v => v
  | Raise e => Rejected (StartFailed e)
  end.

(** ** Double precision *)

(** The binary64 numbers and their operations, as [SpecFloat] specifies
    them (the specification of Rocq's primitive floats): every operation
    returns the exact result rounded to the nearest number, ties to the
    even one. *)
Module Double.

Definition prec : Z := 53.
Definition emax : Z := 1024.

(** An [int] as a mantissa with exponent zero. *)
Definition raw (z : Z) : spec_float :=
  match z with
  | Z0 => S754_zero false
  | Zpos p => S754_finite false p 0
  | Zneg p => S754_finite true p 0
  end.

(** The double nearest to the [int] [z]. *)
Definition nearest (z : Z) : spec_float := binary_normalize prec emax z 0 false.

(** [float(z)] for an [int], as the arithmetic of an [int] and a [float]
    converts it: too large a number is an [OverflowError]. *)
Definition of_int (z : Z) : result spec_float :=
  match nearest z with
  | S754_infinity _ => Raise OverflowError
  | x => Ret x
  end.

(** [a / b] for two [int], [b] not zero: the quotient rounded once. *)
Definition true_divide (a b : Z) : spec_float := SFdiv prec emax (raw a) (raw b).

Definition div : spec_float -> spec_float -> spec_float := SFdiv prec emax.
Definition sub : spec_float -> spec_float -> spec_float := SFsub prec emax.
Definition mul : spec_float -> spec_float -> spec_float := SFmul prec emax.

(** C's [modf]: the integral part, towards zero, and the rest, both exact. *)
Definition trunc (x : spec_float) : Z :=
  match x with
  | S754_finite s m e =>
      cond_Zopp s (if 0 <=? e then Zpos m * 2 ^ e else Zpos m / 2 ^ (- e))
  | _ => 0
  end.

Definition frac (x : spec_float) : spec_float :=
  match x with
  | S754_finite s m e =>
      if 0 <=? e then S754_zero s
      else binary_normalize prec emax (cond_Zopp s (Zpos m mod 2 ^ (- e))) e s
  | _ => x
  end.

Definition is_zero (x : spec_float) : bool :=
  match x with
  | S754_zero _ => true
  | _ => false
  end.

End Double.

(** ** The range of [datetime] and [timedelta] *)

(** [datetime.min] is the first instant of ordinal day 1, [datetime.max]
    the last microsecond of ordinal day 3652059. *)
Definition datetime_min : datetime := us_per_day.
Definition datetime_max : datetime := 3652060 * us_per_day - 1.

(** The greatest number of days of a [timedelta], either way. *)
Definition max_delta_days : Z := 999999999.

(** A [timedelta] of [us] microseconds, as every constructor ends. *)
Definition new_timedelta (us : Z) : result timedelta :=
  if Z.abs (us / us_per_day) <=? max_delta_days then Ret us else Raise OverflowError.

(** [datetime.timedelta(minutes=m)] for an [int]. *)
Definition timedelta_of_minutes (m : Z) : result timedelta :=
  new_timedelta (m * us_per_minute).

(** The whole microseconds for what is left over after the whole ones have
    been taken: to the nearest, a half towards the number that makes the
    sum [x] even. *)
Definition round_leftover (leftover : spec_float) (x : Z) : Z :=
  match leftover with
  | S754_finite s m e =>
      if 0 <=? e then cond_Zopp s (Zpos m * 2 ^ e)
      else match Z.compare (2 * Zpos m) (2 ^ (- e)) with
           | Lt => 0
           | Gt => cond_Zopp s 1
           | Eq => if Z.odd x then cond_Zopp s 1 else 0
           end
  | _ => 0
  end.

(** [datetime.timedelta(minutes=r)] for a [float], as CPython's [_datetime]
    computes it: the whole minutes in integers, the rest of a minute
    turned into microseconds in double precision and rounded. *)
Definition timedelta_of_float_minutes (r : spec_float) : result timedelta :=
  match r with
  | S754_nan => Raise ValueError
  | S754_infinity _ => Raise OverflowError
  | _ =>
      let sum := Double.trunc r * us_per_minute in
      let fracpart := Double.frac r in
      if Double.is_zero fracpart then new_timedelta sum
      else
        let dnum := Double.mul (Double.nearest us_per_minute) fracpart in
        let sum := sum + Double.trunc dnum in
        new_timedelta (sum + round_leftover (Double.frac dnum) sum)
  end.

(** [t + d] for a [datetime] and a [timedelta]. *)
Definition datetime_add (t : datetime) (d : timedelta) : result datetime :=
  let r := t + d in
  if (datetime_min <=? r) && (r <=? datetime_max) then Ret r else Raise OverflowError.

(** [now + datetime.timedelta(minutes=interval)] *)
Definition add_minutes (now : datetime) (interval : Z) : result datetime :=
  (d <- timedelta_of_minutes interval ;; datetime_add now d)%result.

(** ** The reminder service *)

(** A time window of the configuration: [period.get("start")] and
    [period.get("end")], whatever they hold. *)
Record period := mkPeriod { p_start : json; p_end : json }.

(** The values that one iteration reads from [self.config]. *)
Record config := mkConfig {
  work_periods : list period;
  block_periods : list period;
  interval_minutes : Z;
  workdays : list Z;
  off_work_time : json;
  off_work_reminder_enabled : bool
}.

(** The two pop-ups of [show_reminder_popup]. *)
Inductive signal := StandUp | EndOfShift.

(** The attributes of [LetMeGoApp] that the loop reads and writes. *)
Record state := mkState {
  is_first_start : bool;
  last_reminder_time : option datetime;
  next_reminder : option datetime;
  last_off_work_reminder_date : option date
}.

(** The attributes as [__init__] sets them. *)
Definition app_start : state := mkState true None None None.

(** A piece of the loop body: it may raise, it changes the attributes and
    it opens pop-ups.  What was changed and shown before an exception
    stays changed and shown. *)
Definition sched (A : Type) : Type := state -> result A * state * list signal.

Definition sret {A} (a : A) : sched A := fun st => (Ret a, st, []).

Definition sbind {A B} (m : sched A) (k : A -> sched B) : sched B :=
  fun st =>
    match m st with
    | (Ret a, st1, out1) =>
        match k a st1 with
        | (r, st2, out2) => (r, st2, out1 ++ out2)
        end
    | (Raise e, st1, out1) => (Raise e, st1, out1)
    end.

Definition lift {A} (r : result A) : sched A := fun st => (r, st, []).

Definition get : sched state := fun st => (Ret st, st, []).

Definition show_reminder_popup (sg : signal) : sched unit :=
  fun st => (Ret tt, st, [sg]).

Definition set_is_first_start (b : bool) : sched unit :=
  fun st => (Ret tt,
             mkState b (last_reminder_time st) (next_reminder st)
                     (last_off_work_reminder_date st), []).

Definition set_last_reminder_time (v : option datetime) : sched unit :=
  fun st => (Ret tt,
             mkState (is_first_start st) v (next_reminder st)
                     (last_off_work_reminder_date st), []).

Definition set_next_reminder (v : option datetime) : sched unit :=
  fun st => (Ret tt,
             mkState (is_first_start st) (last_reminder_time st) v
                     (last_off_work_reminder_date st), []).

Definition set_last_off_work_reminder_date (v : option date) : sched unit :=
  fun st => (Ret tt,
             mkState (is_first_start st) (last_reminder_time st)
                     (next_reminder st) v, []).

Declare Scope sched_scope.
Delimit Scope sched_scope with sched.
Notation "x <- m ;; k" := (sbind m (fun x => k))
  (at level 100, m at next level, right associativity) : sched_scope.
Notation "m ;;; k" := (sbind m (fun _ => k))
  (at level 100, right associativity) : sched_scope.

(** Opens the operations of [sched] in a goal. *)
Ltac sched_unfold :=
  unfold sbind, sret, lift, get, show_reminder_popup, set_is_first_start,
    set_last_reminder_time, set_next_reminder, set_last_off_work_reminder_date in *.

(** [x in xs] for a list of integers *)
Definition is_in (x : Z) (xs : list Z) : bool := existsb (Z.eqb x) xs.

(** The end-of-shift check of one iteration. *)
Definition off_work_check (cfg : config) (now : datetime) (is_workday : bool)
  : sched unit :=
  let today := dt_date now in
  (if is_workday && off_work_reminder_enabled cfg && truthy (off_work_time cfg) then
     off_work_time <- lift (parse_time (off_work_time cfg)) ;;
     match off_work_time with
     | Some t =>
         let off_work_dt := combine today t in
         let reminder_dt := off_work_dt - minutes 10 in
         let time_diff := Z.abs (now - reminder_dt) in
         if time_diff <=? seconds 30 then
           st <- get ;;
           if negb (bool_decide (last_off_work_reminder_date st = Some today)) then
             show_reminder_popup EndOfShift ;;;
             set_last_off_work_reminder_date (Some today)
           else sret tt
         else sret tt
     | None => sret tt
     end
   else sret tt)%sched.

(** The loop [for period in periods: ... break] that looks for a window
    holding [current_time].  A parsed [datetime.time] always counts as
    true. *)
Fixpoint in_any_period (periods : list period) (current_time : time) : result bool :=
  match periods with
  | [] => Ret false
  | p :: rest =>
      (start_time <- parse_time (p_start p) ;;
       end_time <- parse_time (p_end p) ;;
       match start_time, end_time with
       | Some s, Some e =>
           if time_in_range s e current_time then Ret true
           else in_any_period rest current_time
       | _, _ => in_any_period rest current_time
       end)%result
  end.

(** The start of each work period, today or else tomorrow. *)
Fixpoint today_start_times (periods : list period) (today : date) (now : datetime)
  : result (list datetime) :=
  match periods with
  | [] => Ret []
  | p :: rest =>
      (start_time <- parse_time (p_start p) ;;
       more <- today_start_times rest today now ;;
       match start_time with
       | Some t =>
           let start_dt := combine today t in
           let start_dt := if start_dt <=? now then start_dt + days 1 else start_dt in
           Ret (start_dt :: more)
       | None => Ret more
       end)%result
  end.

(** The [while] loop that looks for the next working day; at most seven
    rounds are ever run. *)
Fixpoint search_days_ahead (rounds : nat) (weekday : Z) (workdays : list Z)
  (days_ahead : Z) : Z :=
  if negb (is_in ((weekday + days_ahead - 1) mod 7 + 1) workdays) then
    let days_ahead := days_ahead + 1 in
    if days_ahead >? 7 then days_ahead
    else match rounds with
         | S rounds' => search_days_ahead rounds' weekday workdays days_ahead
         | O => days_ahead
         end
  else days_ahead.

(** The start of the first work period on the next working day. *)
Definition next_workday_start (cfg : config) (today : date) (weekday : Z)
  (is_workday : bool) : result (list datetime) :=
  if negb is_workday && match workdays cfg with [] => false | _ => true end then
    let days_ahead := search_days_ahead 7 weekday (workdays cfg) 1 in
    match work_periods cfg with
    | first_period :: _ =>
        if days_ahead <=? 7 then
          (start_time <- parse_time (p_start first_period) ;;
           match start_time with
           | Some t => Ret [combine (today + days_ahead) t]
           | None => Ret []
           end)%result
        else Ret []
    | [] => Ret []
    end
  else Ret [].

(** The end of each block period, today or else tomorrow. *)
Fixpoint block_end_times (periods : list period) (today : date) (now : datetime)
  : result (list datetime) :=
  match periods with
  | [] => Ret []
  | p :: rest =>
      (block_end <- parse_time (p_end p) ;;
       more <- block_end_times rest today now ;;
       match block_end with
       | Some t =>
           let block_end_dt := combine today t in
           let block_end_dt :=
             if block_end_dt <=? now then block_end_dt + days 1 else block_end_dt in
           Ret (block_end_dt :: more)
       | None => Ret more
       end)%result
  end.

(** The starts that enter [next_times]. *)
Definition work_start_times (cfg : config) (now : datetime) : result (list datetime) :=
  let today := dt_date now in
  let weekday := date_weekday today + 1 in
  let is_workday := is_in weekday (workdays cfg) in
  (today_starts <- (if is_workday then today_start_times (work_periods cfg) today now
                    else Ret []) ;;
   next_start <- next_workday_start cfg today weekday is_workday ;;
   Ret (today_starts ++ next_start))%result.

(** The list [next_times] of the branch taken outside the work periods
    or inside a block period. *)
Definition next_times (cfg : config) (now : datetime) : result (list datetime) :=
  (starts <- work_start_times cfg now ;;
   ends <- block_end_times (block_periods cfg) (dt_date now) now ;;
   Ret (starts ++ ends))%result.

(** [min(next_times)], or one hour from now when the list is empty *)
Definition earliest (now : datetime) (next_times : list datetime) : datetime :=
  match next_times with
  | [] => now + hours 1
  | t :: rest => fold_left Z.min rest t
  end.

(** [(now - last).total_seconds() >= interval * 60], decided on the exact
    number of microseconds *)
Definition interval_over (now last : datetime) (interval : Z) : bool :=
  seconds (interval * 60) <=? now - last.

(** Lines 809 to 811: the minutes that have passed and those that remain,
    in double precision, and the moment they lead to. *)
Definition remaining_estimate (now last : datetime) (interval : Z) : result datetime :=
  (let elapsed := Double.div (Double.true_divide (now - last) us_per_second)
                             (Double.nearest 60) in
   i <- Double.of_int interval ;;
   let remaining := Double.sub i elapsed in
   d <- timedelta_of_float_minutes remaining ;;
   datetime_add now d)%result.

(** The decision about the stand-up reminder.  The sum that gives the next
    reminder is computed after the attributes before it have been
    assigned, and it may raise. *)
Definition regular_reminder (cfg : config) (now : datetime)
  (in_work_period in_block_period : bool) : sched unit :=
  let interval := interval_minutes cfg in
  (if in_work_period && negb in_block_period then
     st <- get ;;
     if is_first_start st then
       set_last_reminder_time (Some now) ;;;
       set_is_first_start false ;;;
       next <- lift (add_minutes now interval) ;;
       set_next_reminder (Some next)
     else if match last_reminder_time st with
             | None => true
             | Some last => interval_over now last interval
             end then
       show_reminder_popup StandUp ;;;
       set_last_reminder_time (Some now) ;;;
       next <- lift (add_minutes now interval) ;;
       set_next_reminder (Some next)
     else
       (* the test above has sent the case without a stored time upwards *)
       match last_reminder_time st with
       | Some last =>
           next <- lift (remaining_estimate now last interval) ;;
           set_next_reminder (Some next)
       | None => sret tt
       end
   else
     times <- lift (next_times cfg now) ;;
     set_next_reminder (Some (earliest now times)))%sched.

(** The reset of the end-of-shift record when the date has moved on. *)
Definition daily_reset (today : date) : sched unit :=
  (st <- get ;;
   match last_off_work_reminder_date st with
   | Some d => if d <? today then set_last_off_work_reminder_date None else sret tt
   | None => sret tt
   end)%sched.

(** One iteration of the [while self.running] loop, from the moment the
    configuration has been reloaded and the clock read, up to the pause. *)
Definition tick (cfg : config) (now : datetime) : sched unit :=
  let current_time := dt_time now in
  let today := dt_date now in
  let weekday := date_weekday today + 1 in
  match work_periods cfg with
  | [] => sret tt
  | _ :: _ =>
      let is_workday := is_in weekday (workdays cfg) in
      (off_work_check cfg now is_workday ;;;
       in_work_period <- lift (if is_workday
                               then in_any_period (work_periods cfg) current_time
                               else Ret false) ;;
       in_block_period <- lift (in_any_period (block_periods cfg) current_time) ;;
       regular_reminder cfg now in_work_period in_block_period ;;;
       daily_reset today)%sched
  end.

(** What happens to the application over time: the loop runs an
    iteration, the user confirms a stand-up pop-up (which stores the time
    of the answer), or the editor saves a new configuration while the
    service runs (which forgets the last reminder). *)
Inductive event :=
| Tick (cfg : config) (now : datetime)
| Confirmed (at_time : datetime)
| Reconfigured.

(** The loop catches whatever an iteration raises and goes on. *)
Definition step (ev : event) (st : state) : state * list (datetime * signal) :=
  match ev with
  | Tick cfg now =>
      match tick cfg now st with
      | (_, st', out) => (st', map (pair now) out)
      end
  | Confirmed at_time =>
      (mkState (is_first_start st) (Some at_time) (next_reminder st)
               (last_off_work_reminder_date st), [])
  | Reconfigured =>
      (mkState (is_first_start st) None (next_reminder st)
               (last_off_work_reminder_date st), [])
  end.

(** The pop-ups of a run, each with the clock reading of its iteration. *)
Fixpoint reminder_service (evs : list event) (st : state)
  : state * list (datetime * signal) :=
  match evs with
  | [] => (st, [])
  | ev :: rest =>
      match step ev st with
      | (st1, out1) =>
          match reminder_service rest st1 with
          | (st2, out2) => (st2, out1 ++ out2)
          end
      end
  end.

(** ** Vocabulary of the statements *)

(** A value that a [datetime.time] can hold. *)
Definition valid_time (t : time) : Prop :=
  (0 <= hour t <= 23) /\ (0 <= minute t <= 59) /\ (0 <= second t <= 59)
  /\ (0 <= microsecond t <= 999999).

(** The window of [p] is well formed and holds the clock time [t]. *)
Definition window_holds (t : time) (p : period) : Prop :=
  exists s e, parse_time (p_start p) = Ret (Some s)
              /\ parse_time (p_end p) = Ret (Some e)
              /\ time_in_range s e t = true.

(** The number of today's weekday, Monday being 1. *)
Definition weekday_of (now : datetime) : Z := date_weekday (dt_date now) + 1.

Definition is_workday (cfg : config) (now : datetime) : Prop :=
  In (weekday_of now) (workdays cfg).

Definition in_work_period (cfg : config) (now : datetime) : Prop :=
  Exists (window_holds (dt_time now)) (work_periods cfg).

Definition in_block_period (cfg : config) (now : datetime) : Prop :=
  Exists (window_holds (dt_time now)) (block_periods cfg).

(** The condition under which a regular reminder is considered. *)
Definition effective (cfg : config) (now : datetime) : Prop :=
  is_workday cfg now /\ in_work_period cfg now /\ ~ in_block_period cfg now.

(** No reminder yet, or at least [interval_minutes * 60] seconds since
    the last one. *)
Definition interval_elapsed (cfg : config) (st : state) (now : datetime) : Prop :=
  match last_reminder_time st with
  | None => True
  | Some last => interval_minutes cfg * 60 * us_per_second <= now - last
  end.

(** The moment ten minutes before the end of today's shift lies within
    thirty seconds of [now], on a working day with the reminder enabled. *)
Definition end_of_shift_due (cfg : config) (now : datetime) : Prop :=
  is_workday cfg now /\ off_work_reminder_enabled cfg = true
  /\ exists t, truthy (off_work_time cfg) = true
               /\ parse_time (off_work_time cfg) = Ret (Some t)
               /\ Z.abs (now - (combine (dt_date now) t - minutes 10)) <= seconds 30.

(** The dates of the iterations of a run, in order. *)
Fixpoint tick_dates (evs : list event) : list date :=
  match evs with
  | [] => []
  | Tick _ now :: rest => dt_date now :: tick_dates rest
  | _ :: rest => tick_dates rest
  end.

(** How many end-of-shift pop-ups of a run were shown on date [d]. *)
Definition end_of_shift_on (d : date) (p : datetime * signal) : bool :=
  (dt_date p.1 =? d) && match p.2 with EndOfShift => true | StandUp => false end.

Definition end_of_shift_count (d : date) (shown : list (datetime * signal)) : nat :=
  length (List.filter (end_of_shift_on d) shown).

(** The state once today's end-of-shift pop-up has been recorded. *)
Definition latched (st : state) (d : date) : state :=
  mkState (is_first_start st) (last_reminder_time st) (next_reminder st) (Some d).

(** The value of [in_work_period] after its loop: false at once on a day
    that is not a working day. *)
Definition work_gate (cfg : config) (now : datetime) : result bool :=
  if is_in (weekday_of now) (workdays cfg)
  then in_any_period (work_periods cfg) (dt_time now) else Ret false.

(** The number of end-of-shift pop-ups among those of one iteration. *)
Definition shown_end_of_shift (out : list signal) : nat :=
  length (List.filter (fun s => match s with EndOfShift => true | StandUp => false end) out).

(** [parse_time] reads [v] without raising. *)
Definition parses (v : json) : Prop := exists r, parse_time v = Ret r.

(** No time of day of the configuration makes [parse_time] raise. *)
Definition well_ranged (cfg : config) : Prop :=
  Forall (fun p => parses (p_start p) /\ parses (p_end p)) (work_periods cfg)
  /\ Forall (fun p => parses (p_start p) /\ parses (p_end p)) (block_periods cfg)
  /\ parses (off_work_time cfg).

(** [m.get(key)] *)
Definition lookup_or_null (m : gmap string json) (key : string) : json :=
  match m !! key with Some v => v | None => JNull end.

(** A stored dict in the old flat format, which [load_config] converts. *)
Definition old_format (m : gmap string json) : Prop :=
  is_Some (m !! "start_time"%string) /\ m !! "work_periods"%string = None.

(** The dict that [validate_and_start] builds. *)
Definition config_dict (work block : list json) (interval : Z) (auto : bool)
  (selected : list json) (off : string) (enabled : bool) : gmap string json :=
  <["work_periods" := JArr work]>
  (<["block_periods" := JArr block]>
  (<["interval_minutes" := JInt interval]>
  (<["auto_start" := JBool auto]>
  (<["workdays" := JArr selected]>
  (<["off_work_time" := JStr off]>
  (<["off_work_reminder_enabled" := JBool enabled]> ∅)))))).

(** The reading of a configuration dict whose values have the expected
    types, with the fallbacks of the [config.get] calls of the loop. *)
Definition period_of (v : json) : option period :=
  match v with
  | JObj m => Some (mkPeriod (lookup_or_null m "start") (lookup_or_null m "end"))
  | _ => None
  end.

Definition periods_of (v : option json) : option (list period) :=
  match v with
  | Some (JArr l) => mapM period_of l
  | Some _ => None
  | None => Some []
  end.

Definition int_of (v : json) : option Z :=
  match v with JInt z => Some z | _ => None end.

Definition config_of (c : json) : option config :=
  match c with
  | JObj m =>
      work ← periods_of (m !! "work_periods"%string);
      block ← periods_of (m !! "block_periods"%string);
      interval ← match m !! "interval_minutes"%string with
                 | Some v => int_of v
                 | None => Some 60
                 end;
      days ← match m !! "workdays"%string with
             | Some (JArr l) => mapM int_of l
             | Some _ => None
             | None => Some [1; 2; 3; 4; 5]
             end;
      enabled ← match m !! "off_work_reminder_enabled"%string with
                | Some (JBool b) => Some b
                | Some _ => None
                | None => Some true
                end;
      Some (mkConfig work block interval days
                     (match m !! "off_work_time"%string with
                      | Some v => v
                      | None => JStr "18:00"
                      end) enabled)
  | _ => None
  end.


(** ** Vocabulary of the statements about sums and double precision *)

(** [now] plus the configured interval is a moment that a [datetime] can
    hold, and the interval a duration that a [timedelta] can hold. *)
Definition interval_fits (cfg : config) (now : datetime) : Prop :=
  Z.abs (minutes (interval_minutes cfg) / us_per_day) <= max_delta_days
  /\ datetime_min <= now + minutes (interval_minutes cfg) <= datetime_max.

(** What a branch of the reminder decision leaves once the sum [sum] for
    the next reminder has been computed in the state [st]. *)
Definition stored (sum : result datetime) (st : state) (shown : list signal)
  : result unit * state * list signal :=
  match sum with
  | Ret next =>
      (Ret tt,
       mkState (is_first_start st) (last_reminder_time st) (Some next)
               (last_off_work_reminder_date st), shown)
  | Raise e => (Raise e, st, shown)
  end.

(** Two to the power [e], a real number. *)
Definition p2 (e : Z) : R := powerRZ 2 e.

(** The absolute value of a finite number. *)
Definition mag (m : positive) (e : Z) : R := (IZR (Zpos m) * p2 e)%R.

(** The relative error of one rounding is at most [eps]. *)
Definition eps : R := (/ IZR (2 ^ 52))%R.

(** [v] is [x] up to one rounding. *)
Definition near (v x : R) : Prop := (x * (1 - eps) <= v <= x * (1 + eps))%R.

(** The numbers between which the rounding lemmas hold: far from the
    subnormal numbers and from the infinities. *)
Definition in_range (x : R) : Prop := (p2 (-1000) <= x <= p2 900)%R.

(** ** Sample data *)

Definition window (start_text end_text : string) : period :=
  mkPeriod (JStr start_text) (JStr end_text).

(** Work 09:00 to 18:00, blocked 12:00 to 13:30, every 60 minutes, Monday
    to Friday, end of shift at 18:00: the default configuration. *)
Definition sample_config : config :=
  mkConfig [window "09:00" "18:00"] [window "12:00" "13:30"] 60 [1; 2; 3; 4; 5]
           (JStr "18:00") true.

Definition at_clock (d : date) (h m s : Z) : datetime := combine d (mkTime h m s 0).

(** Ordinals of 2024-01-01 (a Monday) and of the days that follow it. *)
Definition monday : date := 738886.
Definition friday : date := 738890.
Definition saturday : date := 738891.
Definition sunday : date := 738892.
Definition next_monday : date := 738893.

(** The default configuration with a block period whose start does not
    fit a C [int]. *)
Definition overflow_config : config :=
  mkConfig [window "09:00" "18:00"] [window "2147483648:00" "13:30"] 60 [1; 2; 3; 4; 5]
           (JStr "18:00") true.

(** A Monday evening around the end-of-shift moment, and the next day. *)
Definition shift_run : list event :=
  [Tick sample_config (at_clock monday 17 49 40);
   Tick sample_config (at_clock monday 17 50 5);
   Confirmed (at_clock monday 17 50 10);
   Tick sample_config (at_clock monday 17 50 20);
   Tick sample_config (at_clock (monday + 1) 17 50 0)].

(** The editor filled in with the default values, and the same with the
    block period removed. *)
Definition sample_form : form :=
  mkForm [("09:00", "18:00")]%string [("12:00", "13:30")]%string "60"
         [true; true; true; true; true; false; false] "18:00" true false.

Definition sample_form_unblocked : form :=
  mkForm [("09:00", "18:00")]%string [] "60"
         [true; true; true; true; true; false; false] "18:00" true false.

(** The editor with ten thousand million minutes typed into the interval
    field, and the configuration that the loop reads once it is saved. *)
Definition far_form : form :=
  mkForm [("09:00", "18:00")]%string [("12:00", "13:30")]%string "10000000000"
         [true; true; true; true; true; false; false] "18:00" true false.

Definition far_config : config :=
  mkConfig [window "09:00" "18:00"] [window "12:00" "13:30"] 10000000000 [1; 2; 3; 4; 5]
           (JStr "18:00") true.

(** An interval of [2 ^ 28] minutes. *)
Definition long_config : config :=
  mkConfig [window "09:00" "18:00"] [window "12:00" "13:30"] 268435456 [1; 2; 3; 4; 5]
           (JStr "18:00") true.

(** ** The configuration store: what a stored dict is turned into *)

(** [config.get(key, fallback)] on the entries of a stored dict *)
Definition stored_or (m : gmap string json) (key : string) (fallback : json) : json :=
  match m !! key with Some v => v | None => fallback end.

(** The dict into which [load_config] turns a stored dict [m] of the old
    flat format. *)
Definition converted (m : gmap string json) : gmap string json :=
  <["work_periods" :=
      JArr [period_json (stored_or m "start_time" (JStr "09:00"))
                        (stored_or m "end_time" (JStr "18:00"))]]>
  (<["block_periods" :=
      JArr [period_json (stored_or m "block_start" (JStr "12:00"))
                        (stored_or m "block_end" (JStr "13:30"))]]>
  (<["interval_minutes" := stored_or m "interval_minutes" (JInt 60)]>
  (<["auto_start" := stored_or m "auto_start" (JBool false)]>
  (<["workdays" := JArr [JInt 1; JInt 2; JInt 3; JInt 4; JInt 5]]>
  (<["off_work_time" := JStr "18:00"]>
  (<["off_work_reminder_enabled" := JBool true]> ∅)))))).

(** One of the two keys whose list [load_config] does not leave empty. *)
Definition list_key (k : string) : bool :=
  String.eqb k "work_periods" || String.eqb k "block_periods".

(** ** Text made from numbers *)

Module PyText.

(** The character of the digit [d]. *)
Definition digit_char (d : Z) : ascii := ascii_of_N (Z.to_N (48 + d)).

(** The decimal digits of [n], most significant first, in front of [acc];
    [rounds] bounds the number of divisions by ten. *)
Fixpoint digits_of (rounds : nat) (n : Z) (acc : string) : string :=
  let acc' := String (digit_char (n mod 10)) acc in
  match rounds with
  | O => acc'
  | S rounds' => if n <? 10 then acc' else digits_of rounds' (n / 10) acc'
  end.

(** [str(z)] for an [int]. *)
Definition str_of_int (z : Z) : string :=
  if z <? 0 then String "-" (digits_of (Z.to_nat (Z.log2 (- z))) (- z) "")
  else digits_of (Z.to_nat (Z.log2 z)) z "".

(** [f"{z:02d}"]: zeros in front up to a width of two, the sign counted. *)
Definition format_02d (z : Z) : string :=
  let s := str_of_int z in
  if (String.length s <? 2)%nat then String "0" s else s.

End PyText.

(** ** The tray icon *)

(** The text that [update_tray_icon] hands to [create_tray_icon_image];
    [None] when it returns before drawing.  The seconds that remain are
    truncated towards zero as [int] does, on the exact difference of the
    two clock readings.  Python truncates the double that
    [total_seconds] returns, which gives the same whole number for every
    difference of less than 2^34 seconds; beyond that the text is [99+] or
    [00] either way. *)
Definition update_tray_icon (has_icon : bool) (next_reminder : option datetime)
  (now : datetime) : option string :=
  match has_icon, next_reminder with
  | true, Some next =>
      let remaining := Z.quot (next - now) us_per_second in
      let remaining := if remaining <? 0 then 0 else remaining in
      let mins := remaining / 60 in
      Some (if mins >? 99 then "99+"%string else PyText.format_02d mins)
  | _, _ => None
  end.

(** The edge of the square image, in pixels. *)
Definition icon_size : Z := 64.

(** The corners [x0, y0, x1, y1] of the rectangle that
    [create_tray_icon_image] paints behind a text, and the point at which
    it writes the text; no text, no rectangle. *)
Definition label_box (text : string) : option (Z * Z * Z * Z) :=
  match text with
  | EmptyString => None
  | _ =>
      let text_width := Z.of_nat (String.length text) * 7 in
      let x := icon_size - text_width - 2 in
      let y := icon_size - 16 in
      Some (x - 2, y - 2, icon_size - 2, icon_size - 2)
  end.

Definition label_origin (text : string) : Z * Z :=
  (icon_size - Z.of_nat (String.length text) * 7 - 2, icon_size - 16).

(** ** AutoStartManager *)

(** A value of the registry: a string, or data of another type. *)
Inductive reg_value :=
| RegSz (s : string)
| RegOther.

(** The [Run] key of the current user, as far as the program looks at it:
    whether the key is there, the value named [LetMeGo] under it, and
    whether the key opens for reading and for writing. *)
Record registry := mkRegistry {
  run_key : option (option reg_value);
  opens_for_read : bool;
  opens_for_write : bool
}.

(** [winreg.OpenKey]: the value under the key, or the exception. *)
Inductive reg_error := KeyNotFound | AccessDenied.

Definition open_key (reg : registry) (for_write : bool) : reg_error + option reg_value :=
  match run_key reg with
  | None => inl KeyNotFound
  | Some v =>
      if (if for_write then opens_for_write reg else opens_for_read reg)
      then inr v else inl AccessDenied
  end.

Definition is_auto_start_enabled (reg : registry) (exe_path : string) : bool :=
  match open_key reg false with
  | inr (Some (RegSz value)) => String.eqb value exe_path
  | inr (Some RegOther) => false
  | inr None => false
  | inl _ => false
  end.

(** [set_auto_start] returns the registry it leaves and its result; the
    error box is shown exactly when the result is [false]. *)
Definition set_auto_start (enabled : bool) (reg : registry) (exe_path : string)
  : registry * bool :=
  match open_key reg true with
  | inr _ =>
      (mkRegistry (Some (if enabled then Some (RegSz exe_path) else None))
                  (opens_for_read reg) (opens_for_write reg), true)
  | inl _ => (reg, false)
  end.

(** ** The start of the program *)

Inductive launch :=
| StartService
| ShowConfigWindow
| Crashed (e : exn).

(** [x in sys.argv] *)
Definition in_argv (x : string) (argv : list string) : bool :=
  existsb (String.eqb x) argv.

Definition should_show_config (argv : list string) (f : file) : bool :=
  if in_argv "--config" argv || in_argv "--setup" argv then true
  else match f with
       | Missing => true
       | _ => false
       end.

(** What [LetMeGoApp.__init__] does once the configuration is loaded. *)
Definition app_init (argv : list string) (f : file) : launch :=
  let config := load_config f in
  let should_show := should_show_config argv f in
  if negb should_show then
    match py_get config "auto_start" (JBool false) with
    | Ret v => if truthy v then StartService else ShowConfigWindow
    | Raise e => Crashed e
    end
  else ShowConfigWindow.

(** ** The configuration editor: what the window shows *)

(** [entry.insert(0, v)] for a string [v]: the text the entry then holds. *)
Definition entry_insert (v : json) : option string :=
  match v with
  | JStr s => Some s
  | _ => None
  end.

(** [add_work_period(period)] and [add_block_period(period)]: the texts of
    the new row. *)
Definition add_period (default_start default_end : string) (period : json)
  : option (string * string) :=
  if truthy period then
    match period with
    | JObj m =>
        s ← entry_insert (stored_or m "start" (JStr default_start));
        e ← entry_insert (stored_or m "end" (JStr default_end));
        Some (s, e)
    | _ => None
    end
  else Some (default_start, default_end).

(** [for period in periods: add_period(period)] over a list. *)
Definition period_rows (default_start default_end : string) (periods : json)
  : option (list (string * string)) :=
  match periods with
  | JArr l => mapM (add_period default_start default_end) l
  | _ => None
  end.

(** The list shown: the stored one, or the single period of the old
    format when the stored one is missing or empty. *)
Definition periods_shown (m : gmap string json) (key old_start old_end : string)
  (default_start default_end : string) : json :=
  let periods := stored_or m key (JArr []) in
  if negb (truthy periods) && bool_decide (is_Some (m !! old_start)) then
    JArr [period_json (stored_or m old_start (JStr default_start))
                      (stored_or m old_end (JStr default_end))]
  else periods.

(** The contents of the form that the window shows for the configuration
    [c]; [auto_enabled] is the answer of [is_auto_start_enabled].  [None]
    stands for a configuration whose values do not have the types that the
    editor writes, for which the window is not described. *)
Definition prefill (auto_enabled : bool) (c : json) : option form :=
  match c with
  | JObj m =>
      work ← period_rows "09:00" "18:00"
               (periods_shown m "work_periods" "start_time" "end_time" "09:00" "18:00");
      block ← period_rows "12:00" "13:30"
                (periods_shown m "block_periods" "block_start" "block_end" "12:00" "13:30");
      interval ← int_of (stored_or m "interval_minutes" (JInt 60));
      days ← match stored_or m "workdays" (JArr (JInt <$> [1; 2; 3; 4; 5])) with
             | JArr l => mapM int_of l
             | _ => None
             end;
      off ← entry_insert (stored_or m "off_work_time" (JStr "18:00"));
      enabled ← match stored_or m "off_work_reminder_enabled" (JBool true) with
                | JBool b => Some b
                | _ => None
                end;
      auto ← match stored_or m "auto_start" (JBool auto_enabled) with
             | JBool b => Some b
             | _ => None
             end;
      Some (mkForm (match work with [] => [("09:00", "18:00")%string] | _ => work end)
                   block
                   (PyText.str_of_int interval)
                   ((fun day_num => is_in day_num days) <$> [1; 2; 3; 4; 5; 6; 7])
                   off enabled auto)
  | _ => None
  end.

(** [show_config_window] reloads the configuration before it fills the
    form. *)
Definition show_config_window (auto_enabled : bool) (f : file) : option form :=
  prefill auto_enabled (load_config f).

(** The form after white space around its texts is removed and the rows
    with an empty text are taken out. *)
Definition tidy_rows (rows : list (string * string)) : list (string * string) :=
  List.filter (fun r => negb (String.eqb r.1 "" || String.eqb r.2 ""))
              ((fun r => (PyStr.strip r.1, PyStr.strip r.2)) <$> rows).

Definition tidy (fm : form) : form :=
  mkForm (tidy_rows (work_rows fm)) (tidy_rows (block_rows fm))
         (PyStr.strip (interval_text fm)) (workday_checks fm)
         (PyStr.strip (off_work_text fm))
         (off_work_reminder_checked fm) (auto_start_checked fm).

(** ** Vocabulary of the further statements *)

(** A run in which nothing happens but iterations of the loop. *)
Definition only_ticks (evs : list event) : Prop :=
  Forall (fun ev => exists cfg now, ev = Tick cfg now) evs.

(** The day [k] days after today is a working day. *)
Definition working_day_ahead (cfg : config) (now : datetime) (k : Z) : Prop :=
  In (date_weekday (dt_date now + k) + 1) (workdays cfg).

(** The next moment at which a clock shows [t]: today when that moment is
    still ahead of [now], tomorrow otherwise. *)
Definition next_occurrence (now : datetime) (t : time) : datetime :=
  if combine (dt_date now) t <=? now then combine (dt_date now) t + days 1
  else combine (dt_date now) t.

(** The moments among which the next reminder is chosen outside the
    window: on a working day the next start of each work period; on a day
    off the start of the first work period on the nearest working day, one
    to seven days ahead; on any day the next end of each block period. *)
Inductive candidate (cfg : config) (now : datetime) : datetime -> Prop :=
| start_today p t :
    is_workday cfg now ->
    In p (work_periods cfg) ->
    parse_time (p_start p) = Ret (Some t) ->
    candidate cfg now (next_occurrence now t)
| start_next_workday p rest t k :
    ~ is_workday cfg now ->
    work_periods cfg = p :: rest ->
    parse_time (p_start p) = Ret (Some t) ->
    1 <= k <= 7 ->
    working_day_ahead cfg now k ->
    (forall j, 1 <= j < k -> ~ working_day_ahead cfg now j) ->
    candidate cfg now (combine (dt_date now + k) t)
| block_end p t :
    In p (block_periods cfg) ->
    parse_time (p_end p) = Ret (Some t) ->
    candidate cfg now (next_occurrence now t).

(** No white space in front. *)
Definition no_lead (s : string) : Prop :=
  match s with
  | String c _ => PyStr.isspace c = false
  | EmptyString => True
  end.

(** No white space anywhere. *)
Fixpoint no_space (s : string) : bool :=
  match s with
  | String c s' => negb (PyStr.isspace c) && no_space s'
  | EmptyString => true
  end.

(** The cases of a key against the keys of the configuration. *)
Ltac split_key k key :=
  destruct (String.eqb_spec k key) as [->|?].

(** ** Further sample data *)

(** A stored dict of the current format with an entry that the program
    does not know, and one of the old flat format. *)
Definition sample_stored : gmap string json :=
  <["interval_minutes" := JInt 45]> (<["theme" := JStr "dark"]> ∅).

Definition sample_legacy : gmap string json :=
  <["start_time" := JStr "08:30"]>
  (<["end_time" := JStr "17:30"]>
  (<["interval_minutes" := JInt 45]> ∅)).

(** A [Run] key without the value of the program, open to the user. *)
Definition sample_registry : registry := mkRegistry (Some None) true true.

Definition sample_exe_path : string := "C:\LetMeGo\LetMeGo.exe".

(** * Properties *)

(** ** Clock order *)

Lemma time_offset_unfold (t : time) :
  time_offset t = ((hour t * 60 + minute t) * 60 + second t) * 1000000 + microsecond t.
Proof. reflexivity. Qed.

(** On the values a [datetime.time] can hold, the field-wise order is the
    order of the positions on the clock. *)
Lemma time_leb_offset (a b : time) :
  valid_time a -> valid_time b ->
  time_leb a b = true <-> time_offset a <= time_offset b.
Proof.
  intros (_ & Hma & Hsa & Hua) (_ & Hmb & Hsb & Hub).
  rewrite !time_offset_unfold. unfold time_leb, time_compare.
  destruct (Z.compare_spec (hour a) (hour b)) as [Hh|Hh|Hh];
    [destruct (Z.compare_spec (minute a) (minute b)) as [Hm|Hm|Hm];
      [destruct (Z.compare_spec (second a) (second b)) as [Hs|Hs|Hs];
        [destruct (Z.compare_spec (microsecond a) (microsecond b)) as [Hu|Hu|Hu]| |]| |]| |];
    split; intros H; try reflexivity; try discriminate; lia.
Qed.

Lemma time_leb_false_offset (a b : time) :
  valid_time a -> valid_time b ->
  time_leb a b = false <-> time_offset b < time_offset a.
Proof.
  intros Ha Hb. pose proof (time_leb_offset a b Ha Hb) as H.
  destruct (time_leb a b); split; intros H'; try discriminate; try reflexivity.
  - destruct H as [H _]. specialize (H eq_refl). lia.
  - destruct (Z.le_gt_cases (time_offset a) (time_offset b)) as [Hle|Hgt]; [|lia].
    apply H in Hle. discriminate.
Qed.

(** C3. For a window that does not wrap ([start <= end]) the membership test
    holds exactly when [start <= t <= end], both ends included; for a window
    that wraps past midnight ([start > end]) exactly when [t >= start] or
    [t <= end]. *)
Theorem time_in_range_spec (start_time end_time t : time) :
  valid_time start_time -> valid_time end_time -> valid_time t ->
  (time_offset start_time <= time_offset end_time ->
     (time_in_range start_time end_time t = true <->
      time_offset start_time <= time_offset t <= time_offset end_time))
  /\ (time_offset end_time < time_offset start_time ->
     (time_in_range start_time end_time t = true <->
      time_offset start_time <= time_offset t \/ time_offset t <= time_offset end_time)).
Proof.
  intros Hs He Ht. unfold time_in_range. split; intros Hord.
  - apply (time_leb_offset _ _ Hs He) in Hord. rewrite Hord.
    rewrite andb_true_iff, (time_leb_offset _ _ Hs Ht), (time_leb_offset _ _ Ht He).
    reflexivity.
  - apply (time_leb_false_offset _ _ Hs He) in Hord. rewrite Hord.
    rewrite orb_true_iff, (time_leb_offset _ _ Hs Ht), (time_leb_offset _ _ Ht He).
    reflexivity.
Qed.

Lemma valid_time_hm (h m : Z) :
  0 <= h <= 23 -> 0 <= m <= 59 -> valid_time (mkTime h m 0 0).
Proof. intros Hh Hm. unfold valid_time; simpl. lia. Qed.

(** The night window 22:00 to 06:00 at 23:30, and the day window 09:00 to
    18:00 at 18:00 sharp. *)
Lemma time_in_range_spec_witness :
  time_in_range (mkTime 22 0 0 0) (mkTime 6 0 0 0) (mkTime 23 30 0 0) = true
  /\ time_in_range (mkTime 9 0 0 0) (mkTime 18 0 0 0) (mkTime 18 0 0 0) = true.
Proof.
  split.
  - destruct (time_in_range_spec (mkTime 22 0 0 0) (mkTime 6 0 0 0) (mkTime 23 30 0 0))
      as [_ Hwrap]; try (apply valid_time_hm; lia).
    apply Hwrap; cbv [time_offset us_per_second hour minute second microsecond]; lia.
  - destruct (time_in_range_spec (mkTime 9 0 0 0) (mkTime 18 0 0 0) (mkTime 18 0 0 0))
      as [Hday _]; try (apply valid_time_hm; lia).
    apply Hday; cbv [time_offset us_per_second hour minute second microsecond]; lia.
Defined.

(** The clock reading of any instant is a value a [datetime.time] can
    hold, and [combine] puts the two readings together again. *)
Lemma dt_time_valid (now : Z) : valid_time (dt_time now).
Proof.
  unfold valid_time, dt_time. cbn [hour minute second microsecond].
  change us_per_day with 86400000000. change us_per_hour with 3600000000.
  change us_per_minute with 60000000. change us_per_second with 1000000.
  pose proof (Z.mod_pos_bound now 86400000000 ltac:(lia)) as Hr.
  set (r := now mod 86400000000) in *.
  pose proof (Z.mod_pos_bound (r / 60000000) 60 ltac:(lia)).
  pose proof (Z.mod_pos_bound (r / 1000000) 60 ltac:(lia)).
  pose proof (Z.mod_pos_bound r 1000000 ltac:(lia)).
  assert (0 <= r / 3600000000 < 24).
  { split; [apply Z.div_pos; lia | apply Z.div_lt_upper_bound; lia]. }
  lia.
Qed.

Lemma combine_date_time (now : Z) : combine (dt_date now) (dt_time now) = now.
Proof.
  unfold combine, dt_date, dt_time, time_offset. cbn [hour minute second microsecond].
  change us_per_day with 86400000000. change us_per_hour with 3600000000.
  change us_per_minute with 60000000. change us_per_second with 1000000.
  pose proof (Z.div_mod now 86400000000 ltac:(lia)) as Hn.
  set (r := now mod 86400000000) in *.
  pose proof (Z.div_mod r 1000000 ltac:(lia)) as H1.
  pose proof (Z.div_mod (r / 1000000) 60 ltac:(lia)) as H2.
  pose proof (Z.div_mod (r / 60000000) 60 ltac:(lia)) as H3.
  assert (H4 : r / 1000000 / 60 = r / 60000000)
    by (rewrite Z.div_div by lia; reflexivity).
  assert (H5 : r / 60000000 / 60 = r / 3600000000)
    by (rewrite Z.div_div by lia; reflexivity).
  lia.
Qed.

(** ** [parse_time] *)

(** What [parse_time] hands back is a time of day on a whole minute. *)
Lemma parse_time_valid (v : json) (t : time) :
  parse_time v = Ret (Some t) ->
  valid_time t /\ second t = 0 /\ microsecond t = 0.
Proof.
  unfold parse_time, str_split, unpack_ints, time_new, PyStr.int.
  destruct v; simpl; try discriminate.
  destruct (PyStr.split ":" s) as [|a [|b [|c l]]]; simpl; try discriminate.
  destruct (PyStr.parse_int a) as [h|]; simpl; try discriminate.
  destruct (PyStr.parse_int b) as [m|]; simpl; try discriminate.
  destruct (negb (fits_c_int h && fits_c_int m)); simpl; try discriminate.
  destruct ((0 <=? h) && (h <=? 23) && (0 <=? m) && (m <=? 59)) eqn:Hr;
    simpl; try discriminate.
  intros [= <-]. simpl. split; [|split; reflexivity].
  apply valid_time_hm; lia.
Qed.

(** The only exception that leaves [parse_time] is [OverflowError]. *)
Lemma parse_time_raises (v : json) (e : exn) :
  parse_time v = Raise e -> e = OverflowError.
Proof.
  unfold parse_time, str_split, unpack_ints, time_new, PyStr.int.
  destruct v; simpl; try discriminate.
  destruct (PyStr.split ":" s) as [|a [|b [|c l]]]; simpl; try discriminate.
  destruct (PyStr.parse_int a) as [h|]; simpl; try discriminate.
  destruct (PyStr.parse_int b) as [m|]; simpl; try discriminate.
  destruct (negb (fits_c_int h && fits_c_int m)); simpl; [congruence|].
  destruct ((0 <=? h) && (h <=? 23) && (0 <=? m) && (m <=? 59)); simpl; discriminate.
Qed.

(** Anything but a string is refused without an exception. *)
Lemma parse_time_not_str (v : json) :
  (forall s, v <> JStr s) -> parse_time v = Ret None.
Proof.
  intros H. destruct v; try reflexivity. exfalso. apply (H s). reflexivity.
Qed.

(** C9. A time text whose hour does not fit a C [int] is out of range,
    yet [parse_time] does not hand back a failure value for it: the
    [OverflowError] of [datetime.time] is not among the exceptions it
    catches, and the iteration that reads such a window is abandoned. *)
Theorem parse_time_overflow :
  parse_time (JStr "2147483648:00") = Raise OverflowError
  /\ forall st, tick overflow_config (at_clock monday 10 0 0) st
                = (Raise OverflowError, st, []).
Proof.
  split; [vm_compute; reflexivity|]. intros st. vm_compute. reflexivity.
Qed.

Lemma in_any_period_skip p rest t :
  (parse_time (p_start p) = Ret None /\ exists r, parse_time (p_end p) = Ret r)
  \/ ((exists r, parse_time (p_start p) = Ret r) /\ parse_time (p_end p) = Ret None) ->
  in_any_period (p :: rest) t = in_any_period rest t.
Proof.
  cbn [in_any_period].
  intros [[-> [r ->]] | [[r ->] ->]]; cbn [rbind]; [reflexivity|].
  destruct r; reflexivity.
Qed.

(** Texts whose numbers fit a C [int] never make [parse_time] raise. *)
Lemma parse_time_fits (s : string) :
  (forall a b h m, PyStr.split ":" s = [a; b] ->
                   PyStr.parse_int a = Some h -> PyStr.parse_int b = Some m ->
                   fits_c_int h && fits_c_int m = true) ->
  parses (JStr s).
Proof.
  intros Hfit. unfold parses, parse_time, str_split, unpack_ints, time_new, PyStr.int.
  cbn [rbind].
  destruct (PyStr.split ":" s) as [|a [|b [|c l]]] eqn:Hsp; cbn [rbind try_except existsb exn_eqb orb];
    eauto.
  destruct (PyStr.parse_int a) as [h|] eqn:Ha; cbn [rbind try_except existsb exn_eqb orb];
    eauto.
  destruct (PyStr.parse_int b) as [m|] eqn:Hb; cbn [rbind try_except existsb exn_eqb orb];
    eauto.
  cbn [fst snd]. rewrite (Hfit a b h m eq_refl Ha Hb). cbn [negb].
  destruct ((0 <=? h) && (h <=? 23) && (0 <=? m) && (m <=? 59));
    cbn [rbind try_except existsb exn_eqb orb]; eauto.
Qed.

(** ** Double precision: how far a result is from the exact one *)

(** *** Digits and shifts *)

Lemma digits2_bounds (p : positive) :
  2 ^ (Zpos (digits2_pos p) - 1) <= Zpos p < 2 ^ Zpos (digits2_pos p).
Proof.
  induction p as [p IH | p IH |]; cbn [digits2_pos].
  - rewrite Pos2Z.inj_succ. change (Zpos p~1) with (2 * Zpos p + 1).
    replace (Z.succ (Zpos (digits2_pos p)) - 1) with (Z.succ (Zpos (digits2_pos p) - 1)) by lia.
    rewrite !Z.pow_succ_r by lia.
    set (a := 2 ^ (Zpos (digits2_pos p) - 1)) in *. set (b := 2 ^ Zpos (digits2_pos p)) in *.
    clearbody a b. lia.
  - rewrite Pos2Z.inj_succ. change (Zpos p~0) with (2 * Zpos p).
    replace (Z.succ (Zpos (digits2_pos p)) - 1) with (Z.succ (Zpos (digits2_pos p) - 1)) by lia.
    rewrite !Z.pow_succ_r by lia.
    set (a := 2 ^ (Zpos (digits2_pos p) - 1)) in *. set (b := 2 ^ Zpos (digits2_pos p)) in *.
    clearbody a b. lia.
  - cbn. lia.
Qed.

Lemma digits2_unique (p : positive) (d : Z) :
  2 ^ (d - 1) <= Zpos p < 2 ^ d -> Zpos (digits2_pos p) = d.
Proof.
  intros [Hlo Hhi]. pose proof (digits2_bounds p) as [Blo Bhi].
  assert (Hd : 0 < d).
  { destruct (Z.lt_ge_cases 0 d) as [|Hle]; [assumption|].
    destruct (Z.eq_dec d 0) as [->|]; [cbn in Hhi; lia|].
    rewrite (Z.pow_neg_r 2 d) in Hhi by lia. lia. }
  assert (H1 : Zpos (digits2_pos p) - 1 < d).
  { apply (Z.pow_lt_mono_r_iff 2); lia. }
  assert (H2 : d - 1 < Zpos (digits2_pos p)).
  { apply (Z.pow_lt_mono_r_iff 2); lia. }
  lia.
Qed.

Lemma digits2_shift (p : positive) (j : Z) :
  0 <= j -> forall q, Zpos q = Zpos p * 2 ^ j ->
  Zpos (digits2_pos q) = Zpos (digits2_pos p) + j.
Proof.
  intros Hj q Hq. apply digits2_unique. rewrite Hq.
  pose proof (digits2_bounds p) as [Blo Bhi].
  replace (Zpos (digits2_pos p) + j - 1) with (Zpos (digits2_pos p) - 1 + j) by lia.
  rewrite !Z.pow_add_r by lia.
  pose proof (Z.pow_pos_nonneg 2 j ltac:(lia) Hj). nia.
Qed.

Lemma shr_1_m (r : shr_record) :
  0 <= shr_m r -> shr_m (shr_1 r) = shr_m r / 2.
Proof.
  destruct r as [m r s]. cbn [shr_m]. intros Hm. rewrite <- Z.div2_div.
  destruct m as [|[p|p|]|p]; try reflexivity; lia.
Qed.

Lemma pow2_xO (p : positive) : 2 ^ Zpos p~0 = 2 ^ Zpos p * 2 ^ Zpos p.
Proof. change (Zpos p~0) with (2 * Zpos p). rewrite <- Z.pow_add_r by lia. f_equal. lia. Qed.

Lemma pow2_xI (p : positive) : 2 ^ Zpos p~1 = 2 * (2 ^ Zpos p * 2 ^ Zpos p).
Proof.
  change (Zpos p~1) with (2 * Zpos p + 1).
  rewrite Z.pow_add_r, Z.pow_1_r by lia. rewrite Z.mul_comm. f_equal.
  rewrite <- Z.pow_add_r by lia. f_equal. lia.
Qed.

Lemma shr_iter (p : positive) : forall r,
  0 <= shr_m r -> shr_m (SpecFloat.iter_pos shr_1 p r) = shr_m r / 2 ^ Zpos p.
Proof.
  induction p as [p IH | p IH |]; intros r Hr; cbn [SpecFloat.iter_pos].
  - assert (H1 : 0 <= shr_m (shr_1 r)) by (rewrite shr_1_m by assumption; apply Z.div_pos; lia).
    assert (H2 : 0 <= shr_m (SpecFloat.iter_pos shr_1 p (shr_1 r))).
    { rewrite IH by assumption. apply Z.div_pos; lia. }
    rewrite IH, IH, shr_1_m by assumption.
    rewrite pow2_xI. rewrite !Z.div_div by lia. reflexivity.
  - assert (H2 : 0 <= shr_m (SpecFloat.iter_pos shr_1 p r)).
    { rewrite IH by assumption. apply Z.div_pos; lia. }
    rewrite IH, IH by assumption.
    rewrite pow2_xO. rewrite !Z.div_div by lia. reflexivity.
  - rewrite shr_1_m by assumption. reflexivity.
Qed.

(** What [shr] does to the mantissa and to the exponent. *)
Lemma shr_spec (r : shr_record) (e n : Z) :
  0 <= shr_m r ->
  shr_m (shr r e n).1 = shr_m r / 2 ^ Z.max 0 n
  /\ (shr r e n).2 = e + Z.max 0 n
  /\ (n <= 0 -> (shr r e n).1 = r).
Proof.
  intros Hr. destruct n as [|p|p]; cbn [shr fst snd].
  - rewrite Z.div_1_r. repeat split; lia.
  - rewrite shr_iter by assumption. rewrite Z.max_r by lia. repeat split; lia.
  - rewrite Z.max_l by lia. rewrite Z.div_1_r. repeat split; lia.
Qed.

Lemma shr_record_of_loc_m (m : Z) (l : location) : shr_m (shr_record_of_loc m l) = m.
Proof. destruct l as [|[]]; reflexivity. Qed.

Lemma loc_of_shr_record_of_loc (m : Z) (l : location) :
  loc_of_shr_record (shr_record_of_loc m l) = l.
Proof. destruct l as [|[]]; reflexivity. Qed.

Lemma round_nearest_even_cases (m : Z) (l : location) :
  (round_nearest_even m l = m \/ round_nearest_even m l = m + 1)
  /\ (l = loc_Exact -> round_nearest_even m l = m).
Proof.
  destruct l as [|[]]; cbn; try destruct (Z.even m); split; auto; discriminate.
Qed.

(** *** Rounding a mantissa *)

Lemma fexp_normal (k : Z) :
  -1074 <= k - 53 -> fexp Double.prec Double.emax k = k - 53.
Proof. unfold fexp, emin, Double.prec, Double.emax. lia. Qed.

Lemma fexp_ge (k : Z) : -1074 <= fexp Double.prec Double.emax k /\ k - 53 <= fexp Double.prec Double.emax k.
Proof. unfold fexp, emin, Double.prec, Double.emax. lia. Qed.

(** The mantissa that is left of [pm] once it is cut to 53 digits. *)
Lemma cut_bounds (pm : positive) :
  let d := Zpos (digits2_pos pm) in
  let n := Z.max 0 (d - 53) in
  1 <= Zpos pm / 2 ^ n < 2 ^ 53
  /\ (53 <= d -> 2 ^ 52 <= Zpos pm / 2 ^ n).
Proof.
  cbv zeta. pose proof (digits2_bounds pm) as [Blo Bhi].
  set (d := Zpos (digits2_pos pm)) in *.
  destruct (Z.le_gt_cases d 53) as [Hle | Hgt].
  - rewrite Z.max_l by lia. rewrite Z.div_1_r.
    assert (2 ^ d <= 2 ^ 53) by (apply Z.pow_le_mono_r; lia).
    split; [lia|]. intros Hd. replace d with 53 in * by lia. exact Blo.
  - rewrite Z.max_r by lia.
    assert (Hp : 0 < 2 ^ (d - 53)) by (apply Z.pow_pos_nonneg; lia).
    assert (H1 : 2 ^ (d - 1) = 2 ^ (d - 53) * 2 ^ 52).
    { rewrite <- Z.pow_add_r by lia. f_equal. lia. }
    assert (H2 : 2 ^ d = 2 ^ (d - 53) * 2 ^ 53).
    { rewrite <- Z.pow_add_r by lia. f_equal. lia. }
    assert (Hlo : 2 ^ 52 <= Zpos pm / 2 ^ (d - 53)).
    { apply Z.div_le_lower_bound; [exact Hp|]. rewrite <- H1. exact Blo. }
    assert (Hhi : Zpos pm / 2 ^ (d - 53) < 2 ^ 53).
    { apply Z.div_lt_upper_bound; [exact Hp|]. rewrite <- H2. exact Bhi. }
    split; [|intros _; exact Hlo]. split; [|exact Hhi].
    assert (1 <= 2 ^ 52) by (vm_compute; discriminate). lia.
Qed.

(** [binary_round_aux] on a positive mantissa, away from the subnormal
    numbers and from the infinities: the mantissa is cut to 53 digits and
    the result is the cut mantissa or the next one. *)
Lemma binary_round_aux_shape (s : bool) (pm : positive) (ex : Z) (l : location) :
  let d := Zpos (digits2_pos pm) in
  let n := Z.max 0 (d - 53) in
  -1074 <= d + ex - 53 -> ex + n <= 970 ->
  exists m e k,
    binary_round_aux Double.prec Double.emax s (Zpos pm) ex l = S754_finite s m e
    /\ (k = 0 \/ k = 1)
    /\ ex + n <= e
    /\ Zpos m * 2 ^ (e - (ex + n)) = Zpos pm / 2 ^ n + k
    /\ Zpos m < 2 ^ 53
    /\ (l = loc_Exact -> d <= 53 -> k = 0).
Proof.
  cbv zeta. intros Hlo Hhi.
  pose proof (cut_bounds pm) as [Hbase Hbig]. cbv zeta in Hbase, Hbig.
  set (d := Zpos (digits2_pos pm)) in *. set (n := Z.max 0 (d - 53)) in *.
  set (base := Zpos pm / 2 ^ n) in *.
  unfold binary_round_aux, shr_fexp. cbn [Zdigits2]. fold d.
  rewrite (fexp_normal (d + ex)) by exact Hlo.
  replace (d + ex - 53 - ex) with (d - 53) by lia.
  pose proof (shr_spec (shr_record_of_loc (Zpos pm) l) ex (d - 53)) as Hshr.
  rewrite shr_record_of_loc_m in Hshr. specialize (Hshr ltac:(lia)).
  destruct (shr (shr_record_of_loc (Zpos pm) l) ex (d - 53)) as [mrs' e'].
  cbn [fst snd] in Hshr. fold n in Hshr. fold base in Hshr.
  destruct Hshr as (Hm & He & Hid). subst e'.
  pose proof (round_nearest_even_cases (shr_m mrs') (loc_of_shr_record mrs')) as [Hr Hexact].
  set (m2 := round_nearest_even (shr_m mrs') (loc_of_shr_record mrs')) in *.
  rewrite Hm in Hr, Hexact.
  assert (Hk : exists k, (k = 0 \/ k = 1) /\ m2 = base + k
                         /\ (l = loc_Exact -> d <= 53 -> k = 0)).
  { destruct Hr as [Hr | Hr].
    - exists 0. split; [auto|]. split; [lia | auto].
    - exists 1. split; [auto|]. split; [lia|]. intros Hl Hd.
      rewrite (Hid ltac:(lia)) in Hexact. rewrite loc_of_shr_record_of_loc in Hexact.
      specialize (Hexact Hl). lia. }
  destruct Hk as (k & Hk01 & Hm2 & Hk0).
  clearbody m2. clear Hr Hexact Hm Hid mrs'.
  destruct (Z.eq_dec m2 (2 ^ 53)) as [Htop | Hntop].
  - (* the carry reaches a new digit *)
    subst m2. rewrite Htop.
    replace (Zdigits2 (2 ^ 53)) with 54 by reflexivity.
    assert (Hf : fexp Double.prec Double.emax (54 + (ex + n)) - (ex + n) = 1).
    { unfold fexp, emin, Double.prec, Double.emax. lia. }
    rewrite Hf. cbn [shr shr_record_of_loc SpecFloat.iter_pos].
    replace (shr_1 {| shr_m := 2 ^ 53; shr_r := false; shr_s := false |})
      with {| shr_m := 2 ^ 52; shr_r := false; shr_s := false |} by reflexivity.
    cbn [shr_m]. change (2 ^ 52) with (Zpos 4503599627370496).
    destruct (Z.leb_spec (ex + n + 1) (Double.emax - Double.prec)) as [_ | Hbad];
      [|unfold Double.emax, Double.prec in Hbad; lia].
    exists 4503599627370496%positive, (ex + n + 1), k.
    split; [reflexivity|]. split; [exact Hk01|]. split; [lia|].
    split; [|split; [vm_compute; reflexivity | exact Hk0]].
    replace (ex + n + 1 - (ex + n)) with 1 by lia. rewrite Htop. reflexivity.
  - assert (Hm2pos : 1 <= m2 < 2 ^ 53) by lia.
    destruct m2 as [|p2|p2]; [lia | | lia].
    pose proof (digits2_bounds p2) as [B2lo B2hi].
    assert (Hd2 : Zpos (digits2_pos p2) <= 53).
    { assert (Zpos (digits2_pos p2) - 1 < 53); [|lia].
      apply (Z.pow_lt_mono_r_iff 2); lia. }
    cbn [Zdigits2].
    pose proof (shr_spec (shr_record_of_loc (Zpos p2) loc_Exact) (ex + n)
                  (fexp Double.prec Double.emax (Zpos (digits2_pos p2) + (ex + n)) - (ex + n)))
      as Hshr2.
    rewrite shr_record_of_loc_m in Hshr2. specialize (Hshr2 ltac:(lia)).
    destruct Hshr2 as (_ & He2 & Hid2).
    assert (Hshift : fexp Double.prec Double.emax (Zpos (digits2_pos p2) + (ex + n))
                     - (ex + n) <= 0).
    { unfold fexp, emin, Double.prec, Double.emax. lia. }
    specialize (Hid2 Hshift). rewrite Z.max_l in He2 by exact Hshift.
    destruct (shr (shr_record_of_loc (Zpos p2) loc_Exact) (ex + n) _) as [mrs'' e''].
    cbn [fst snd] in He2, Hid2. subst mrs'' e''. rewrite shr_record_of_loc_m.
    destruct (Z.leb_spec (ex + n + 0) (Double.emax - Double.prec)) as [_ | Hbad];
      [|unfold Double.emax, Double.prec in Hbad; lia].
    exists p2, (ex + n + 0), k.
    split; [reflexivity|]. split; [exact Hk01|]. split; [lia|].
    split; [|split; [lia | exact Hk0]].
    replace (ex + n + 0 - (ex + n)) with 0 by lia. rewrite Z.pow_0_r. lia.
Qed.

(** *** Values *)

Lemma p2_pos (e : Z) : (0 < p2 e)%R.
Proof. apply powerRZ_lt. lra. Qed.

Lemma p2_add (a b : Z) : p2 (a + b) = (p2 a * p2 b)%R.
Proof. apply powerRZ_add. lra. Qed.

Lemma p2_IZR (k : Z) : 0 <= k -> p2 k = IZR (2 ^ k).
Proof.
  intros Hk. unfold p2. rewrite <- (Z2Nat.id k Hk) at 1 2.
  rewrite <- pow_powerRZ. apply pow_IZR.
Qed.

Lemma p2_ge_1 (k : Z) : 0 <= k -> (1 <= p2 k)%R.
Proof.
  intros Hk. rewrite p2_IZR by exact Hk. apply IZR_le.
  pose proof (Z.pow_pos_nonneg 2 k ltac:(lia) Hk). lia.
Qed.

Lemma p2_le (a b : Z) : a <= b -> (p2 a <= p2 b)%R.
Proof.
  intros Hab. replace b with (a + (b - a)) by lia. rewrite p2_add.
  pose proof (p2_pos a). pose proof (p2_ge_1 (b - a) ltac:(lia)). nra.
Qed.

Lemma p2_lt_inv (a b : Z) : (p2 a < p2 b)%R -> a < b.
Proof.
  intros Hlt. destruct (Z.lt_ge_cases a b) as [|Hge]; [assumption|].
  pose proof (p2_le b a Hge). lra.
Qed.

Lemma p2_1 : p2 1 = 2%R.
Proof. exact (powerRZ_1 2). Qed.

Lemma p2_0 : p2 0 = 1%R.
Proof. reflexivity. Qed.

Lemma p2_lt (a b : Z) : a < b -> (p2 a < p2 b)%R.
Proof.
  intros Hab. replace b with (a + (b - a)) by lia. rewrite p2_add.
  pose proof (p2_pos a). rewrite (p2_IZR (b - a)) by lia.
  assert (H2 : (2 <= IZR (2 ^ (b - a)))%R).
  { apply IZR_le. replace (b - a) with (Z.succ (b - a - 1)) by lia.
    rewrite Z.pow_succ_r by lia.
    pose proof (Z.pow_pos_nonneg 2 (b - a - 1) ltac:(lia) ltac:(lia)). lia. }
  set (P := p2 a) in *. set (Q := IZR (2 ^ (b - a))) in *. clearbody P Q. nra.
Qed.

Lemma p2_le_inv (a b : Z) : (p2 a <= p2 b)%R -> a <= b.
Proof.
  intros Hle. destruct (Z.le_gt_cases a b) as [|Hgt]; [assumption|].
  pose proof (p2_lt b a ltac:(lia)). lra.
Qed.

Lemma p2_sub (a b : Z) : p2 (a - b) = (p2 a / p2 b)%R.
Proof.
  pose proof (p2_pos b). replace a with ((a - b) + b) at 2 by lia.
  rewrite p2_add. field. lra.
Qed.

Lemma mag_pos (m : positive) (e : Z) : (0 < mag m e)%R.
Proof.
  unfold mag. apply Rmult_lt_0_compat; [apply IZR_lt; lia | apply p2_pos].
Qed.

(** The magnitude of a number lies between two powers of two that its
    digits and its exponent give. *)
Lemma mag_bounds (m : positive) (e : Z) :
  (p2 (Zpos (digits2_pos m) + e - 1) <= mag m e < p2 (Zpos (digits2_pos m) + e))%R.
Proof.
  pose proof (digits2_bounds m) as [Blo Bhi]. unfold mag.
  set (d := Zpos (digits2_pos m)) in *. pose proof (p2_pos e).
  assert (Hd : 1 <= d) by (unfold d; lia). clearbody d.
  replace (d + e - 1) with ((d - 1) + e) by lia. rewrite !p2_add.
  rewrite (p2_IZR (d - 1)), (p2_IZR d) by lia.
  apply IZR_le in Blo. apply IZR_lt in Bhi.
  set (A := IZR (2 ^ (d - 1))) in *. set (B := IZR (2 ^ d)) in *.
  set (M := IZR (Zpos m)) in *. set (P := p2 e) in *. clearbody A B M P.
  split; nra.
Qed.

(** *** The error of one rounding *)

Lemma binary_round_aux_error (s : bool) (pm : positive) (ex : Z) (l : location) (x : R) :
  let d := Zpos (digits2_pos pm) in
  let n := Z.max 0 (d - 53) in
  -1074 <= d + ex - 53 -> ex + n <= 970 ->
  (mag pm ex <= x < mag pm ex + p2 ex)%R ->
  exists m e,
    binary_round_aux Double.prec Double.emax s (Zpos pm) ex l = S754_finite s m e
    /\ Zpos m < 2 ^ 53
    /\ (mag m e - p2 (ex + n) <= x <= mag m e + p2 (ex + n))%R
    /\ (53 <= d -> (p2 (ex + n) * IZR (2 ^ 52) <= x)%R)
    /\ (l = loc_Exact -> d <= 53 -> mag m e = mag pm ex).
Proof.
  cbv zeta. intros Hlo Hhi Hx.
  destruct (binary_round_aux_shape s pm ex l Hlo Hhi)
    as (m & e & k & -> & Hk & He & Hval & Hm & Hexact).
  pose proof (cut_bounds pm) as [Hbase Hbig]. cbv zeta in Hbase, Hbig.
  set (d := Zpos (digits2_pos pm)) in *. set (n := Z.max 0 (d - 53)) in *.
  set (base := Zpos pm / 2 ^ n) in *.
  exists m, e. split; [reflexivity|]. split; [exact Hm|].
  assert (Hn : 0 <= n) by (unfold n; lia).
  assert (Hpn : 0 < 2 ^ n) by (apply Z.pow_pos_nonneg; lia).
  assert (Hfloor : base * 2 ^ n <= Zpos pm < (base + 1) * 2 ^ n).
  { unfold base. pose proof (Z.mul_div_le (Zpos pm) (2 ^ n) Hpn).
    pose proof (Z.mul_succ_div_gt (Zpos pm) (2 ^ n) Hpn). lia. }
  assert (Hmag : mag m e = (IZR (base + k) * p2 (ex + n))%R).
  { unfold mag. replace e with ((e - (ex + n)) + (ex + n)) at 1 by lia.
    rewrite p2_add, (p2_IZR (e - (ex + n))) by lia.
    rewrite <- Rmult_assoc, <- mult_IZR, Hval. reflexivity. }
  pose proof (p2_pos ex) as Hpe. pose proof (p2_pos (ex + n)) as Hpen.
  assert (Hpn' : p2 (ex + n) = (p2 ex * IZR (2 ^ n))%R).
  { rewrite p2_add, (p2_IZR n) by lia. reflexivity. }
  assert (Hf1 : (IZR base * IZR (2 ^ n) <= IZR (Zpos pm))%R).
  { rewrite <- mult_IZR. apply IZR_le. lia. }
  assert (Hf2 : (IZR (Zpos pm) + 1 <= (IZR base + 1) * IZR (2 ^ n))%R).
  { rewrite <- (plus_IZR base 1), <- mult_IZR, <- (plus_IZR (Zpos pm) 1). apply IZR_le. lia. }
  unfold mag in Hx.
  assert (HbigR : 53 <= d -> (IZR (2 ^ 52) <= IZR base)%R).
  { intros Hd. apply IZR_le. exact (Hbig Hd). }
  assert (Hk' : IZR (base + k) = IZR base \/ IZR (base + k) = (IZR base + 1)%R).
  { destruct Hk as [-> | ->]; [left; f_equal; lia | right; apply plus_IZR]. }
  assert (Hexact' : l = loc_Exact -> d <= 53 ->
                    IZR (base + k) = IZR (Zpos pm) /\ p2 (ex + n) = p2 ex).
  { intros Hl Hd. rewrite (Hexact Hl Hd). unfold base, n. rewrite Z.max_l by lia.
    rewrite Z.div_1_r, !Z.add_0_r. split; reflexivity. }
  rewrite Hmag. unfold mag. rewrite Hpn' in *.
  set (B := IZR base) in *. set (N := IZR (2 ^ n)) in *. set (M := IZR (Zpos pm)) in *.
  set (E := p2 ex) in *. set (V := IZR (base + k)) in *. set (C := IZR (2 ^ 52)) in *.
  clearbody B N M E V C.
  assert (H1 : (B * N * E <= M * E)%R) by nra.
  assert (H2 : ((M + 1) * E <= (B + 1) * N * E)%R) by nra.
  split; [|split].
  - destruct Hk' as [-> | ->]; nra.
  - intros Hd. specialize (HbigR Hd). nra.
  - intros Hl Hd. destruct (Hexact' Hl Hd) as [-> HE]. rewrite HE. reflexivity.
Qed.

Lemma eps_bounds : (0 < eps < / 1000000000000000)%R.
Proof.
  unfold eps. change (2 ^ 52) with 4503599627370496. split.
  - apply Rinv_0_lt_compat. lra.
  - apply Rinv_lt_contravar; lra.
Qed.

Lemma near_refl (x : R) : (0 <= x)%R -> near x x.
Proof. intros Hx. pose proof eps_bounds. unfold near. split; nra. Qed.

Lemma p2_le_mag (m : positive) (e : Z) : (p2 e <= mag m e)%R.
Proof.
  unfold mag. pose proof (p2_pos e). assert (1 <= IZR (Zpos m))%R by (apply IZR_le; lia).
  set (P := p2 e) in *. set (M := IZR (Zpos m)) in *. clearbody P M. nra.
Qed.

Lemma binary_round_aux_near (s : bool) (pm : positive) (ex : Z) (l : location) (x : R) :
  in_range x ->
  (mag pm ex <= x < mag pm ex + p2 ex)%R ->
  53 <= Zpos (digits2_pos pm) \/ (l = loc_Exact /\ x = mag pm ex) ->
  exists m e,
    binary_round_aux Double.prec Double.emax s (Zpos pm) ex l = S754_finite s m e
    /\ Zpos m < 2 ^ 53
    /\ near (mag m e) x
    /\ (l = loc_Exact -> Zpos (digits2_pos pm) <= 53 -> mag m e = mag pm ex).
Proof.
  intros [Hrlo Hrhi] Hx Hcase.
  pose proof (mag_bounds pm ex) as [Blo Bhi]. pose proof (p2_le_mag pm ex) as Hle.
  assert (Hd1 : -1000 < Zpos (digits2_pos pm) + ex + 1).
  { apply p2_lt_inv. rewrite p2_add, p2_1.
    set (A := p2 (-1000)) in *. set (B := p2 (Zpos (digits2_pos pm) + ex)) in *.
    set (M := mag pm ex) in *. set (P := p2 ex) in *. clearbody A B M P. lra. }
  assert (Hd2 : Zpos (digits2_pos pm) + ex - 1 <= 900).
  { apply p2_le_inv. eapply Rle_trans; [exact Blo|]. lra. }
  assert (Hlo : -1074 <= Zpos (digits2_pos pm) + ex - 53) by lia.
  assert (Hhi : ex + Z.max 0 (Zpos (digits2_pos pm) - 53) <= 970).
  { pose proof (Pos2Z.is_pos (digits2_pos pm)). lia. }
  destruct (binary_round_aux_error s pm ex l x Hlo Hhi Hx)
    as (m & e & Heq & Hm & Herr & Hbig & Hexact).
  exists m, e. split; [exact Heq|]. split; [exact Hm|]. split; [|exact Hexact].
  pose proof (mag_pos pm ex) as Hpos. unfold near, eps.
  destruct (Z.le_gt_cases 53 (Zpos (digits2_pos pm))) as [Hd | Hd].
  - specialize (Hbig Hd).
    set (P := p2 (ex + Z.max 0 (Zpos (digits2_pos pm) - 53))) in *.
    change (2 ^ 52) with 4503599627370496 in *.
    assert (HP : (P <= x * / 4503599627370496)%R) by lra.
    split; lra.
  - destruct Hcase as [Hc | [Hl Hxe]]; [lia|].
    rewrite (Hexact Hl ltac:(lia)), <- Hxe.
    change (2 ^ 52) with 4503599627370496. split; nra.
Qed.

(** *** The operations *)

Lemma mul_near (mx : positive) (ex : Z) (my : positive) (ey : Z) :
  in_range (mag mx ex * mag my ey) ->
  exists m e,
    Double.mul (S754_finite false mx ex) (S754_finite false my ey) = S754_finite false m e
    /\ Zpos m < 2 ^ 53
    /\ near (mag m e) (mag mx ex * mag my ey).
Proof.
  intros Hr.
  assert (Hprod : (mag mx ex * mag my ey)%R = mag (mx * my) (ex + ey)).
  { unfold mag. rewrite p2_add, Pos2Z.inj_mul, mult_IZR. ring. }
  rewrite Hprod in *. pose proof (p2_pos (ex + ey)).
  destruct (binary_round_aux_near false (mx * my) (ex + ey) loc_Exact
              (mag (mx * my) (ex + ey)) Hr ltac:(lra) ltac:(right; split; reflexivity))
    as (m & e & Heq & Hm & Hnear & _).
  exists m, e. split; [exact Heq|]. split; [exact Hm | exact Hnear].
Qed.

Lemma shl_align_spec (mx : positive) (ex ex' : Z) :
  let '(mz, ez) := shl_align mx ex ex' in
  ez = Z.min ex ex' /\ Zpos mz = Zpos mx * 2 ^ (ex - ez).
Proof.
  unfold shl_align. destruct (ex' - ex) as [|p|p] eqn:Hd.
  - split; [lia|]. replace (ex - ex) with 0 by lia. lia.
  - split; [lia|]. replace (ex - ex) with 0 by lia. lia.
  - split; [lia|]. replace (ex - ex') with (Zpos p) by lia.
    clear Hd. revert mx. induction p as [|p IH] using Pos.peano_ind; intros mx.
    + cbn. lia.
    + rewrite Pos.iter_succ, Pos2Z.inj_succ, Z.pow_succ_r by lia.
      change (Zpos (Pos.iter xO mx p)~0) with (2 * Zpos (Pos.iter xO mx p)).
      rewrite IH. ring.
Qed.

Lemma binary_round_near (pm : positive) (ex : Z) :
  in_range (mag pm ex) ->
  exists m e,
    binary_round Double.prec Double.emax false pm ex = S754_finite false m e
    /\ Zpos m < 2 ^ 53
    /\ near (mag m e) (mag pm ex)
    /\ (Zpos (digits2_pos pm) <= 53 -> mag m e = mag pm ex).
Proof.
  intros Hr. unfold binary_round.
  assert (Hd1 : -1000 <= Zpos (digits2_pos pm) + ex).
  { pose proof (mag_bounds pm ex) as [_ Bhi]. destruct Hr as [Hrlo _].
    pose proof (p2_lt_inv _ _ (Rle_lt_trans _ _ _ Hrlo Bhi)). lia. }
  rewrite (fexp_normal (Zpos (digits2_pos pm) + ex)) by lia.
  pose proof (shl_align_spec pm ex (Zpos (digits2_pos pm) + ex - 53)) as Hal.
  destruct (shl_align pm ex (Zpos (digits2_pos pm) + ex - 53)) as [mz ez].
  destruct Hal as [Hez Hmz].
  assert (Hsame : mag mz ez = mag pm ex).
  { unfold mag. rewrite Hmz, mult_IZR, <- (p2_IZR (ex - ez)) by lia.
    rewrite Rmult_assoc, <- p2_add. do 2 f_equal. lia. }
  assert (Hdz : Zpos (digits2_pos mz) = Zpos (digits2_pos pm) + (ex - ez)).
  { apply (digits2_shift pm (ex - ez)); [lia | exact Hmz]. }
  pose proof (p2_pos ez).
  destruct (binary_round_aux_near false mz ez loc_Exact (mag mz ez))
    as (m & e & Heq & Hm & Hnear & Hexact).
  - rewrite Hsame. exact Hr.
  - lra.
  - right. split; reflexivity.
  - exists m, e. split; [exact Heq|]. split; [exact Hm|]. rewrite <- Hsame.
    split; [exact Hnear|]. intros Hd. apply Hexact; [reflexivity | lia].
Qed.

Lemma div_near (mx : positive) (ex : Z) (my : positive) (ey : Z) :
  in_range (mag mx ex / mag my ey) ->
  exists m e,
    Double.div (S754_finite false mx ex) (S754_finite false my ey) = S754_finite false m e
    /\ Zpos m < 2 ^ 53
    /\ near (mag m e) (mag mx ex / mag my ey).
Proof.
  intros Hr. unfold Double.div, SFdiv, SFdiv_core_binary. cbn [xorb Zdigits2].
  set (dx := Zpos (digits2_pos mx)). set (dy := Zpos (digits2_pos my)).
  pose proof (mag_bounds mx ex) as [Xlo Xhi]. pose proof (mag_bounds my ey) as [Ylo Yhi].
  fold dx in Xlo, Xhi. fold dy in Ylo, Yhi.
  pose proof (mag_pos mx ex) as HX. pose proof (mag_pos my ey) as HY.
  pose proof (digits2_bounds mx) as [Dxlo Dxhi]. pose proof (digits2_bounds my) as [Dylo Dyhi].
  fold dx in Dxlo, Dxhi. fold dy in Dylo, Dyhi.
  assert (Hdx : 1 <= dx) by (unfold dx; lia). assert (Hdy : 1 <= dy) by (unfold dy; lia).
  (* the quotient lies below 2^(dx+ex-dy-ey+1) *)
  assert (Hq_hi : (mag mx ex / mag my ey < p2 (dx + ex - (dy + ey) + 1))%R).
  { replace (dx + ex - (dy + ey) + 1) with ((dx + ex) - (dy + ey - 1)) by lia.
    rewrite p2_sub. pose proof (p2_pos (dy + ey - 1)).
    apply Rle_lt_trans with (mag mx ex / p2 (dy + ey - 1))%R.
    - unfold Rdiv. apply Rmult_le_compat_l; [lra|]. apply Rinv_le_contravar; lra.
    - unfold Rdiv. apply Rmult_lt_compat_r; [apply Rinv_0_lt_compat; lra | exact Xhi]. }
  assert (Hnormal : -1000 < dx + ex - (dy + ey) + 1).
  { apply p2_lt_inv. destruct Hr as [Hrlo _]. exact (Rle_lt_trans _ _ _ Hrlo Hq_hi). }
  rewrite (fexp_normal (dx + ex - (dy + ey))) by lia.
  set (e' := Z.min (dx + ex - (dy + ey) - 53) (ex - ey)).
  set (s := ex - ey - e').
  assert (Hs : 0 <= s /\ 53 - dx + dy <= s) by (unfold s, e'; lia).
  set (m' := match s with
             | 0 => Zpos mx
             | Zpos _ => Z.shiftl (Zpos mx) s
             | Zneg _ => 0
             end).
  assert (Hm' : m' = Zpos mx * 2 ^ s).
  { unfold m'. destruct s as [|p|p] eqn:Hse; [lia | | lia].
    apply Z.shiftl_mul_pow2. lia. }
  clearbody m'.
  pose proof (Z_div_mod m' (Zpos my) ltac:(lia)) as Hdm.
  destruct (Z.div_eucl m' (Zpos my)) as [q r]. destruct Hdm as [Hqr Hrem].
  assert (Hps : 0 < 2 ^ s) by (apply Z.pow_pos_nonneg; lia).
  (* the quotient of the mantissas has at least 53 digits *)
  assert (Hq52 : 2 ^ 52 <= q).
  { assert (H1 : 2 ^ (dx - 1) * 2 ^ s <= m') by (rewrite Hm'; nia).
    assert (H2 : 2 ^ (dx - 1) * 2 ^ s = 2 ^ (dx - 1 + s - dy - 52) * (2 ^ 52 * 2 ^ dy)).
    { rewrite <- !Z.pow_add_r by lia. f_equal. lia. }
    assert (H3 : 1 <= 2 ^ (dx - 1 + s - dy - 52)).
    { pose proof (Z.pow_pos_nonneg 2 (dx - 1 + s - dy - 52) ltac:(lia) ltac:(lia)). lia. }
    assert (H4 : 2 ^ 52 * 2 ^ dy <= m') by nia.
    assert (H5 : 0 < 2 ^ 52) by (vm_compute; reflexivity).
    destruct (Z.le_gt_cases (2 ^ 52) q) as [|Hlt]; [assumption|]. exfalso.
    assert (q + 1 <= 2 ^ 52) by lia.
    assert (m' < (q + 1) * Zpos my) by lia.
    assert ((q + 1) * Zpos my <= 2 ^ 52 * 2 ^ dy) by nia. lia. }
  destruct q as [|pq|pq]; [vm_compute in Hq52; contradiction Hq52; reflexivity | |
                           assert (0 < 2 ^ 52) by (vm_compute; reflexivity); lia].
  assert (Hdq : 53 <= Zpos (digits2_pos pq)).
  { pose proof (digits2_bounds pq) as [_ Bhi].
    assert (52 < Zpos (digits2_pos pq)); [|lia].
    apply (Z.pow_lt_mono_r_iff 2); lia. }
  (* the exact quotient, between two neighbours at the exponent e' *)
  assert (Hexact : (mag mx ex / mag my ey
                    = (IZR (Zpos pq) + IZR r / IZR (Zpos my)) * p2 e')%R).
  { unfold mag. replace ex with (s + e' + ey) at 1 by (unfold s; lia).
    rewrite !p2_add, (p2_IZR s) by lia.
    assert (HmR : (IZR (Zpos mx) * IZR (2 ^ s) = IZR (Zpos my) * IZR (Zpos pq) + IZR r)%R).
    { rewrite <- mult_IZR, <- Hm', Hqr, plus_IZR, mult_IZR. reflexivity. }
    pose proof (p2_pos ey). pose proof (p2_pos e').
    assert (HmyR : (0 < IZR (Zpos my))%R) by (apply IZR_lt; lia).
    field_simplify_eq; [|lra].
    set (A := IZR (Zpos mx)) in *. set (B := IZR (2 ^ s)) in *. set (C := IZR (Zpos my)) in *.
    set (Q := IZR (Zpos pq)) in *. set (Rr := IZR r) in *.
    set (P1 := p2 e') in *. set (P2 := p2 ey) in *. clearbody A B C Q Rr P1 P2.
    replace (A * B * P1 * P2)%R with ((A * B) * P1 * P2)%R by ring. rewrite HmR. ring. }
  assert (Hfrac : (0 <= IZR r / IZR (Zpos my) < 1)%R).
  { assert (HmyR : (0 < IZR (Zpos my))%R) by (apply IZR_lt; lia).
    destruct Hrem as [Hr0 Hr1]. apply IZR_le in Hr0. apply IZR_lt in Hr1. split.
    - apply Rmult_le_pos; [exact Hr0 | apply Rlt_le, Rinv_0_lt_compat, HmyR].
    - apply (Rmult_lt_reg_r (IZR (Zpos my))); [exact HmyR|]. field_simplify; lra. }
  pose proof (p2_pos e') as Hpe'.
  destruct (binary_round_aux_near false pq e' (new_location (Zpos my) r)
              (mag mx ex / mag my ey) Hr)
    as (m & e & Heq & Hm & Hnear & _).
  - rewrite Hexact. unfold mag.
    set (Q := IZR (Zpos pq)) in *. set (F := (IZR r / IZR (Zpos my))%R) in *.
    set (P := p2 e') in *. clearbody Q F P. split; nra.
  - left. exact Hdq.
  - exists m, e. split; [exact Heq|]. split; [exact Hm | exact Hnear].
Qed.

Lemma mag_shift (m q : positive) (e ez : Z) :
  ez <= e -> Zpos q = Zpos m * 2 ^ (e - ez) -> mag q ez = mag m e.
Proof.
  intros Hle Hq. unfold mag. rewrite Hq, mult_IZR, <- (p2_IZR (e - ez)) by lia.
  rewrite Rmult_assoc, <- p2_add. do 2 f_equal. lia.
Qed.

Lemma sub_near (mx : positive) (ex : Z) (my : positive) (ey : Z) :
  in_range (mag mx ex - mag my ey) ->
  exists m e,
    Double.sub (S754_finite false mx ex) (S754_finite false my ey) = S754_finite false m e
    /\ Zpos m < 2 ^ 53
    /\ near (mag m e) (mag mx ex - mag my ey).
Proof.
  intros Hr. unfold Double.sub, SFsub. cbn [cond_Zopp].
  set (ez := Z.min ex ey).
  assert (Hle : ez <= ex /\ ez <= ey) by (unfold ez; lia).
  pose proof (shl_align_spec mx ex ez) as Hax. pose proof (shl_align_spec my ey ez) as Hay.
  destruct (shl_align mx ex ez) as [ax ezx]. destruct (shl_align my ey ez) as [ay ezy].
  destruct Hax as [Hezx Hax]. destruct Hay as [Hezy Hay]. cbn [fst].
  replace ezx with ez in Hax by lia. replace ezy with ez in Hay by lia.
  clear Hezx Hezy.
  pose proof (mag_shift mx ax ex ez ltac:(lia) Hax) as Hmx.
  pose proof (mag_shift my ay ey ez ltac:(lia) Hay) as Hmy.
  assert (Hdiff : (IZR (Zpos ax - Zpos ay) * p2 ez = mag mx ex - mag my ey)%R).
  { rewrite <- Hmx, <- Hmy. unfold mag. rewrite minus_IZR. ring. }
  assert (Hpos : 0 < Zpos ax - Zpos ay).
  { apply lt_IZR. pose proof (p2_pos ez) as Hp. destruct Hr as [Hrlo _].
    pose proof (p2_pos (-1000)).
    apply (Rmult_lt_reg_r (p2 ez)); [exact Hp|]. rewrite Hdiff. lra. }
  destruct (Zpos ax - Zpos ay) as [|pz|pz] eqn:Hz; [lia | | lia].
  cbn [binary_normalize]. change (IZR (Zpos pz) * p2 ez)%R with (mag pz ez) in Hdiff.
  rewrite <- Hdiff in *.
  destruct (binary_round_near pz ez Hr) as (m & e & Heq & Hm & Hnear & _).
  exists m, e. split; [exact Heq|]. split; [exact Hm | exact Hnear].
Qed.

(** A double with a mantissa of at most 53 digits, as every result is. *)
Lemma digits_small (m : positive) : Zpos m < 2 ^ 53 -> Zpos (digits2_pos m) <= 53.
Proof.
  intros Hm. pose proof (digits2_bounds m) as [Blo _].
  assert (Zpos (digits2_pos m) - 1 < 53); [|lia].
  apply (Z.pow_lt_mono_r_iff 2); lia.
Qed.

(** An integer of at most 53 digits is a double. *)
Lemma nearest_exact (p : positive) :
  Zpos p < 2 ^ 53 ->
  exists m e,
    Double.nearest (Zpos p) = S754_finite false m e
    /\ Zpos m < 2 ^ 53 /\ mag m e = IZR (Zpos p).
Proof.
  intros Hp. unfold Double.nearest. cbn [binary_normalize].
  assert (Hmag : mag p 0 = IZR (Zpos p)) by (unfold mag; rewrite p2_0; ring).
  destruct (binary_round_near p 0) as (m & e & Heq & Hm & _ & Hexact).
  - rewrite Hmag. split.
    + apply Rle_trans with (p2 0); [apply p2_le; lia|]. rewrite p2_0. apply IZR_le. lia.
    + apply Rle_trans with (p2 53); [|apply p2_le; lia].
      rewrite (p2_IZR 53) by lia. apply IZR_le. lia.
  - exists m, e. split; [exact Heq|]. split; [exact Hm|].
    rewrite <- Hmag. apply Hexact, digits_small, Hp.
Qed.

(** *** The integral part and the rest *)

Lemma modf_spec (m : positive) (e : Z) :
  Zpos m < 2 ^ 53 -> -1000 <= e ->
  let x := S754_finite false m e in
  0 <= Double.trunc x
  /\ ((Double.is_zero (Double.frac x) = true /\ mag m e = IZR (Double.trunc x))
      \/ exists m' e',
           Double.frac x = S754_finite false m' e'
           /\ Zpos m' < 2 ^ 53
           /\ (0 < mag m' e' < 1)%R
           /\ mag m e = (IZR (Double.trunc x) + mag m' e')%R
           /\ (p2 e <= mag m' e')%R).
Proof.
  cbv zeta. intros Hm He. unfold Double.trunc, Double.frac. cbn [cond_Zopp].
  destruct (Z.leb_spec 0 e) as [Hpos | Hneg].
  - split; [pose proof (Z.pow_pos_nonneg 2 e ltac:(lia) Hpos); nia|].
    left. split; [reflexivity|]. unfold mag. rewrite mult_IZR, p2_IZR by lia. reflexivity.
  - set (N := 2 ^ (- e)).
    assert (HN : 0 < N) by (apply Z.pow_pos_nonneg; lia).
    assert (HNR : p2 e = (/ IZR N)%R).
    { unfold N. rewrite <- p2_IZR by lia. unfold p2.
      replace e with (- (- e)) at 1 by lia. apply powerRZ_neg'. }
    assert (HNpos : (0 < IZR N)%R) by (apply IZR_lt; exact HN).
    pose proof (Z.div_mod (Zpos m) N ltac:(lia)) as Hdm.
    pose proof (Z.mod_pos_bound (Zpos m) N HN) as [Hf0 Hf1].
    split; [apply Z.div_pos; lia|].
    assert (Hval : mag m e = (IZR (Zpos m / N) + IZR (Zpos m mod N) * p2 e)%R).
    { unfold mag. rewrite Hdm at 1. rewrite plus_IZR, mult_IZR, HNR. field. lra. }
    destruct (Zpos m mod N) as [|pf|pf] eqn:Hmod; [| |lia].
    + left. split; [reflexivity|]. rewrite Hval. lra.
    + right. cbn [binary_normalize].
      assert (Hpf : Zpos pf < 2 ^ 53).
      { assert (Zpos m mod N <= Zpos m) by (apply Z.mod_le; lia). lia. }
      assert (Hlt1 : (0 < mag pf e < 1)%R).
      { split; [apply mag_pos|]. unfold mag. rewrite HNR.
        apply IZR_lt in Hf1. apply (Rmult_lt_reg_r (IZR N)); [exact HNpos|].
        field_simplify; lra. }
      destruct (binary_round_near pf e) as (m' & e' & Heq & Hm' & _ & Hexact).
      * split.
        -- apply Rle_trans with (p2 e); [apply p2_le; lia | apply p2_le_mag].
        -- apply Rle_trans with (p2 0); [rewrite p2_0; lra | apply p2_le; lia].
      * specialize (Hexact (digits_small pf Hpf)).
        exists m', e'. split; [exact Heq|]. split; [exact Hm'|].
        rewrite Hexact. split; [exact Hlt1|]. split; [exact Hval|].
        apply p2_le_mag.
Qed.

Lemma round_leftover_spec (m : positive) (e x : Z) :
  (0 < mag m e < 1)%R ->
  ((mag m e < 1 / 2)%R -> round_leftover (S754_finite false m e) x = 0)
  /\ ((1 / 2 < mag m e)%R -> round_leftover (S754_finite false m e) x = 1).
Proof.
  intros [_ H1]. unfold round_leftover.
  assert (He : e < 0).
  { destruct (Z_lt_le_dec e 0) as [|Hge]; [assumption|exfalso].
    pose proof (p2_le_mag m e) as Hle. pose proof (p2_le 0 e Hge) as H0.
    rewrite p2_0 in H0. lra. }
  destruct (Z.leb_spec 0 e) as [|_]; [lia|]. cbn [cond_Zopp].
  set (N := 2 ^ (- e)).
  assert (HN : 0 < N) by (apply Z.pow_pos_nonneg; lia).
  assert (HNR : p2 e = (/ IZR N)%R).
  { unfold N. rewrite <- p2_IZR by lia. unfold p2.
    replace e with (- (- e)) at 1 by lia. apply powerRZ_neg'. }
  assert (HNpos : (0 < IZR N)%R) by (apply IZR_lt; exact HN).
  assert (Hval : (mag m e * IZR N = IZR (Zpos m))%R).
  { unfold mag. rewrite HNR. field. lra. }
  split; intros Hh.
  - assert (Hlt : 2 * Zpos m < N).
    { apply lt_IZR. rewrite mult_IZR, <- Hval.
      apply (Rmult_lt_compat_r (IZR N)) in Hh; [|exact HNpos]. lra. }
    apply Z.compare_lt_iff in Hlt. rewrite Hlt. reflexivity.
  - assert (Hgt : N < 2 * Zpos m).
    { apply lt_IZR. rewrite mult_IZR, <- Hval.
      apply (Rmult_lt_compat_r (IZR N)) in Hh; [|exact HNpos]. lra. }
    apply Z.compare_gt_iff in Hgt. rewrite Hgt. reflexivity.
Qed.

Lemma exp_lower (m : positive) (e k : Z) :
  Zpos m < 2 ^ 53 -> (p2 k <= mag m e)%R -> k - 53 <= e.
Proof.
  intros Hm Hk.
  assert (Hlt : (mag m e < p2 (53 + e))%R).
  { unfold mag. rewrite p2_add, (p2_IZR 53) by lia.
    apply Rmult_lt_compat_r; [apply p2_pos | apply IZR_lt; exact Hm]. }
  pose proof (p2_lt_inv _ _ (Rle_lt_trans _ _ _ Hk Hlt)). lia.
Qed.

Lemma p2_m30 : p2 (-30) = (/ 1073741824)%R.
Proof.
  unfold p2. change (-30) with (Z.opp 30). rewrite powerRZ_neg'.
  f_equal. change (powerRZ 2 30) with (p2 30). rewrite (p2_IZR 30) by lia. reflexivity.
Qed.

Lemma in_range_mid (x : R) :
  (/ 1073741824 <= x <= 1267650600228229401496703205376)%R -> in_range x.
Proof.
  intros [Hlo Hhi]. split.
  - apply Rle_trans with (p2 (-30)); [apply p2_le; lia|].
    rewrite p2_m30. exact Hlo.
  - apply Rle_trans with (p2 100); [|apply p2_le; lia].
    rewrite (p2_IZR 100) by lia. exact Hhi.
Qed.

Lemma near_abs (v x : R) :
  near v x -> (0 <= x)%R ->
  (x - x / 1000000000000000 <= v <= x + x / 1000000000000000)%R.
Proof.
  intros [Hlo Hhi] Hx. pose proof eps_bounds as [Hu0 Hu1].
  assert (Hxu : (x * eps <= x / 1000000000000000)%R).
  { unfold Rdiv. apply Rmult_le_compat_l; [exact Hx|]. lra. }
  lra.
Qed.

Lemma int_zero (k : Z) : (-1 < IZR k < 1)%R -> k = 0.
Proof.
  intros [Hlo Hhi]. apply lt_IZR in Hlo, Hhi. lia.
Qed.

Lemma is_zero_inv (x : spec_float) :
  Double.is_zero x = true -> exists s, x = S754_zero s.
Proof. destruct x; try discriminate. eauto. Qed.

(** A double within two fifths of a microsecond of a whole number of
    microseconds becomes that number. *)
Lemma timedelta_of_float_minutes_exact (m : positive) (e T : Z) :
  Zpos m < 2 ^ 53 ->
  1 <= T <= 60000000000000 ->
  (IZR T - 2 / 5 <= 60000000 * mag m e <= IZR T + 2 / 5)%R ->
  timedelta_of_float_minutes (S754_finite false m e) = new_timedelta T.
Proof.
  intros Hm HT Hv. set (v := mag m e) in *.
  assert (HTR : (1 <= IZR T <= 60000000000000)%R) by (split; apply IZR_le; lia).
  assert (He : -83 <= e).
  { apply (exp_lower m e (-30) Hm). rewrite p2_m30. fold v. lra. }
  unfold timedelta_of_float_minutes.
  destruct (modf_spec m e Hm ltac:(lia)) as [Hq [[Hz Hval] | (m' & e' & Hf & Hm' & Hf01 & Hval & Hfe)]].
  - rewrite Hz. f_equal. fold v in Hval.
    assert (Double.trunc (S754_finite false m e) * us_per_minute - T = 0); [|lia].
    apply int_zero. change us_per_minute with 60000000.
    rewrite minus_IZR, mult_IZR, <- Hval. lra.
  - rewrite Hf. cbn [Double.is_zero]. fold v in Hval.
    set (q := Double.trunc (S754_finite false m e)) in *.
    set (f := mag m' e') in *.
    change us_per_minute with 60000000.
    destruct (nearest_exact 60000000 ltac:(lia)) as (mc & ec & Hc & Hmc & Hcv).
    rewrite Hc.
    assert (Hfe' : (p2 (-83) <= f)%R).
    { apply Rle_trans with (p2 e); [apply p2_le; lia | exact Hfe]. }
    pose proof (p2_pos (-83)) as Hp83.
    destruct (mul_near mc ec m' e') as (m2 & e2 & Hd & Hm2 & Hdn).
    { rewrite Hcv. fold f. split.
      - apply Rle_trans with (p2 (-83)); [apply p2_le; lia | lra].
      - apply Rle_trans with (p2 100); [|apply p2_le; lia].
        rewrite (p2_IZR 100) by lia. lra. }
    rewrite Hd. rewrite Hcv in Hdn. fold f in Hdn.
    apply near_abs in Hdn; [|lra].
    set (d := mag m2 e2) in *.
    assert (He2 : -136 <= e2).
    { apply (exp_lower m2 e2 (-83) Hm2). fold d. lra. }
    destruct (modf_spec m2 e2 Hm2 ltac:(lia))
      as [Hq2 [[Hz2 Hval2] | (m3 & e3 & Hf3 & Hm3 & Hl01 & Hval2 & _)]].
    + destruct (is_zero_inv _ Hz2) as [s3 Hs3]. rewrite Hs3. cbn [round_leftover].
      f_equal. fold d in Hval2.
      set (q2 := Double.trunc (S754_finite false m2 e2)) in *.
      assert (q * 60000000 + q2 + 0 - T = 0); [|lia].
      apply int_zero. rewrite minus_IZR, !plus_IZR, mult_IZR, <- Hval2.
      change (IZR 0) with 0%R. lra.
    + rewrite Hf3. fold d in Hval2.
      set (q2 := Double.trunc (S754_finite false m2 e2)) in *.
      set (l := mag m3 e3) in *.
      destruct (round_leftover_spec m3 e3 (q * 60000000 + q2) Hl01) as [Hlow Hhigh].
      fold l in Hlow, Hhigh. f_equal.
      destruct (Rlt_or_le l (1 / 2)) as [Hl | Hl].
      * rewrite (Hlow Hl).
        assert (q * 60000000 + q2 + 0 - T = 0); [|lia].
        apply int_zero. rewrite minus_IZR, !plus_IZR, mult_IZR.
        change (IZR 0) with 0%R. lra.
      * assert (Hk : q * 60000000 + q2 + 1 - T = 0).
        { apply int_zero. rewrite minus_IZR, !plus_IZR, mult_IZR. lra. }
        assert (Hl' : (1 / 2 < l)%R).
        { destruct Hl as [Hl | Hl]; [exact Hl|exfalso].
          assert (HTq : (IZR T = IZR q * 60000000 + IZR q2 + 1)%R).
          { rewrite <- (mult_IZR q 60000000), <- !plus_IZR. f_equal. lia. }
          lra. }
        rewrite (Hhigh Hl'). lia.
Qed.

Lemma mag_0 (p : positive) : mag p 0 = IZR (Zpos p).
Proof. unfold mag. rewrite p2_0. ring. Qed.

Lemma new_timedelta_small (us : Z) :
  0 <= us <= 60000000000000 -> new_timedelta us = Ret us.
Proof.
  intros H. unfold new_timedelta.
  assert (Hq : 0 <= us / us_per_day <= 999999999).
  { change us_per_day with 86400000000. split.
    - apply Z.div_pos; lia.
    - apply Z.lt_succ_r, Z.div_lt_upper_bound; lia. }
  rewrite Z.abs_eq by lia.
  destruct (Z.leb_spec (us / us_per_day) max_delta_days) as [|Hgt]; [reflexivity|].
  unfold max_delta_days in Hgt. lia.
Qed.

(** Within the interval's reach of a million minutes the estimate is the
    exact one: the three roundings of the quotient and of the difference,
    and the one of the product, stay under half a microsecond together. *)
Lemma remaining_estimate_small (now last : datetime) (interval : Z) :
  0 < interval <= 1000000 ->
  0 <= now - last < minutes interval ->
  remaining_estimate now last interval
  = datetime_add now (minutes interval - (now - last)).
Proof.
  intros HI HD. unfold remaining_estimate, minutes in *.
  change us_per_minute with 60000000 in *. change us_per_second with 1000000.
  set (D := now - last) in *. set (T := interval * 60000000 - D).
  assert (HT : 1 <= T <= 60000000000000) by (unfold T; lia).
  destruct interval as [|pI|pI]; [lia | | lia].
  destruct (nearest_exact pI ltac:(lia)) as (mi & ei & Hi & Hmi & Hiv).
  unfold Double.of_int. rewrite Hi. cbn [rbind].
  enough (Htd : timedelta_of_float_minutes
                  (Double.sub (S754_finite false mi ei)
                     (Double.div (Double.true_divide D 1000000) (Double.nearest 60)))
                = Ret T) by (rewrite Htd; reflexivity).
  assert (HIR : (1 <= IZR (Zpos pI) <= 1000000)%R) by (split; apply IZR_le; lia).
  destruct (nearest_exact 60 ltac:(lia)) as (m60 & e60 & H60 & Hm60 & H60v).
  rewrite H60.
  destruct D as [|pD|pD] eqn:HDeq; [| | lia].
  - (* no time has passed *)
    cbn [Double.true_divide Double.raw SFdiv Double.div xorb Double.sub SFsub].
    rewrite (timedelta_of_float_minutes_exact mi ei T Hmi HT).
    + apply new_timedelta_small. lia.
    + rewrite Hiv. unfold T. rewrite minus_IZR, mult_IZR. change (IZR 0) with 0%R. lra.
  - assert (HDR : (1 <= IZR (Zpos pD) <= 60000000000000)%R) by (split; apply IZR_le; lia).
    assert (HDT : (IZR T = IZR (Zpos pI) * 60000000 - IZR (Zpos pD))%R).
    { unfold T. rewrite minus_IZR, mult_IZR. reflexivity. }
    unfold Double.true_divide. cbn [Double.raw].
    destruct (div_near pD 0 1000000 0) as (ms & es & Hs & Hms & Hsn).
    { rewrite !mag_0. apply in_range_mid. split.
      - apply Rle_trans with (1 / 1000000)%R; [lra|].
        unfold Rdiv. apply Rmult_le_compat_r; lra.
      - apply Rle_trans with (60000000000000 / 1000000)%R; [|lra].
        unfold Rdiv. apply Rmult_le_compat_r; lra. }
    change (SFdiv Double.prec Double.emax) with Double.div.
    rewrite Hs. rewrite !mag_0 in Hsn.
    apply near_abs in Hsn; [|unfold Rdiv; apply Rmult_le_pos; lra].
    set (S := mag ms es) in *.
    set (a := (IZR (Zpos pD) / 1000000)%R) in *.
    assert (Ha : (1 / 1000000 <= a <= 60000000)%R).
    { unfold a, Rdiv. split.
      - apply Rmult_le_compat_r; lra.
      - apply Rle_trans with (60000000000000 * / 1000000)%R; [|lra].
        apply Rmult_le_compat_r; lra. }
    destruct (div_near ms es m60 e60) as (me & ee & He & Hme & Hen).
    { rewrite H60v. fold S. apply in_range_mid. unfold Rdiv. lra. }
    rewrite He. rewrite H60v in Hen. fold S in Hen.
    apply near_abs in Hen; [|unfold Rdiv; lra].
    set (E := mag me ee) in *.
    assert (HaD : (a * 1000000 = IZR (Zpos pD))%R) by (unfold a; field).
    assert (HDI : (IZR (Zpos pD) <= IZR (Zpos pI) * 60000000 - 1)%R).
    { rewrite <- (mult_IZR (Zpos pI) 60000000), <- minus_IZR. apply IZR_le. lia. }
    destruct (sub_near mi ei me ee) as (mr & er & Hr & Hmr & Hrn).
    { rewrite Hiv. fold E. apply in_range_mid. unfold Rdiv in *. lra. }
    rewrite Hr. rewrite Hiv in Hrn. fold E in Hrn.
    apply near_abs in Hrn; [|unfold Rdiv in *; lra].
    rewrite (timedelta_of_float_minutes_exact mr er T Hmr HT).
    + apply new_timedelta_small. lia.
    + rewrite HDT. unfold Rdiv in *. lra.
Qed.

(** ** The parts of an iteration *)

Lemma is_in_spec (x : Z) (xs : list Z) : is_in x xs = true <-> In x xs.
Proof.
  unfold is_in. rewrite existsb_exists. split.
  - intros (y & Hy & Heq). apply Z.eqb_eq in Heq. subst. exact Hy.
  - intros H. exists x. split; [exact H | apply Z.eqb_refl].
Qed.

Lemma in_any_period_spec (periods : list period) (t : time) (b : bool) :
  in_any_period periods t = Ret b ->
  (b = true <-> Exists (window_holds t) periods).
Proof.
  induction periods as [|p rest IH]; simpl.
  - intros [= <-]. rewrite Exists_nil. split; [discriminate | tauto].
  - rewrite Exists_cons. unfold window_holds at 1.
    destruct (parse_time (p_start p)) as [[s|]|e1]; simpl; try discriminate;
      (destruct (parse_time (p_end p)) as [[e|]|e2]; simpl; try discriminate).
    + destruct (time_in_range s e t) eqn:Hr.
      * intros [= <-]. split; [intros _; left; eauto | reflexivity].
      * intros H. rewrite (IH H). split; [tauto|].
        intros [(s' & e' & [= <-] & [= <-] & Hr')|H']; [congruence | exact H'].
    + intros H. rewrite (IH H). split; [tauto|].
      intros [(s' & e' & _ & [=] & _)|H']; exact H'.
    + intros H. rewrite (IH H). split; [tauto|].
      intros [(s' & e' & [=] & _)|H']; exact H'.
    + intros H. rewrite (IH H). split; [tauto|].
      intros [(s' & e' & [=] & _)|H']; exact H'.
Qed.

Lemma interval_over_spec (now last interval : Z) :
  interval_over now last interval = true <->
  interval * 60 * us_per_second <= now - last.
Proof. unfold interval_over, seconds. apply Z.leb_le. Qed.

(** The sum [now + timedelta(minutes=interval)]: it is the exact one when
    it is a moment of the calendar, and an [OverflowError] otherwise. *)
Lemma new_timedelta_cases (us : Z) :
  (Z.abs (us / us_per_day) <= max_delta_days /\ new_timedelta us = Ret us)
  \/ (~ Z.abs (us / us_per_day) <= max_delta_days
      /\ new_timedelta us = Raise OverflowError).
Proof.
  unfold new_timedelta.
  destruct (Z.leb_spec (Z.abs (us / us_per_day)) max_delta_days); [left | right];
    (split; [lia | reflexivity]).
Qed.

Lemma datetime_add_cases (t d : Z) :
  (datetime_min <= t + d <= datetime_max /\ datetime_add t d = Ret (t + d))
  \/ (~ datetime_min <= t + d <= datetime_max
      /\ datetime_add t d = Raise OverflowError).
Proof.
  unfold datetime_add. cbv zeta.
  destruct (Z.leb_spec datetime_min (t + d)), (Z.leb_spec (t + d) datetime_max);
    cbn [andb]; [left | right | right | right]; (split; [lia | reflexivity]).
Qed.

Lemma add_minutes_cases (cfg : config) (now : datetime) :
  (interval_fits cfg now
   /\ add_minutes now (interval_minutes cfg)
      = Ret (now + minutes (interval_minutes cfg)))
  \/ (~ interval_fits cfg now
      /\ add_minutes now (interval_minutes cfg) = Raise OverflowError).
Proof.
  unfold add_minutes, timedelta_of_minutes, interval_fits.
  fold (minutes (interval_minutes cfg)).
  destruct (new_timedelta_cases (minutes (interval_minutes cfg))) as [[Hd ->] | [Hd ->]];
    cbn [rbind]; [|right; split; [tauto | reflexivity]].
  destruct (datetime_add_cases now (minutes (interval_minutes cfg)))
    as [[Hs ->] | [Hs ->]]; [left | right]; (split; [tauto | reflexivity]).
Qed.

Lemma timedelta_of_float_minutes_raises (r : spec_float) (e : exn) :
  timedelta_of_float_minutes r = Raise e ->
  e = OverflowError \/ (e = ValueError /\ r = S754_nan).
Proof.
  unfold timedelta_of_float_minutes.
  assert (Hn : forall us, new_timedelta us = Raise e -> e = OverflowError).
  { intros us. destruct (new_timedelta_cases us) as [[_ ->] | [_ ->]]; congruence. }
  destruct r; try (destruct (Double.is_zero _)); intros H;
    try (left; apply Hn in H; exact H); injection H as <-; auto.
Qed.

(** The operations of [Double] on an interval of [2 ^ 28] minutes and
    2502.552038 seconds, and the same as the primitive floats compute
    them. *)
Example double_primitive :
  Prim2SF (PrimFloat.sub 268435456%float
             (PrimFloat.div (PrimFloat.div 2502552038%float 1000000%float) 60%float))
  = Double.sub (Double.nearest 268435456)
      (Double.div (Double.true_divide 2502552038 1000000) (Double.nearest 60)).
Proof. vm_compute. reflexivity. Qed.

(** *** What the operations never return *)

Lemma shr_nonneg (r : shr_record) (e n : Z) :
  0 <= shr_m r -> 0 <= shr_m (shr r e n).1.
Proof.
  intros Hr. destruct (shr_spec r e n Hr) as [-> _].
  apply Z.div_pos; [exact Hr|]. apply Z.pow_pos_nonneg; lia.
Qed.

Lemma binary_round_aux_not_nan (s : bool) (m e : Z) (l : location) :
  0 <= m -> binary_round_aux Double.prec Double.emax s m e l <> S754_nan.
Proof.
  intros Hm. unfold binary_round_aux, shr_fexp.
  match goal with |- context [shr ?r ?e0 ?n] =>
    pose proof (shr_nonneg r e0 n) as H1; destruct (shr r e0 n) as [mrs1 e1]
  end.
  rewrite shr_record_of_loc_m in H1. specialize (H1 Hm). cbn [fst] in H1.
  assert (H2 : 0 <= round_nearest_even (shr_m mrs1) (loc_of_shr_record mrs1)).
  { destruct (round_nearest_even_cases (shr_m mrs1) (loc_of_shr_record mrs1))
      as [[-> | ->] _]; lia. }
  match goal with |- context [shr ?r ?e0 ?n] =>
    pose proof (shr_nonneg r e0 n) as H3; destruct (shr r e0 n) as [mrs2 e2]
  end.
  rewrite shr_record_of_loc_m in H3. specialize (H3 H2). cbn [fst] in H3.
  destruct (shr_m mrs2); [discriminate | | lia].
  destruct (e2 <=? Double.emax - Double.prec); discriminate.
Qed.

Lemma binary_normalize_not_nan (m e : Z) (s : bool) :
  binary_normalize Double.prec Double.emax m e s <> S754_nan.
Proof.
  destruct m as [|p|p]; cbn [binary_normalize]; [discriminate | |];
    unfold binary_round; destruct (shl_align _ _ _) as [mz ez];
    apply binary_round_aux_not_nan; lia.
Qed.

Lemma div_not_nan (x : spec_float) (s : bool) (m : positive) (e : Z) :
  x <> S754_nan -> Double.div x (S754_finite s m e) <> S754_nan.
Proof.
  intros Hx. destruct x as [sx|sx| |sx mx ex]; cbn; try discriminate; [contradiction|].
  unfold SFdiv_core_binary.
  match goal with |- context [Z.div_eucl ?a ?b] =>
    pose proof (Z.div_pos a b) as Hq; unfold Z.div in Hq;
    assert (Ha : 0 <= a); [|destruct (Z.div_eucl a b) as [q r]]
  end.
  { match goal with |- 0 <= match ?s0 with _ => _ end =>
      destruct s0; [lia | apply Z.shiftl_nonneg; lia | lia]
    end. }
  apply binary_round_aux_not_nan, Hq; [exact Ha | lia].
Qed.

Lemma sub_not_nan (x y : spec_float) :
  x <> S754_nan -> (forall s, x <> S754_infinity s) -> y <> S754_nan ->
  Double.sub x y <> S754_nan.
Proof.
  intros Hx Hi Hy. unfold Double.sub.
  destruct x as [sx|sx| |sx mx ex]; [| exfalso; exact (Hi sx eq_refl) | contradiction |];
    destruct y as [sy|sy| |sy my ey]; cbn [SFsub]; try discriminate; try contradiction.
  - destruct sx, sy; discriminate.
  - apply binary_normalize_not_nan.
Qed.

(** The estimate raises nothing but an [OverflowError]. *)
Lemma remaining_estimate_raises (now last : datetime) (interval : Z) (e : exn) :
  remaining_estimate now last interval = Raise e -> e = OverflowError.
Proof.
  unfold remaining_estimate, Double.of_int.
  pose proof (binary_normalize_not_nan interval 0 false) as Hn.
  fold (Double.nearest interval) in Hn.
  set (elapsed := Double.div _ _).
  assert (He : elapsed <> S754_nan).
  { unfold elapsed. destruct (nearest_exact 60 ltac:(lia)) as (m60 & e60 & -> & _).
    apply div_not_nan. unfold Double.true_divide.
    change (Double.raw us_per_second) with (S754_finite false 1000000 0).
    apply div_not_nan. destruct (now - last); discriminate. }
  assert (Hs : forall x, x <> S754_nan -> (forall s, x <> S754_infinity s) ->
               (d <- timedelta_of_float_minutes (Double.sub x elapsed) ;;
                datetime_add now d)%result = Raise e -> e = OverflowError).
  { intros x Hx Hi. pose proof (sub_not_nan x elapsed Hx Hi He) as Hr.
    destruct (timedelta_of_float_minutes (Double.sub x elapsed)) as [d|e'] eqn:Ht;
      cbn [rbind].
    - destruct (datetime_add_cases now d) as [[_ ->] | [_ ->]]; congruence.
    - apply timedelta_of_float_minutes_raises in Ht.
      destruct Ht as [-> | [_ Hnan]]; [congruence | contradiction]. }
  destruct (Double.nearest interval) as [s|s| |s m ex] eqn:Hi; cbn [rbind];
    [ | congruence | contradiction | ]; apply Hs; discriminate.
Qed.

Lemma in_any_period_total periods t :
  Forall (fun p => parses (p_start p) /\ parses (p_end p)) periods ->
  exists b, in_any_period periods t = Ret b.
Proof.
  induction 1 as [|p rest [[s Hs] [e He]] _ [b IH]]; cbn [in_any_period]; [eauto|].
  rewrite Hs, He. cbn [rbind].
  destruct s as [s|], e as [e|]; eauto. destruct (time_in_range s e t); eauto.
Qed.

Lemma today_start_times_total periods today now :
  Forall (fun p => parses (p_start p) /\ parses (p_end p)) periods ->
  exists ts, today_start_times periods today now = Ret ts.
Proof.
  induction 1 as [|p rest [[s Hs] _] _ [ts IH]]; cbn [today_start_times]; [eauto|].
  rewrite Hs, IH. cbn [rbind]. destruct s; eauto.
Qed.

Lemma block_end_times_total periods today now :
  Forall (fun p => parses (p_start p) /\ parses (p_end p)) periods ->
  exists ts, block_end_times periods today now = Ret ts.
Proof.
  induction 1 as [|p rest [_ [e He]] _ [ts IH]]; cbn [block_end_times]; [eauto|].
  rewrite He, IH. cbn [rbind]. destruct e; eauto.
Qed.

(** *** The parts, for a given configuration and clock reading *)

Section Iteration.

Variable cfg : config.
Variable now : datetime.

Lemma off_work_check_cases wd st :
  off_work_check cfg now wd st = (Ret tt, st, [])
  \/ off_work_check cfg now wd st = (Raise OverflowError, st, [])
  \/ (off_work_check cfg now wd st = (Ret tt, latched st (dt_date now), [EndOfShift])
      /\ last_off_work_reminder_date st <> Some (dt_date now)).
Proof.
  unfold off_work_check. sched_unfold.
  destruct (wd && off_work_reminder_enabled cfg && truthy (off_work_time cfg));
    [|left; reflexivity].
  destruct (parse_time (off_work_time cfg)) as [[t|]|e] eqn:Hp; simpl.
  - destruct (Z.abs _ <=? seconds 30); simpl; [|left; reflexivity].
    case_bool_decide as Hd; simpl; [left; reflexivity|].
    right; right. split; [reflexivity | exact Hd].
  - left; reflexivity.
  - right; left. apply parse_time_raises in Hp. subst. reflexivity.
Qed.

Lemma off_work_check_due st :
  end_of_shift_due cfg now ->
  last_off_work_reminder_date st <> Some (dt_date now) ->
  off_work_check cfg now (is_in (weekday_of now) (workdays cfg)) st
  = (Ret tt, latched st (dt_date now), [EndOfShift]).
Proof.
  intros (Hwd & Hen & t & Htr & Hp & Hdiff) Hl.
  apply is_in_spec in Hwd. apply Z.leb_le in Hdiff.
  unfold off_work_check. sched_unfold.
  rewrite Hwd, Hen, Htr, Hp. simpl. rewrite Hdiff. simpl.
  case_bool_decide; [contradiction | reflexivity].
Qed.

Lemma regular_reminder_cases iw ib st :
  let interval := interval_minutes cfg in
  let noted := mkState false (Some now) (next_reminder st)
                       (last_off_work_reminder_date st) in
  if iw && negb ib then
    if is_first_start st
    then regular_reminder cfg now iw ib st = stored (add_minutes now interval) noted []
    else match last_reminder_time st with
         | None =>
             regular_reminder cfg now iw ib st
             = stored (add_minutes now interval) noted [StandUp]
         | Some last =>
             if interval_over now last interval
             then regular_reminder cfg now iw ib st
                  = stored (add_minutes now interval) noted [StandUp]
             else regular_reminder cfg now iw ib st
                  = stored (remaining_estimate now last interval) st []
         end
  else match next_times cfg now with
       | Ret times =>
           regular_reminder cfg now iw ib st
           = (Ret tt,
              mkState (is_first_start st) (last_reminder_time st)
                      (Some (earliest now times)) (last_off_work_reminder_date st), [])
       | Raise e => regular_reminder cfg now iw ib st = (Raise e, st, [])
       end.
Proof.
  unfold regular_reminder, stored. sched_unfold. destruct st as [f l n d]; simpl.
  destruct (iw && negb ib); simpl.
  - destruct f; simpl; [destruct (add_minutes now (interval_minutes cfg)); reflexivity|].
    destruct l as [last|]; simpl;
      [|destruct (add_minutes now (interval_minutes cfg)); reflexivity].
    destruct (interval_over now last (interval_minutes cfg)); simpl.
    + destruct (add_minutes now (interval_minutes cfg)); reflexivity.
    + destruct (remaining_estimate now last (interval_minutes cfg)); reflexivity.
  - destruct (next_times cfg now); reflexivity.
Qed.

(** What a branch leaves, read off its result. *)
Lemma stored_inv sum st shown r st' out :
  stored sum st shown = (r, st', out) ->
  out = shown
  /\ is_first_start st' = is_first_start st
  /\ last_reminder_time st' = last_reminder_time st
  /\ last_off_work_reminder_date st' = last_off_work_reminder_date st
  /\ ((exists next, sum = Ret next /\ r = Ret tt /\ next_reminder st' = Some next)
      \/ (exists e, sum = Raise e /\ r = Raise e /\ st' = st)).
Proof.
  unfold stored. destruct sum as [next|e]; intros [= <- <- <-]; simpl;
    (do 4 (split; [reflexivity|])); [left | right]; eauto.
Qed.

Lemma daily_reset_run today st :
  daily_reset today st
  = (Ret tt,
     mkState (is_first_start st) (last_reminder_time st) (next_reminder st)
             (match last_off_work_reminder_date st with
              | Some d => if d <? today then None else Some d
              | None => None
              end), []).
Proof.
  unfold daily_reset. sched_unfold. destruct st as [f l n [d|]]; simpl; [|reflexivity].
  destruct (d <? today); reflexivity.
Qed.

(** *** One iteration as a sequence of its parts *)

Lemma tick_unfold st :
  work_periods cfg <> [] ->
  tick cfg now st =
  (match off_work_check cfg now (is_in (weekday_of now) (workdays cfg)) st with
   | (Raise e, st1, o1) => (Raise e, st1, o1)
   | (Ret _, st1, o1) =>
       match work_gate cfg now with
       | Raise e => (Raise e, st1, o1)
       | Ret iw =>
           match in_any_period (block_periods cfg) (dt_time now) with
           | Raise e => (Raise e, st1, o1)
           | Ret ib =>
               match regular_reminder cfg now iw ib st1 with
               | (Raise e, st2, o2) => (Raise e, st2, o1 ++ o2)
               | (Ret _, st2, o2) =>
                   match daily_reset (dt_date now) st2 with
                   | (r, st3, o3) => (r, st3, o1 ++ o2 ++ o3)
                   end
               end
           end
       end
   end).
Proof.
  intros Hwp. unfold tick, work_gate, weekday_of.
  destruct (work_periods cfg) as [|p ps] eqn:Hp; [contradiction|].
  unfold sbind at 1. simpl.
  destruct (off_work_check cfg now _ st) as [[[[]|e] st1] o1]; [|reflexivity].
  unfold sbind at 1. unfold lift at 1.
  destruct (if is_in _ _ then _ else _) as [iw|e]; simpl;
    [|rewrite app_nil_r; reflexivity].
  unfold sbind at 1. unfold lift at 1.
  destruct (in_any_period (block_periods cfg) (dt_time now)) as [ib|e]; simpl;
    [|rewrite app_nil_r; reflexivity].
  unfold sbind at 1.
  destruct (regular_reminder cfg now iw ib st1) as [[[[]|e] st2] o2]; [|reflexivity].
  destruct (daily_reset (dt_date now) st2) as [[r st3] o3]. reflexivity.
Qed.

(** How far an iteration got: it stopped in the end-of-shift check, in
    one of the two window loops, in the reminder decision, or it ran to
    its end. *)
Lemma tick_stages st r st' out :
  work_periods cfg <> [] ->
  tick cfg now st = (r, st', out) ->
  exists r1 st1 o1,
    off_work_check cfg now (is_in (weekday_of now) (workdays cfg)) st = (r1, st1, o1)
    /\ ((exists e, r1 = Raise e /\ r = Raise e /\ st' = st1 /\ out = o1)
        \/ (exists e, (work_gate cfg now = Raise e
                       \/ in_any_period (block_periods cfg) (dt_time now) = Raise e)
                      /\ r = Raise e /\ st' = st1 /\ out = o1)
        \/ (exists iw ib r2 st2 o2,
              work_gate cfg now = Ret iw
              /\ in_any_period (block_periods cfg) (dt_time now) = Ret ib
              /\ regular_reminder cfg now iw ib st1 = (r2, st2, o2)
              /\ out = o1 ++ o2
              /\ ((exists e, r2 = Raise e /\ r = Raise e /\ st' = st2)
                  \/ (r2 = Ret tt /\ daily_reset (dt_date now) st2 = (r, st', []))))).
Proof.
  intros Hwp. rewrite (tick_unfold _ Hwp). cbv zeta. fold (work_gate cfg now).
  destruct (off_work_check cfg now _ st) as [[r1 st1] o1].
  intros H. exists r1, st1, o1. split; [reflexivity|].
  destruct r1 as [[]|e]; [|injection H as <- <- <-; left; eauto].
  right.
  destruct (work_gate cfg now) as [iw|e];
    [|injection H as <- <- <-; left; eauto 10].
  destruct (in_any_period (block_periods cfg) (dt_time now)) as [ib|e];
    [|injection H as <- <- <-; left; eauto 10].
  right.
  destruct (regular_reminder cfg now iw ib st1) as [[r2 st2] o2] eqn:Hr.
  exists iw, ib, r2, st2, o2. do 2 (split; [reflexivity|]). split; [exact Hr|].
  destruct r2 as [[]|e]; [|injection H as <- <- <-; split; [reflexivity | left; eauto]].
  rewrite daily_reset_run in H |- *. injection H as <- <- <-.
  rewrite app_nil_r. split; [reflexivity | right; split; reflexivity].
Qed.
Lemma gate_spec iw :
  work_gate cfg now = Ret iw ->
  (iw = true <-> is_workday cfg now /\ in_work_period cfg now).
Proof.
  unfold work_gate, is_workday, in_work_period.
  destruct (is_in _ _) eqn:Hwd.
  - intros H. apply in_any_period_spec in H. apply is_in_spec in Hwd. tauto.
  - intros [= <-]. rewrite <- is_in_spec, Hwd. split; [discriminate | intros [[=] _]].
Qed.

Lemma tick_completed st st' out :
  tick cfg now st = (Ret tt, st', out) ->
  work_periods cfg <> [] ->
  exists st1 o1 iw ib st2 o2,
    ((st1 = st /\ o1 = [])
     \/ (st1 = latched st (dt_date now) /\ o1 = [EndOfShift]
         /\ last_off_work_reminder_date st <> Some (dt_date now)))
    /\ (iw && negb ib = true <-> effective cfg now)
    /\ regular_reminder cfg now iw ib st1 = (Ret tt, st2, o2)
    /\ daily_reset (dt_date now) st2 = (Ret tt, st', [])
    /\ out = o1 ++ o2.
Proof.
  intros Ht Hwp.
  destruct (tick_stages _ _ _ _ Hwp Ht) as (r1 & st1 & o1 & Ho & Hs).
  destruct Hs as [(e & _ & [=] & _) | [(e & _ & [=] & _) | Hs]].
  destruct Hs as (iw & ib & r2 & st2 & o2 & Hiw & Hib & Hr & -> & Hs).
  destruct Hs as [(e & _ & [=] & _) | [-> Hd]].
  exists st1, o1, iw, ib, st2, o2.
  split; [|split; [|split; [exact Hr | split; [exact Hd | reflexivity]]]].
  - destruct (off_work_check_cases (is_in (weekday_of now) (workdays cfg)) st)
      as [Hc | [Hc | [Hc Hl]]]; rewrite Hc in Ho; injection Ho as <- <- <-; auto.
  - apply gate_spec in Hiw. apply in_any_period_spec in Hib. unfold effective.
    fold (in_block_period cfg now) in Hib.
    rewrite andb_true_iff, negb_true_iff. destruct ib; intuition congruence.
Qed.

Lemma next_times_total :
  well_ranged cfg -> exists ts, next_times cfg now = Ret ts.
Proof.
  intros (Hw & Hb & _). unfold next_times, work_start_times.
  assert (H1 : exists ts,
    (if is_in (date_weekday (dt_date now) + 1) (workdays cfg)
     then today_start_times (work_periods cfg) (dt_date now) now else Ret []) = Ret ts).
  { destruct (is_in _ _); [apply today_start_times_total, Hw | eauto]. }
  destruct H1 as [ts1 ->]. cbn [rbind].
  assert (H2 : exists ts,
    next_workday_start cfg (dt_date now) (date_weekday (dt_date now) + 1)
      (is_in (date_weekday (dt_date now) + 1) (workdays cfg)) = Ret ts).
  { unfold next_workday_start. destruct (negb _ && _); [|eauto].
    destruct Hw as [|p rest [[s Hs] _] _]; [eauto|].
    destruct (_ <=? 7); [|eauto]. rewrite Hs. cbn [rbind]. destruct s; eauto. }
  destruct H2 as [ts2 ->]. cbn [rbind].
  destruct (block_end_times_total (block_periods cfg) (dt_date now) now Hb) as [ts3 ->].
  cbn [rbind]. eauto.
Qed.

(** The end-of-shift check raises nothing when its time of day is read. *)
Lemma off_work_check_ranged wd st :
  parses (off_work_time cfg) ->
  off_work_check cfg now wd st = (Ret tt, st, [])
  \/ (off_work_check cfg now wd st = (Ret tt, latched st (dt_date now), [EndOfShift])
      /\ last_off_work_reminder_date st <> Some (dt_date now)).
Proof.
  intros [off Hoff].
  destruct (off_work_check_cases wd st) as [Ho | [Ho | Ho]]; [left; exact Ho | | right; exact Ho].
  exfalso. unfold off_work_check in Ho. unfold sbind, lift, sret in Ho.
  destruct (_ && _ && _); [|discriminate].
  rewrite Hoff in Ho. destruct off as [t|]; [|discriminate].
  destruct (_ <=? _); [|discriminate].
  unfold get, show_reminder_popup, set_last_off_work_reminder_date in Ho.
  destruct (negb _); discriminate.
Qed.

(** When every time of day of the configuration is read without an
    [OverflowError], an iteration reaches the reminder decision and ends
    as the decision ends. *)
Lemma tick_ranged st r st' out :
  well_ranged cfg ->
  work_periods cfg <> [] ->
  tick cfg now st = (r, st', out) ->
  exists st1 o1 iw ib st2 o2,
    ((st1 = st /\ o1 = [])
     \/ (st1 = latched st (dt_date now) /\ o1 = [EndOfShift]
         /\ last_off_work_reminder_date st <> Some (dt_date now)))
    /\ (iw && negb ib = true <-> effective cfg now)
    /\ regular_reminder cfg now iw ib st1 = (r, st2, o2)
    /\ is_first_start st' = is_first_start st2
    /\ last_reminder_time st' = last_reminder_time st2
    /\ next_reminder st' = next_reminder st2
    /\ out = o1 ++ o2.
Proof.
  intros Hr Hwp Ht. pose proof Hr as (Hw & Hb & Hoff).
  destruct (tick_stages _ _ _ _ Hwp Ht) as (r1 & st1 & o1 & Ho & Hs).
  assert (Ho' : r1 = Ret tt
                /\ ((st1 = st /\ o1 = [])
                    \/ (st1 = latched st (dt_date now) /\ o1 = [EndOfShift]
                        /\ last_off_work_reminder_date st <> Some (dt_date now)))).
  { destruct (off_work_check_ranged (is_in (weekday_of now) (workdays cfg)) st Hoff)
      as [Hc | [Hc Hl]]; rewrite Hc in Ho; injection Ho as <- <- <-; auto. }
  destruct Ho' as [-> Ho'].
  destruct Hs as [(e & [=] & _) | [(e & Hraise & _) | Hs]].
  { exfalso. destruct Hraise as [Hg | Hg].
    - unfold work_gate in Hg. destruct (is_in _ _); [|discriminate].
      destruct (in_any_period_total _ (dt_time now) Hw) as [b Hb']. congruence.
    - destruct (in_any_period_total _ (dt_time now) Hb) as [b Hb']. congruence. }
  destruct Hs as (iw & ib & r2 & st2 & o2 & Hiw & Hib & Hreg & -> & Hs).
  exists st1, o1, iw, ib, st2, o2. split; [exact Ho'|]. split.
  { apply gate_spec in Hiw. apply in_any_period_spec in Hib. unfold effective.
    fold (in_block_period cfg now) in Hib.
    rewrite andb_true_iff, negb_true_iff. destruct ib; intuition congruence. }
  destruct Hs as [(e & -> & -> & ->) | [-> Hd]]; [tauto|].
  rewrite daily_reset_run in Hd. injection Hd as <- <-. simpl. tauto.
Qed.

(** The reminder decision of an iteration that may be the first, seen
    from the attributes before and after it. *)
Lemma decision_effects iw ib st r st2 o2 :
  regular_reminder cfg now iw ib st = (r, st2, o2) ->
  if iw && negb ib then
    if is_first_start st || match last_reminder_time st with
                            | None => true
                            | Some last => interval_over now last (interval_minutes cfg)
                            end
    then (In StandUp o2 <-> is_first_start st = false)
         /\ is_first_start st2 = false
         /\ last_reminder_time st2 = Some now
         /\ ((interval_fits cfg now /\ r = Ret tt
              /\ next_reminder st2 = Some (now + minutes (interval_minutes cfg)))
             \/ (~ interval_fits cfg now /\ r = Raise OverflowError
                 /\ next_reminder st2 = next_reminder st))
    else ~ In StandUp o2
         /\ is_first_start st2 = false
         /\ last_reminder_time st2 = last_reminder_time st
         /\ exists last,
              last_reminder_time st = Some last
              /\ ((exists next, remaining_estimate now last (interval_minutes cfg) = Ret next
                               /\ r = Ret tt /\ next_reminder st2 = Some next)
                  \/ (exists e, remaining_estimate now last (interval_minutes cfg) = Raise e
                                /\ r = Raise e /\ st2 = st))
  else ~ In StandUp o2
       /\ is_first_start st2 = is_first_start st
       /\ last_reminder_time st2 = last_reminder_time st
       /\ ((exists times, next_times cfg now = Ret times /\ r = Ret tt
                          /\ next_reminder st2 = Some (earliest now times))
           \/ (exists e, next_times cfg now = Raise e /\ r = Raise e /\ st2 = st)).
Proof.
  pose proof (regular_reminder_cases iw ib st) as Hc. cbv zeta in Hc.
  assert (Hadd : forall shown,
    stored (add_minutes now (interval_minutes cfg))
           (mkState false (Some now) (next_reminder st) (last_off_work_reminder_date st))
           shown = (r, st2, o2) ->
    o2 = shown /\ is_first_start st2 = false /\ last_reminder_time st2 = Some now
    /\ ((interval_fits cfg now /\ r = Ret tt
         /\ next_reminder st2 = Some (now + minutes (interval_minutes cfg)))
        \/ (~ interval_fits cfg now /\ r = Raise OverflowError
            /\ next_reminder st2 = next_reminder st))).
  { intros shown H. apply stored_inv in H.
    destruct H as (-> & Hf & Hl & _ & Hn). simpl in Hf, Hl.
    do 3 (split; [assumption || reflexivity|]).
    destruct (add_minutes_cases cfg now) as [[Hfit Ha] | [Hfit Ha]]; rewrite Ha in Hn.
    - left. destruct Hn as [(next & [= <-] & -> & Hn) | (e & [=] & _)]. auto.
    - right. destruct Hn as [(next & [=] & _) | (e & [= <-] & -> & ->)]. auto. }
  destruct (iw && negb ib).
  - destruct (is_first_start st) eqn:Hf; cbn [orb].
    + rewrite Hc. intros H. apply Hadd in H. destruct H as (-> & H).
      split; [|exact H]. simpl. intuition discriminate.
    + destruct (last_reminder_time st) as [last|] eqn:Hl.
      * destruct (interval_over now last (interval_minutes cfg)).
        -- rewrite Hc. intros H. apply Hadd in H. destruct H as (-> & H).
           split; [|exact H]. simpl. intuition.
        -- rewrite Hc. intros H. apply stored_inv in H.
           destruct H as (-> & Hf2 & Hl2 & _ & Hn).
           split; [intros []|]. split; [congruence|]. split; [congruence|].
           exists last. split; [reflexivity | exact Hn].
      * rewrite Hc. intros H. apply Hadd in H. destruct H as (-> & H).
        split; [|exact H]. simpl. intuition.
  - destruct (next_times cfg now) as [times|e]; rewrite Hc; intros [= <- <- <-]; simpl;
      (split; [intros []|]); (do 2 (split; [reflexivity|])); [left | right]; eauto.
Qed.



(** ** The stand-up reminder *)

(** C1, amended. On an iteration that is not the first, with times of
    day that are all read without an [OverflowError], the stand-up pop-up
    is shown exactly when today is a working day, the clock time lies in
    at least one work period and in no block period, and no reminder was
    given yet or at least [interval_minutes * 60] seconds have passed
    since the last one; when it is shown, the last reminder time becomes
    [now], and when [now] plus the interval is a moment of the calendar
    the iteration runs to its end and the next reminder is that moment. *)
Theorem stand_up_iff st r st' out :
  well_ranged cfg ->
  is_first_start st = false ->
  tick cfg now st = (r, st', out) ->
  (In StandUp out <->
     is_workday cfg now /\ in_work_period cfg now /\ ~ in_block_period cfg now
     /\ interval_elapsed cfg st now)
  /\ (In StandUp out ->
      last_reminder_time st' = Some now
      /\ (interval_fits cfg now ->
          r = Ret tt
          /\ next_reminder st' = Some (now + minutes (interval_minutes cfg)))).
Proof.
  intros Hr Hf Ht.
  change (is_workday cfg now /\ in_work_period cfg now /\ ~ in_block_period cfg now
          /\ interval_elapsed cfg st now)
    with (is_workday cfg now
          /\ (in_work_period cfg now
              /\ (~ in_block_period cfg now /\ interval_elapsed cfg st now))).
  assert (Hassoc : (is_workday cfg now
                    /\ (in_work_period cfg now
                        /\ (~ in_block_period cfg now /\ interval_elapsed cfg st now)))
                   <-> effective cfg now /\ interval_elapsed cfg st now)
    by (unfold effective; tauto).
  rewrite Hassoc. clear Hassoc.
  destruct (work_periods cfg) as [|p ps] eqn:Hwp.
  - unfold tick in Ht. rewrite Hwp in Ht. injection Ht as <- <- <-.
    split; [|intros []]. split; [intros []|].
    intros [(_ & Hw & _) _]. unfold in_work_period in Hw. rewrite Hwp in Hw.
    inversion Hw.
  - apply tick_ranged in Ht; [|exact Hr|rewrite Hwp; discriminate].
    destruct Ht as (st1 & o1 & iw & ib & st2 & o2 & Ho & Heff & Hreg & Hf' & Hl' & Hn' & ->).
    assert (Hst1 : is_first_start st1 = false
                   /\ last_reminder_time st1 = last_reminder_time st
                   /\ ~ In StandUp o1).
    { destruct Ho as [[-> ->] | (-> & -> & _)]; simpl; intuition congruence. }
    destruct Hst1 as (Hf1 & Hl1 & Ho1).
    apply decision_effects in Hreg. rewrite Hf1, Hl1 in Hreg. cbn [orb] in Hreg.
    unfold interval_elapsed. rewrite in_app_iff, Hl', Hn'.
    destruct (iw && negb ib).
    + destruct (last_reminder_time st) as [last|].
      * pose proof (interval_over_spec now last (interval_minutes cfg)) as Hi.
        destruct (interval_over now last (interval_minutes cfg)).
        -- destruct Hreg as (Hs & _ & Hl2 & Hn2). split; [intuition|].
           intros _. split; [exact Hl2|]. intros Hfit.
           destruct Hn2 as [(_ & -> & ->) | (Hno & _)]; [auto | contradiction].
        -- destruct Hreg as (Hs & _). split; [|intuition].
           split; [intuition|]. intros [_ Hle]. apply Hi in Hle. discriminate.
      * destruct Hreg as (Hs & _ & Hl2 & Hn2). split; [intuition|].
        intros _. split; [exact Hl2|]. intros Hfit.
        destruct Hn2 as [(_ & -> & ->) | (Hno & _)]; [auto | contradiction].
    + destruct Hreg as (Hs & _). split; [|intuition].
      split; [intuition|]. intros [He _]. apply Heff in He. discriminate.
Qed.

Lemma regular_reminder_frame iw ib st r st2 o2 :
  regular_reminder cfg now iw ib st = (r, st2, o2) ->
  last_off_work_reminder_date st2 = last_off_work_reminder_date st
  /\ ~ In EndOfShift o2
  /\ (is_first_start st = true -> ~ In StandUp o2).
Proof.
  pose proof (regular_reminder_cases iw ib st) as Hc. cbv zeta in Hc.
  assert (Hs : forall sum st0 shown,
    last_off_work_reminder_date st0 = last_off_work_reminder_date st ->
    stored sum st0 shown = (r, st2, o2) ->
    last_off_work_reminder_date st2 = last_off_work_reminder_date st /\ o2 = shown).
  { intros sum st0 shown Hd H. apply stored_inv in H.
    destruct H as (-> & _ & _ & Hd2 & _). split; [congruence | reflexivity]. }
  destruct (iw && negb ib).
  - destruct (is_first_start st).
    + rewrite Hc. intros H. apply Hs in H; [|reflexivity].
      destruct H as [-> ->]. simpl. intuition discriminate.
    + destruct (last_reminder_time st) as [last|];
        [destruct (interval_over now last (interval_minutes cfg))|];
        rewrite Hc; intros H; (apply Hs in H; [|reflexivity]);
        destruct H as [-> ->]; simpl; intuition discriminate.
  - destruct (next_times cfg now); rewrite Hc; intros [= <- <- <-]; simpl;
      intuition discriminate.
Qed.

(** What any iteration, finished or not, does about the end of shift. *)
Lemma tick_end_of_shift st r st' out :
  tick cfg now st = (r, st', out) ->
  (~ In EndOfShift out
   /\ (last_off_work_reminder_date st = Some (dt_date now) ->
       last_off_work_reminder_date st' = Some (dt_date now)))
  \/ (shown_end_of_shift out = 1%nat
      /\ last_off_work_reminder_date st <> Some (dt_date now)
      /\ last_off_work_reminder_date st' = Some (dt_date now)).
Proof.
  destruct (work_periods cfg) as [|p ps] eqn:Hwp.
  { unfold tick. rewrite Hwp. intros [= <- <- <-]. left. simpl. tauto. }
  intros Ht. apply tick_stages in Ht; [|rewrite Hwp; discriminate].
  destruct Ht as (r1 & st1 & o1 & Ho & Hs).
  assert (Hrest : exists o2, out = o1 ++ o2 /\ ~ In EndOfShift o2
      /\ (last_off_work_reminder_date st1 = Some (dt_date now) ->
          last_off_work_reminder_date st' = Some (dt_date now))).
  { destruct Hs as [(e & _ & _ & -> & ->) | [(e & _ & _ & -> & ->) | Hs]];
      try (exists []; rewrite app_nil_r; simpl; tauto).
    destruct Hs as (iw & ib & r2 & st2 & o2 & _ & _ & Hr & -> & Hs).
    apply regular_reminder_frame in Hr. destruct Hr as (Hl & Hn & _).
    exists o2. split; [reflexivity | split; [exact Hn|]]. rewrite <- Hl.
    destruct Hs as [(e & _ & _ & ->) | [_ Hd]]; [tauto|].
    rewrite daily_reset_run in Hd. injection Hd as <- <-. simpl.
    intros ->. rewrite Z.ltb_irrefl. reflexivity. }
  destruct Hrest as (o2 & -> & Hn & Hk).
  destruct (off_work_check_cases (is_in (weekday_of now) (workdays cfg)) st)
    as [Hc | [Hc | [Hc Hl]]]; rewrite Hc in Ho; injection Ho as <- <- <-.
  - left. simpl. tauto.
  - left. simpl. tauto.
  - right. split; [|split; [exact Hl | apply Hk; reflexivity]].
    unfold shown_end_of_shift. simpl. f_equal.
    clear -Hn. induction o2 as [|[] o2 IH]; simpl in *; [reflexivity| |]; tauto.
Qed.

(** C2, amended. On an iteration that finds the first-start flag set, no
    stand-up pop-up is shown.  With times of day that are all read without
    an [OverflowError]: inside a work period of a working day and outside
    every block period the iteration stores [now] as the last reminder
    time and clears the flag, and when [now] plus the interval is a moment
    of the calendar it runs to its end and announces the next reminder for
    that moment; otherwise it runs to its end, the flag stays set and the
    last reminder time is left as it was. *)
Theorem first_tick st r st' out :
  is_first_start st = true ->
  tick cfg now st = (r, st', out) ->
  ~ In StandUp out
  /\ (well_ranged cfg ->
      (effective cfg now ->
         last_reminder_time st' = Some now /\ is_first_start st' = false
         /\ (interval_fits cfg now ->
             r = Ret tt
             /\ next_reminder st' = Some (now + minutes (interval_minutes cfg))))
      /\ (~ effective cfg now ->
         r = Ret tt /\ is_first_start st' = true
         /\ last_reminder_time st' = last_reminder_time st)).
Proof.
  intros Hf Ht. split.
  - destruct (work_periods cfg) as [|p ps] eqn:Hwp.
    { unfold tick in Ht. rewrite Hwp in Ht. injection Ht as <- <- <-. intros []. }
    apply tick_stages in Ht; [|rewrite Hwp; discriminate].
    destruct Ht as (r1 & st1 & o1 & Ho & Hs).
    assert (H1 : is_first_start st1 = true /\ ~ In StandUp o1).
    { destruct (off_work_check_cases (is_in (weekday_of now) (workdays cfg)) st)
        as [Hc | [Hc | [Hc Hl]]]; rewrite Hc in Ho; injection Ho as <- <- <-;
        simpl; intuition discriminate. }
    destruct H1 as [Hf1 Hn1].
    destruct Hs as [(e & _ & _ & _ & ->) | [(e & _ & _ & _ & ->) | Hs]];
      [exact Hn1 | exact Hn1 |].
    destruct Hs as (iw & ib & r2 & st2 & o2 & _ & _ & Hr & -> & _).
    apply regular_reminder_frame in Hr. destruct Hr as (_ & _ & Hn2).
    rewrite in_app_iff. intuition.
  - intros Hr.
    destruct (work_periods cfg) as [|p ps] eqn:Hwp.
    { unfold tick in Ht. rewrite Hwp in Ht. injection Ht as <- <- <-.
      split; [|tauto]. intros (_ & Hw & _). unfold in_work_period in Hw.
      rewrite Hwp in Hw. inversion Hw. }
    apply tick_ranged in Ht; [|exact Hr|rewrite Hwp; discriminate].
    destruct Ht as (st1 & o1 & iw & ib & st2 & o2 & Ho & Heff & Hreg & Hf' & Hl' & Hn' & ->).
    assert (H1 : is_first_start st1 = true
                 /\ last_reminder_time st1 = last_reminder_time st).
    { destruct Ho as [[-> ->] | (-> & -> & _)]; simpl; tauto. }
    destruct H1 as [Hf1 Hl1].
    apply decision_effects in Hreg. rewrite Hf1 in Hreg. cbn [orb] in Hreg.
    rewrite Hf', Hl', Hn'.
    destruct (iw && negb ib).
    + destruct Hreg as (_ & Hf2 & Hl2 & Hn2). split.
      * intros _. do 2 (split; [assumption|]). intros Hfit.
        destruct Hn2 as [(_ & -> & ->) | (Hno & _)]; [auto | contradiction].
      * intros Hne. exfalso. apply Hne, Heff. reflexivity.
    + destruct Hreg as (_ & Hf2 & Hl2 & Hn2). split.
      * intros He. apply Heff in He. discriminate.
      * intros _. pose proof (next_times_total Hr) as [ts Hts].
        destruct Hn2 as [(times & _ & -> & _) | (e & He & _)]; [|congruence].
        split; [reflexivity|]. split; congruence.
Qed.

End Iteration.

(** The two window loops decide the condition. *)
Lemma effective_decided cfg now :
  work_gate cfg now = Ret true ->
  in_any_period (block_periods cfg) (dt_time now) = Ret false ->
  effective cfg now.
Proof.
  intros Hg Hb. apply gate_spec in Hg. apply in_any_period_spec in Hb.
  destruct (proj1 Hg eq_refl) as [Hwd Hw]. split; [exact Hwd|]. split; [exact Hw|].
  intros Hin. apply Hb in Hin. discriminate Hin.
Qed.

Lemma sample_config_ranged : well_ranged sample_config.
Proof.
  unfold well_ranged, parses.
  repeat split; repeat constructor; cbn; eexists; vm_compute; reflexivity.
Qed.

(** Monday 10:15, an hour and five minutes after the last reminder. *)
Lemma stand_up_iff_witness :
  In StandUp (tick sample_config (at_clock monday 10 15 0)
                   (mkState false (Some (at_clock monday 9 10 0)) None None)).2
  /\ effective sample_config (at_clock monday 10 15 0).
Proof.
  destruct (tick sample_config (at_clock monday 10 15 0)
                 (mkState false (Some (at_clock monday 9 10 0)) None None))
    as [[r st'] out] eqn:Ht.
  assert (Hin : In StandUp out).
  { vm_compute in Ht. injection Ht as <- <- <-. left; reflexivity. }
  split; [exact Hin|].
  destruct (stand_up_iff sample_config (at_clock monday 10 15 0)
              (mkState false (Some (at_clock monday 9 10 0)) None None) r st' out
              sample_config_ranged eq_refl Ht)
    as [Hiff _].
  apply Hiff in Hin. unfold effective. tauto.
Defined.

(** C1 as stated fails in two ways.  With ten thousand million minutes as
    the interval, which the editor accepts, the pop-up is shown on Monday
    at 10:15 and [now] is stored, but the sum for the next reminder leaves
    the calendar: the iteration ends in an [OverflowError] and the next
    reminder is not set.  With a block period whose hour does not fit a C
    [int], the four conditions hold on Monday at 10:00 and nothing is
    shown. *)
Lemma stand_up_counterexample :
  tick far_config (at_clock monday 10 15 0) (mkState false None None None)
  = (Raise OverflowError, mkState false (Some (at_clock monday 10 15 0)) None None,
     [StandUp])
  /\ (effective overflow_config (at_clock monday 10 0 0)
      /\ interval_elapsed overflow_config (mkState false None None None)
                          (at_clock monday 10 0 0)
      /\ (tick overflow_config (at_clock monday 10 0 0) (mkState false None None None)).2
         = []).
Proof.
  split; [vm_compute; reflexivity|].
  split; [|split; [exact I | vm_compute; reflexivity]].
  unfold effective, is_workday, in_work_period, in_block_period.
  split; [vm_compute; tauto|]. split.
  - apply Exists_cons_hd. unfold window_holds.
    exists (mkTime 9 0 0 0), (mkTime 18 0 0 0). repeat split; vm_compute; reflexivity.
  - intros H. apply Exists_cons in H. destruct H as [(s & e & Hs & _) | H];
      [vm_compute in Hs; discriminate | inversion H].
Qed.

(** The editor accepts that interval, and the loop reads it back. *)
Lemma far_config_accepted :
  exists cfg,
    validate_and_start far_form = Accepted cfg
    /\ config_of (load_config (save_config WriteOk (JObj cfg)).1) = Some far_config.
Proof.
  destruct (validate_and_start far_form) as [why|cfg] eqn:Hv;
    [vm_compute in Hv; discriminate Hv|].
  exists cfg. split; [reflexivity|].
  vm_compute in Hv. injection Hv as <-. vm_compute. reflexivity.
Qed.

(** The service is started on Monday at 10:15. *)
Lemma first_tick_witness :
  ~ In StandUp (tick sample_config (at_clock monday 10 15 0) app_start).2
  /\ (tick sample_config (at_clock monday 10 15 0) app_start).1.2
     = mkState false (Some (at_clock monday 10 15 0)) (Some (at_clock monday 11 15 0)) None.
Proof.
  split; [|vm_compute; reflexivity].
  destruct (tick sample_config (at_clock monday 10 15 0) app_start) as [[r st'] out] eqn:Ht.
  exact (proj1 (first_tick sample_config (at_clock monday 10 15 0) app_start
                  r st' out eq_refl Ht)).
Defined.

(** C2 as stated fails when the service is started on a Saturday: the
    flag is still set after the iteration and no reminder time is stored. *)
Lemma first_tick_unconditional_counterexample :
  ~ (forall cfg now st st' out,
       is_first_start st = true ->
       tick cfg now st = (Ret tt, st', out) ->
       ~ In StandUp out
       /\ last_reminder_time st' = Some now
       /\ is_first_start st' = false
       /\ next_reminder st' = Some (now + minutes (interval_minutes cfg))).
Proof.
  intros H.
  assert (Ht : tick sample_config (at_clock saturday 10 0 0) app_start
               = (Ret tt, mkState true None (Some (at_clock saturday 13 30 0)) None, []))
    by (vm_compute; reflexivity).
  destruct (H _ _ app_start _ _ eq_refl Ht) as (_ & Hl & _). discriminate Hl.
Qed.

(** The first iteration with ten thousand million minutes as the interval,
    on Monday at 10:15: [now] is stored and the flag cleared, then the sum
    for the next reminder leaves the calendar. *)
Lemma first_tick_beyond_calendar :
  tick far_config (at_clock monday 10 15 0) app_start
  = (Raise OverflowError, mkState false (Some (at_clock monday 10 15 0)) None None, []).
Proof. vm_compute. reflexivity. Qed.

(** C8, amended. On an iteration that is not the first, with times of
    day that are all read without an [OverflowError], inside a work
    period of a working day and outside every block period, when fewer
    than [interval_minutes * 60] seconds have passed since the last
    reminder: no stand-up pop-up is shown and the last reminder time is
    left as it is; and when the interval is a million minutes at most,
    the last reminder is not ahead of [now] and the last reminder plus the
    interval is a moment of the calendar, the iteration runs to its end
    and the next reminder is exactly the last one plus the interval. *)
Theorem estimate_not_elapsed cfg now st last r st' out :
  well_ranged cfg ->
  is_first_start st = false ->
  effective cfg now ->
  last_reminder_time st = Some last ->
  now - last < interval_minutes cfg * 60 * us_per_second ->
  tick cfg now st = (r, st', out) ->
  ~ In StandUp out
  /\ last_reminder_time st' = Some last
  /\ (0 < interval_minutes cfg <= 1000000 ->
      last <= now ->
      datetime_min <= last + minutes (interval_minutes cfg) <= datetime_max ->
      r = Ret tt
      /\ next_reminder st' = Some (last + minutes (interval_minutes cfg))).
Proof.
  intros Hr Hf Heff Hl Hlt Ht.
  assert (Hne : work_periods cfg <> []).
  { destruct Heff as (_ & Hw & _). unfold in_work_period in Hw.
    intros Hnil. rewrite Hnil in Hw. inversion Hw. }
  apply tick_ranged in Ht; [|exact Hr|exact Hne].
  destruct Ht as (st1 & o1 & iw & ib & st2 & o2 & Ho & Hg & Hreg & Hf' & Hl' & Hn' & ->).
  assert (Hst1 : is_first_start st1 = false
                 /\ last_reminder_time st1 = Some last
                 /\ ~ In StandUp o1).
  { destruct Ho as [[-> ->] | (-> & -> & _)]; simpl; intuition congruence. }
  destruct Hst1 as (Hf1 & Hl1 & Ho1).
  apply Hg in Heff.
  assert (Hover : interval_over now last (interval_minutes cfg) = false).
  { apply not_true_is_false. rewrite interval_over_spec. lia. }
  apply decision_effects in Hreg. rewrite Heff, Hf1, Hl1, Hover in Hreg. cbn [orb] in Hreg.
  destruct Hreg as (Hs & _ & Hl2 & last' & [= <-] & Hn2).
  rewrite in_app_iff, Hl', Hn', Hl2. split; [tauto|]. split; [reflexivity|].
  intros HI Hle Hcal.
  assert (Hd : 0 <= now - last < minutes (interval_minutes cfg))
    by (unfold minutes, us_per_minute; lia).
  rewrite (remaining_estimate_small now last (interval_minutes cfg) HI Hd) in Hn2.
  destruct (datetime_add_cases now (minutes (interval_minutes cfg) - (now - last)))
    as [[_ Ha] | [Hout _]]; [|exfalso; apply Hout; lia].
  rewrite Ha in Hn2.
  destruct Hn2 as [(n & [= <-] & -> & ->) | (e & [=] & _)].
  split; [reflexivity|]. f_equal. lia.
Qed.

(** Monday 10:15, a quarter of an hour after the last reminder: the next
    one is due at 11:00. *)
Lemma estimate_not_elapsed_witness :
  next_reminder
    (tick sample_config (at_clock monday 10 15 0)
          (mkState false (Some (at_clock monday 10 0 0)) None None)).1.2
  = Some (at_clock monday 11 0 0).
Proof.
  destruct (tick sample_config (at_clock monday 10 15 0)
                 (mkState false (Some (at_clock monday 10 0 0)) None None))
    as [[r st'] out] eqn:Ht.
  assert (Heff : effective sample_config (at_clock monday 10 15 0))
    by (apply effective_decided; vm_compute; reflexivity).
  assert (Hlt : at_clock monday 10 15 0 - at_clock monday 10 0 0
                < interval_minutes sample_config * 60 * us_per_second)
    by (vm_compute; reflexivity).
  destruct (estimate_not_elapsed sample_config (at_clock monday 10 15 0)
              (mkState false (Some (at_clock monday 10 0 0)) None None)
              (at_clock monday 10 0 0) r st' out
              sample_config_ranged eq_refl Heff eq_refl Hlt Ht)
    as (_ & _ & Hnext).
  destruct Hnext as [_ Hnext].
  - vm_compute. split; congruence.
  - vm_compute. congruence.
  - vm_compute. split; congruence.
  - exact Hnext.
Defined.

(** C8 as stated fails for an interval of 268435456 minutes, 2502.552038
    seconds after the last reminder: the quotient [elapsed], the
    difference [remaining] and the microseconds made from it are each
    rounded, and the moment computed is one microsecond after the last
    reminder plus the interval. *)
Lemma estimate_counterexample :
  effective long_config (at_clock monday 9 10 0 + 2502552038)
  /\ (at_clock monday 9 10 0 + 2502552038) - at_clock monday 9 10 0
     < interval_minutes long_config * 60 * us_per_second
  /\ tick long_config (at_clock monday 9 10 0 + 2502552038)
          (mkState false (Some (at_clock monday 9 10 0)) None None)
     = (Ret tt,
        mkState false (Some (at_clock monday 9 10 0))
                (Some (at_clock monday 9 10 0 + minutes (interval_minutes long_config) + 1))
                None,
        []).
Proof.
  split; [apply effective_decided; vm_compute; reflexivity|].
  split; vm_compute; reflexivity.
Qed.

(** ** The end-of-shift reminder over a run *)

Lemma end_of_shift_count_app d xs ys :
  end_of_shift_count d (xs ++ ys)
  = (end_of_shift_count d xs + end_of_shift_count d ys)%nat.
Proof. unfold end_of_shift_count. rewrite List.filter_app, length_app. reflexivity. Qed.

Lemma end_of_shift_count_tick d now out :
  end_of_shift_count d (map (pair now) out)
  = if dt_date now =? d then shown_end_of_shift out else 0%nat.
Proof.
  unfold end_of_shift_count, shown_end_of_shift.
  induction out as [|s out IH]; simpl.
  - destruct (dt_date now =? d); reflexivity.
  - unfold end_of_shift_on at 1. simpl.
    destruct (dt_date now =? d), s; simpl; rewrite IH; reflexivity.
Qed.

Lemma shown_end_of_shift_none out :
  ~ In EndOfShift out -> shown_end_of_shift out = 0%nat.
Proof.
  unfold shown_end_of_shift.
  induction out as [|[] out IH]; simpl; [reflexivity| |]; tauto.
Qed.

Lemma run_count_cons d ev evs st :
  end_of_shift_count d (reminder_service (ev :: evs) st).2
  = (end_of_shift_count d (step ev st).2
     + end_of_shift_count d (reminder_service evs (step ev st).1).2)%nat.
Proof.
  cbn [reminder_service]. destruct (step ev st) as [st1 o1]. cbn [fst snd].
  destruct (reminder_service evs st1) as [st2 o2]. apply end_of_shift_count_app.
Qed.

Lemma step_tick cfg now st :
  step (Tick cfg now) st = ((tick cfg now st).1.2, map (pair now) (tick cfg now st).2).
Proof. cbn [step]. destruct (tick cfg now st) as [[r st'] out]. reflexivity. Qed.

(** Nothing is counted on a date on which no iteration runs. *)
Lemma run_other_dates evs : forall st d,
  ~ In d (tick_dates evs) ->
  end_of_shift_count d (reminder_service evs st).2 = 0%nat.
Proof.
  induction evs as [|ev evs IH]; intros st d Hd; [reflexivity|].
  rewrite run_count_cons. destruct ev as [cfg now| |].
  - rewrite step_tick. cbn [tick_dates] in Hd. cbn [fst snd].
    rewrite end_of_shift_count_tick.
    destruct (Z.eqb_spec (dt_date now) d) as [Heq|Hne]; [destruct Hd; left; exact Heq|].
    apply IH. intros Hin. apply Hd. right. exact Hin.
  - apply IH, Hd.
  - apply IH, Hd.
Qed.

(** Once the pop-up of date [d] has been shown, it is not shown again
    while the date does not go back. *)
Lemma run_latched evs : forall st d,
  Sorted Z.le (tick_dates evs) ->
  Forall (Z.le d) (tick_dates evs) ->
  last_off_work_reminder_date st = Some d ->
  end_of_shift_count d (reminder_service evs st).2 = 0%nat.
Proof.
  induction evs as [|ev evs IH]; intros st d Hsort Hge Hl; [reflexivity|].
  rewrite run_count_cons. destruct ev as [cfg now| |].
  - rewrite step_tick. cbn [tick_dates] in Hsort, Hge. cbn [fst snd].
    apply Sorted_StronglySorted in Hsort; [|intros x y z; apply Z.le_trans].
    apply StronglySorted_inv in Hsort. destruct Hsort as [Hsort Hall].
    apply StronglySorted_Sorted in Hsort.
    apply Forall_cons in Hge. destruct Hge as [Hd Hge].
    rewrite end_of_shift_count_tick.
    destruct (tick cfg now st) as [[r st'] out] eqn:Ht. cbn [fst snd].
    destruct (Z.eqb_spec (dt_date now) d) as [Heq|Hne].
    + subst d. apply tick_end_of_shift in Ht.
      destruct Ht as [[Hn Hk] | (_ & Hc & _)]; [|contradiction].
      rewrite (shown_end_of_shift_none _ Hn). apply IH; auto.
    + apply run_other_dates. intros Hin. rewrite List.Forall_forall in Hall.
      specialize (Hall _ Hin). lia.
  - apply IH; assumption.
  - apply IH; assumption.
Qed.

Lemma run_once evs : forall st d,
  Sorted Z.le (tick_dates evs) ->
  (end_of_shift_count d (reminder_service evs st).2 <= 1)%nat.
Proof.
  induction evs as [|ev evs IH]; intros st d Hsort; [unfold end_of_shift_count; simpl; lia|].
  rewrite run_count_cons. destruct ev as [cfg now| |].
  - rewrite step_tick. cbn [tick_dates] in Hsort. cbn [fst snd].
    pose proof Hsort as Hss.
    apply Sorted_StronglySorted in Hss; [|intros x y z; apply Z.le_trans].
    apply StronglySorted_inv in Hss. destruct Hss as [_ Hall].
    apply Sorted_inv in Hsort. destruct Hsort as [Hsort _].
    rewrite end_of_shift_count_tick.
    destruct (tick cfg now st) as [[r st'] out] eqn:Ht. cbn [fst snd].
    destruct (Z.eqb_spec (dt_date now) d) as [Heq|Hne]; [|apply IH, Hsort].
    subst d. apply tick_end_of_shift in Ht.
    destruct Ht as [[Hn _] | (Hone & _ & Hl)].
    + rewrite (shown_end_of_shift_none _ Hn). apply IH, Hsort.
    + rewrite Hone, (run_latched evs st' _ Hsort Hall Hl). lia.
  - apply IH, Hsort.
  - apply IH, Hsort.
Qed.

(** C4. In a run whose iterations do not go back in date, the end-of-shift
    pop-up is shown at most once on any date, however often the
    iterations fall within thirty seconds of the moment ten minutes before
    the end of the shift.  An iteration that runs to its end on a later
    date than the recorded one either shows the pop-up and records today,
    or clears the record; and whenever the pop-up is due and today is not
    the recorded date, it is shown. *)
Theorem end_of_shift_once_a_day :
  (forall evs st d,
      Sorted Z.le (tick_dates evs) ->
      (end_of_shift_count d (reminder_service evs st).2 <= 1)%nat)
  /\ (forall cfg now st st' out d0,
        work_periods cfg <> [] ->
        last_off_work_reminder_date st = Some d0 -> d0 < dt_date now ->
        tick cfg now st = (Ret tt, st', out) ->
        (In EndOfShift out /\ last_off_work_reminder_date st' = Some (dt_date now))
        \/ (~ In EndOfShift out /\ last_off_work_reminder_date st' = None))
  /\ (forall cfg now st r st' out,
        work_periods cfg <> [] ->
        end_of_shift_due cfg now ->
        last_off_work_reminder_date st <> Some (dt_date now) ->
        tick cfg now st = (r, st', out) ->
        In EndOfShift out).
Proof.
  split; [intros evs st d; apply run_once|split].
  - intros cfg now st st' out d0 Hwp Hl Hlt Ht.
    apply tick_completed in Ht; [|exact Hwp].
    destruct Ht as (st1 & o1 & iw & ib & st2 & o2 & Ho & _ & Hr & Hd & ->).
    apply regular_reminder_frame in Hr. destruct Hr as (Hl2 & Hn2 & _).
    rewrite daily_reset_run in Hd. injection Hd as <-. simpl. rewrite Hl2.
    destruct Ho as [[-> ->] | (-> & -> & _)]; simpl.
    + right. rewrite Hl. apply Z.ltb_lt in Hlt. rewrite Hlt. tauto.
    + left. rewrite Z.ltb_irrefl. tauto.
  - intros cfg now st r st' out Hwp Hdue Hl Ht.
    apply tick_stages in Ht; [|exact Hwp].
    destruct Ht as (r1 & st1 & o1 & Ho & Hs).
    rewrite (off_work_check_due _ _ _ Hdue Hl) in Ho. injection Ho as <- <- <-.
    destruct Hs as [(e & _ & _ & _ & ->) | [(e & _ & _ & _ & ->) | Hs]];
      [left; reflexivity | left; reflexivity |].
    destruct Hs as (iw & ib & r2 & st2 & o2 & _ & _ & _ & -> & _). left; reflexivity.
Qed.

(** Three iterations around 17:50 on Monday and one on Tuesday. *)
Lemma end_of_shift_once_a_day_witness :
  (end_of_shift_count monday (reminder_service shift_run app_start).2 <= 1)%nat
  /\ (end_of_shift_count (monday + 1) (reminder_service shift_run app_start).2 <= 1)%nat.
Proof.
  assert (Hs : Sorted Z.le (tick_dates shift_run)).
  { repeat constructor; vm_compute; discriminate. }
  split; apply (proj1 end_of_shift_once_a_day shift_run app_start _ Hs).
Defined.

Example shift_run_shown :
  end_of_shift_count monday (reminder_service shift_run app_start).2 = 1%nat
  /\ end_of_shift_count (monday + 1) (reminder_service shift_run app_start).2 = 1%nat.
Proof. split; vm_compute; reflexivity. Qed.

(** ** The times of the next occurrence *)

Lemma dt_date_bounds (now : Z) :
  dt_date now * us_per_day <= now < (dt_date now + 1) * us_per_day.
Proof.
  unfold dt_date.
  assert (Hd : 0 < us_per_day) by reflexivity.
  pose proof (Z.div_mod now us_per_day ltac:(lia)) as Hdm.
  pose proof (Z.mod_pos_bound now us_per_day Hd) as Hb. lia.
Qed.

Lemma time_offset_bounds (t : time) :
  valid_time t -> 0 <= time_offset t < us_per_day.
Proof.
  intros (Hh & Hm & Hs & Hu). rewrite time_offset_unfold.
  change us_per_day with 86400000000. lia.
Qed.

Lemma dt_date_combine (d : Z) (t : time) :
  valid_time t -> dt_date (combine d t) = d.
Proof.
  intros Hv. apply time_offset_bounds in Hv. unfold dt_date, combine.
  symmetry. apply (Z.div_unique_pos _ _ d (time_offset t)); lia.
Qed.

Lemma today_start_times_future periods today now : forall ts,
  today = dt_date now ->
  today_start_times periods today now = Ret ts ->
  Forall (fun t => now < t) ts.
Proof.
  intros ts ->. revert ts.
  induction periods as [|p rest IH]; intros ts; cbn [today_start_times].
  - intros [= <-]. constructor.
  - destruct (parse_time (p_start p)) as [start|e] eqn:Hp; cbn [rbind]; [|discriminate].
    destruct (today_start_times rest (dt_date now) now) as [more|e]; cbn [rbind];
      [|discriminate].
    specialize (IH more eq_refl).
    destruct start as [t|]; intros [= <-]; [|exact IH].
    constructor; [|exact IH].
    apply parse_time_valid in Hp. destruct Hp as [Hv _].
    apply time_offset_bounds in Hv. pose proof (dt_date_bounds now) as Hb.
    unfold combine, days in *. change us_per_day with 86400000000 in *.
    destruct (Z.leb_spec (dt_date now * 86400000000 + time_offset t) now); lia.
Qed.

Lemma search_days_ahead_spec rounds weekday wds : forall d,
  1 <= d -> 8 <= d + Z.of_nat rounds ->
  let r := search_days_ahead rounds weekday wds d in
  d <= r /\ (r <= 7 -> is_in ((weekday + r - 1) mod 7 + 1) wds = true).
Proof.
  induction rounds as [|n IH]; intros d Hd Hr; cbn [search_days_ahead].
  - destruct (is_in _ wds) eqn:Hin; cbn [negb]; [split; [lia | intros _; exact Hin]|].
    destruct (Z.gtb_spec (d + 1) 7); split; lia.
  - destruct (is_in _ wds) eqn:Hin; cbn [negb]; [split; [lia | intros _; exact Hin]|].
    destruct (Z.gtb_spec (d + 1) 7); [split; lia|].
    destruct (IH (d + 1)) as [H1 H2]; [lia | lia |]. split; [lia | exact H2].
Qed.

(** Every start that enters [next_times] lies after [now]. *)
Lemma work_start_times_future cfg now ts :
  work_start_times cfg now = Ret ts -> Forall (fun t => now < t) ts.
Proof.
  unfold work_start_times.
  destruct (if is_in _ _ then _ else _) as [starts|e] eqn:Hs; cbn [rbind]; [|discriminate].
  destruct (next_workday_start _ _ _ _) as [next|e] eqn:Hn; cbn [rbind]; [|discriminate].
  intros [= <-]. apply Forall_app. split.
  - destruct (is_in _ _); [|injection Hs as <-; constructor].
    apply (today_start_times_future _ _ _ _ eq_refl Hs).
  - unfold next_workday_start in Hn.
    destruct (negb _ && _); [|injection Hn as <-; constructor].
    destruct (work_periods cfg) as [|first_period rest]; [injection Hn as <-; constructor|].
    pose proof (search_days_ahead_spec 7 (date_weekday (dt_date now) + 1)
                  (workdays cfg) 1 ltac:(lia) ltac:(lia)) as [Hge _].
    set (d := search_days_ahead 7 _ _ 1) in *. clearbody d.
    destruct (d <=? 7); [|injection Hn as <-; constructor].
    destruct (parse_time (p_start first_period)) as [[t|]|e] eqn:Hp; cbn [rbind] in Hn;
      [|injection Hn as <-; constructor | discriminate].
    injection Hn as <-. constructor; [|constructor].
    apply parse_time_valid in Hp. destruct Hp as [Hv _].
    apply time_offset_bounds in Hv. pose proof (dt_date_bounds now) as Hb.
    unfold combine. change us_per_day with 86400000000 in *. lia.
Qed.

(** On a day that is not a working day, the one start considered falls on
    a working day. *)
Lemma next_workday_start_allowed cfg now ts :
  ~ is_workday cfg now ->
  work_start_times cfg now = Ret ts ->
  Forall (fun t => In (weekday_of t) (workdays cfg)) ts.
Proof.
  intros Hwd. unfold work_start_times. fold (weekday_of now).
  unfold is_workday in Hwd. rewrite <- is_in_spec in Hwd.
  apply not_true_is_false in Hwd. rewrite Hwd. cbn [rbind app].
  unfold next_workday_start. cbn [negb andb].
  destruct (workdays cfg) as [|wd0 wds] eqn:Hwds; [intros [= <-]; constructor|].
  rewrite <- Hwds in *.
  destruct (work_periods cfg) as [|first_period rest]; [intros [= <-]; constructor|].
  pose proof (search_days_ahead_spec 7 (weekday_of now) (workdays cfg) 1
                ltac:(lia) ltac:(lia)) as [Hge Hfound].
  set (d := search_days_ahead 7 _ _ 1) in *. clearbody d.
  destruct (Z.leb_spec d 7) as [Hle|Hgt]; [|intros [= <-]; constructor].
  destruct (parse_time (p_start first_period)) as [[t|]|e] eqn:Hp; cbn [rbind];
    [|intros [= <-]; constructor | discriminate].
  intros [= <-]. constructor; [|constructor].
  apply parse_time_valid in Hp. destruct Hp as [Hv _].
  apply is_in_spec. unfold weekday_of at 1. rewrite (dt_date_combine _ _ Hv).
  specialize (Hfound Hle). unfold weekday_of, date_weekday in Hfound |- *.
  rewrite <- Hfound. f_equal. f_equal.
  replace ((dt_date now + 6) mod 7 + 1 + d - 1) with ((dt_date now + 6) mod 7 + d) by lia.
  rewrite Zplus_mod_idemp_l. f_equal. lia.
Qed.

(** C6. Every work-period start that enters [next_times] should fall on a
    working day.  On Friday at 19:00, a working day whose start has
    passed, the start considered is Saturday 09:00, although Saturday is
    not a working day: the start is moved on by one day without the
    search that the branch for the other days performs. *)
Theorem friday_evening_start :
  work_start_times sample_config (at_clock friday 19 0 0)
  = Ret [at_clock saturday 9 0 0]
  /\ ~ In (weekday_of (at_clock saturday 9 0 0)) (workdays sample_config)
  /\ is_workday sample_config (at_clock friday 19 0 0).
Proof.
  split; [vm_compute; reflexivity|]. split.
  - vm_compute. intuition discriminate.
  - vm_compute. tauto.
Qed.

(** C5. On Saturday at 10:00, which is not a working day, the next
    reminder is announced for 13:30 of that Saturday, the end of the block
    period, and not for Monday 09:00: the ends of the block periods enter
    [next_times] on every day. *)
Theorem saturday_next_reminder (st : state) :
  ~ is_workday sample_config (at_clock saturday 10 0 0)
  /\ next_reminder (tick sample_config (at_clock saturday 10 0 0) st).1.2
     = Some (at_clock saturday 13 30 0)
  /\ at_clock saturday 13 30 0 <> at_clock next_monday 9 0 0.
Proof.
  split; [vm_compute; intuition discriminate|]. split; [|vm_compute; discriminate].
  set (now := at_clock saturday 10 0 0).
  rewrite tick_unfold by discriminate.
  replace (is_in (weekday_of now) (workdays sample_config)) with false
    by (vm_compute; reflexivity).
  unfold off_work_check. cbn [andb]. unfold sret.
  replace (work_gate sample_config now) with (@Ret bool false)
    by (vm_compute; reflexivity).
  replace (in_any_period (block_periods sample_config) (dt_time now))
    with (@Ret bool false) by (vm_compute; reflexivity).
  pose proof (regular_reminder_cases sample_config now false false st) as Hc.
  cbv zeta in Hc. cbn [andb negb] in Hc.
  replace (next_times sample_config now)
    with (Ret [at_clock next_monday 9 0 0; at_clock saturday 13 30 0]) in Hc
    by (vm_compute; reflexivity).
  rewrite Hc, daily_reset_run. cbn [fst snd next_reminder].
  vm_compute. reflexivity.
Qed.

(** ** The configuration store *)

Lemma not_dict_cases (v : json) : (exists m, v = JObj m) \/ forall m, v <> JObj m.
Proof. destruct v; try (right; discriminate). left. eexists; reflexivity. Qed.

Lemma py_in_dict key m :
  py_in key (JObj m) = Ret (match m !! key with Some _ => true | None => false end).
Proof. reflexivity. Qed.

Lemma merge_defaults_dict keys : forall m,
  exists m', merge_defaults keys (JObj m) = Ret (JObj m')
    /\ forall k, m' !! k =
         match m !! k with
         | Some v => Some v
         | None => if existsb (String.eqb k) keys then Some (default_item k) else None
         end.
Proof.
  induction keys as [|key rest IH]; intros m.
  - exists m. split; [reflexivity|]. intros k. simpl. destruct (m !! k); reflexivity.
  - cbn [merge_defaults]. rewrite py_in_dict. cbn [rbind].
    destruct (m !! key) as [v|] eqn:Hk; cbn [rbind py_setitem].
    + destruct (IH m) as (m' & -> & Hm'). exists m'. split; [reflexivity|].
      intros k. rewrite Hm'. destruct (m !! k) eqn:Hmk; [reflexivity|].
      cbn [existsb]. destruct (String.eqb_spec k key) as [->|Hne]; [congruence|reflexivity].
    + destruct (IH (<[key := default_item key]> m)) as (m' & -> & Hm').
      exists m'. split; [reflexivity|]. intros k. rewrite Hm'.
      cbn [existsb]. destruct (String.eqb_spec k key) as [->|Hne].
      * rewrite lookup_insert_eq, Hk. reflexivity.
      * rewrite lookup_insert_ne by congruence. reflexivity.
Qed.

Lemma ensure_nonempty_dict key m :
  ensure_nonempty key (JObj m)
  = Ret (JObj (if truthy (lookup_or_null m key) then m
               else <[key := default_item key]> m)).
Proof.
  unfold ensure_nonempty, lookup_or_null. cbn [py_get rbind].
  destruct (truthy _); reflexivity.
Qed.

Lemma convert_legacy_dict m :
  exists m1, convert_legacy (JObj m) = Ret (JObj m1)
    /\ (~ old_format m -> m1 = m)
    /\ (old_format m ->
        exists v, m1 !! "work_periods"%string = Some (JArr [v])
        /\ exists w, m1 !! "block_periods"%string = Some (JArr [w])).
Proof.
  unfold convert_legacy, old_format. rewrite !py_in_dict. cbn [rbind].
  destruct (m !! "start_time"%string) as [s|] eqn:Hs; cbn [rbind].
  - destruct (m !! "work_periods"%string) as [w|] eqn:Hw; cbn [rbind negb].
    + exists m. split; [reflexivity|]. split; [reflexivity|]. intros [_ [=]].
    + eexists. split; [reflexivity|]. split; [intros H; destruct H; eauto|].
      intros _. eexists. split; [reflexivity|]. eexists. reflexivity.
  - exists m. split; [reflexivity|]. split; [reflexivity|]. intros [[? [=]] _].
Qed.

Lemma convert_legacy_other v :
  (forall m, v <> JObj m) ->
  convert_legacy v = Ret v \/ exists e, convert_legacy v = Raise e.
Proof.
  intros Hv. unfold convert_legacy.
  destruct (py_in "start_time" v) as [[]|e]; cbn [rbind]; [| left; reflexivity | eauto].
  destruct (py_in "work_periods" v) as [[]|e]; cbn [rbind negb];
    [left; reflexivity | | eauto].
  destruct v; cbn [py_get rbind]; eauto. destruct (Hv m eq_refl).
Qed.

Lemma merge_defaults_other keys v :
  (forall m, v <> JObj m) ->
  merge_defaults keys v = Ret v \/ exists e, merge_defaults keys v = Raise e.
Proof.
  intros Hv. induction keys as [|key rest IH]; [left; reflexivity|].
  cbn [merge_defaults].
  destruct (py_in key v) as [[]|e]; cbn [rbind]; [exact IH | | eauto].
  destruct v; cbn [py_setitem rbind]; eauto. destruct (Hv m eq_refl).
Qed.

Lemma ensure_nonempty_other key v :
  (forall m, v <> JObj m) -> ensure_nonempty key v = Raise AttributeError.
Proof.
  intros Hv. destruct v; try reflexivity. destruct (Hv m eq_refl).
Qed.

(** A stored value that is not a dict makes the body of [load_config]
    raise, and the defaults are returned. *)
Lemma load_config_other v :
  (forall m, v <> JObj m) -> load_config (Stored v) = JObj default_config.
Proof.
  intros Hv. unfold load_config. cbn [read_json rbind].
  destruct (convert_legacy_other v Hv) as [-> | [e ->]]; [|reflexivity]. cbn [rbind].
  destruct (merge_defaults_other default_keys v Hv) as [-> | [e ->]]; [|reflexivity].
  cbn [rbind]. rewrite (ensure_nonempty_other _ v Hv). reflexivity.
Qed.

(** [default_keys] lists the keys of [default_config]. *)
Lemma default_keys_complete k :
  is_Some (default_config !! k) <-> In k default_keys.
Proof.
  unfold default_config, default_keys.
  rewrite !lookup_insert_is_Some'. cbn [In].
  pose proof (lookup_empty_is_Some (M := gmap string) (A := json) k). tauto.
Qed.

Lemma default_keys_spec k :
  existsb (String.eqb k) default_keys = true <-> In k default_keys.
Proof.
  rewrite existsb_exists. split.
  - intros (x & Hx & Heq). apply String.eqb_eq in Heq. subst. exact Hx.
  - intros H. exists k. split; [exact H | apply String.eqb_refl].
Qed.

(** The dict that [load_config] builds from a stored dict. *)
Lemma load_config_dict m0 :
  exists m1 m2,
    convert_legacy (JObj m0) = Ret (JObj m1)
    /\ merge_defaults default_keys (JObj m1) = Ret (JObj m2)
    /\ load_config (Stored (JObj m0))
       = JObj (let m3 := if truthy (lookup_or_null m2 "work_periods") then m2
                         else <["work_periods" := default_item "work_periods"]> m2 in
               if truthy (lookup_or_null m3 "block_periods") then m3
               else <["block_periods" := default_item "block_periods"]> m3).
Proof.
  destruct (convert_legacy_dict m0) as (m1 & H1 & _).
  destruct (merge_defaults_dict default_keys m1) as (m2 & H2 & _).
  exists m1, m2. split; [exact H1 | split; [exact H2|]].
  unfold load_config. cbn [read_json rbind]. rewrite H1. cbn [rbind]. rewrite H2.
  cbn [rbind]. rewrite ensure_nonempty_dict. cbn [rbind].
  rewrite ensure_nonempty_dict. reflexivity.
Qed.

Lemma lookup_ensured (m : gmap string json) (key k : string) :
  (if truthy (lookup_or_null m key) then m else <[key := default_item key]> m) !! k
  = if String.eqb k key && negb (truthy (lookup_or_null m key))
    then Some (default_item key) else m !! k.
Proof.
  destruct (truthy (lookup_or_null m key)); cbn [negb]; rewrite ?andb_false_r, ?andb_true_r;
    [reflexivity|].
  destruct (String.eqb_spec k key) as [->|Hne].
  - apply lookup_insert_eq.
  - apply lookup_insert_ne. congruence.
Qed.

(** C10. Whatever is at the configuration file, [load_config] returns a
    dict that has every key of the default configuration and whose
    [work_periods] and [block_periods] are not empty; when the file cannot
    be read or parsed it returns the default configuration; and in a
    stored dict of the current format a list that is missing or empty is
    replaced by the default one. *)
Theorem load_config_complete (f : file) :
  exists m,
    load_config f = JObj m
    /\ (forall k, is_Some (default_config !! k) -> is_Some (m !! k))
    /\ (exists v, m !! "work_periods"%string = Some v /\ truthy v = true)
    /\ (exists v, m !! "block_periods"%string = Some v /\ truthy v = true)
    /\ ((exists e, read_json f = Raise e) -> m = default_config)
    /\ (forall m0 key,
          f = Stored (JObj m0) -> ~ old_format m0 ->
          key = "work_periods"%string \/ key = "block_periods"%string ->
          truthy (lookup_or_null m0 key) = false ->
          m !! key = Some (default_item key)).
Proof.
  assert (Hdefault :
    (forall k, is_Some (default_config !! k) -> is_Some (default_config !! k))
    /\ (exists v, default_config !! "work_periods"%string = Some v /\ truthy v = true)
    /\ (exists v, default_config !! "block_periods"%string = Some v /\ truthy v = true)).
  { split; [tauto | split; eexists; split; reflexivity]. }
  destruct Hdefault as (Hd1 & Hd2 & Hd3).
  assert (Hother : forall g, load_config g = JObj default_config ->
                             (forall m0, g <> Stored (JObj m0)) ->
    exists m, load_config g = JObj m
    /\ (forall k, is_Some (default_config !! k) -> is_Some (m !! k))
    /\ (exists v, m !! "work_periods"%string = Some v /\ truthy v = true)
    /\ (exists v, m !! "block_periods"%string = Some v /\ truthy v = true)
    /\ ((exists e, read_json g = Raise e) -> m = default_config)
    /\ (forall m0 key,
          g = Stored (JObj m0) -> ~ old_format m0 ->
          key = "work_periods"%string \/ key = "block_periods"%string ->
          truthy (lookup_or_null m0 key) = false ->
          m !! key = Some (default_item key))).
  { intros g Hg Hn. exists default_config. repeat (split; [assumption || reflexivity|]).
    intros m0 key ->. destruct (Hn m0 eq_refl). }
  destruct f as [| |v]; [apply Hother; [reflexivity | discriminate]..|].
  destruct (not_dict_cases v) as [[m0 ->] | Hv];
    [|apply Hother; [apply load_config_other, Hv | intros m0 [= ->]; apply (Hv m0 eq_refl)]].
  clear Hother.
  destruct (load_config_dict m0) as (m1 & m2 & H1 & H2 & ->). cbv zeta.
  destruct (convert_legacy_dict m0) as (m1' & H1' & Hnew & Hold).
  rewrite H1 in H1'. injection H1' as <-.
  destruct (merge_defaults_dict default_keys m1) as (m2' & H2' & Hm2).
  rewrite H2 in H2'. injection H2' as <-.
  eexists. split; [reflexivity|].
  assert (Hkeys : forall k, In k default_keys -> is_Some (m2 !! k)).
  { intros k Hk. rewrite Hm2. destruct (m1 !! k); [eauto|].
    apply default_keys_spec in Hk. rewrite Hk. eauto. }
  set (m3 := if truthy (lookup_or_null m2 "work_periods") then m2
             else <["work_periods" := default_item "work_periods"]> m2).
  assert (Hm3 : forall k, m3 !! k
                = if String.eqb k "work_periods"
                     && negb (truthy (lookup_or_null m2 "work_periods"))
                  then Some (default_item "work_periods") else m2 !! k)
    by (intros k; apply lookup_ensured).
  assert (Hwork : exists v, m3 !! "work_periods"%string = Some v /\ truthy v = true).
  { rewrite Hm3. rewrite String.eqb_refl. cbn [andb].
    destruct (truthy (lookup_or_null m2 "work_periods")) eqn:Ht; cbn [negb].
    - unfold lookup_or_null in Ht.
      destruct (m2 !! "work_periods"%string) as [v|]; [eauto | discriminate].
    - eexists. split; reflexivity. }
  clearbody m3.
  split; [|split; [|split; [|split]]].
  - intros k Hk. apply default_keys_complete in Hk. rewrite lookup_ensured.
    destruct (_ && _); [eauto|]. rewrite Hm3. destruct (_ && _); [eauto|].
    apply Hkeys, Hk.
  - rewrite lookup_ensured. cbn [String.eqb Ascii.eqb Bool.eqb andb]. exact Hwork.
  - rewrite lookup_ensured. rewrite String.eqb_refl. cbn [andb].
    destruct (truthy (lookup_or_null m3 "block_periods")) eqn:Ht; cbn [negb].
    + unfold lookup_or_null in Ht.
      destruct (m3 !! "block_periods"%string) as [v|]; [eauto | discriminate].
    + eexists. split; reflexivity.
  - intros [e [=]].
  - intros m0' key [= <-] Hfmt Hkey Hfalse.
    rewrite (Hnew Hfmt) in *. clear Hnew Hold H1.
    assert (H2k : truthy (lookup_or_null m2 key) = false
                  \/ m2 !! key = Some (default_item key)).
    { unfold lookup_or_null in *. rewrite Hm2.
      destruct (m0 !! key); [left; exact Hfalse | right].
      destruct Hkey as [-> | ->]; reflexivity. }
    rewrite lookup_ensured.
    destruct Hkey as [-> | ->]; cbn [String.eqb Ascii.eqb Bool.eqb andb].
    + rewrite Hm3, String.eqb_refl. cbn [andb].
      destruct H2k as [-> | H2k]; [reflexivity|].
      destruct (truthy (lookup_or_null m2 "work_periods")); [exact H2k | reflexivity].
    + destruct (truthy (lookup_or_null m3 "block_periods")) eqn:Ht;
        cbn [negb]; [|reflexivity].
      unfold lookup_or_null in Ht. rewrite Hm3 in Ht |- *.
      cbn [String.eqb Ascii.eqb Bool.eqb andb] in Ht |- *.
      destruct H2k as [H2k | H2k]; [|exact H2k].
      unfold lookup_or_null in H2k. destruct (m2 !! "block_periods"%string); congruence.
Qed.

(** A stored configuration whose list of work periods is empty. *)
Lemma load_config_complete_witness :
  exists m, load_config (Stored (JObj (<["work_periods" := JArr []]> ∅))) = JObj m
            /\ m !! "work_periods"%string = Some default_work_periods.
Proof.
  destruct (load_config_complete (Stored (JObj (<["work_periods" := JArr []]> ∅))))
    as (m & Hm & _ & _ & _ & _ & Hrepl).
  exists m. split; [exact Hm|].
  apply (Hrepl (<["work_periods" := JArr []]> ∅) "work_periods"%string eq_refl).
  - intros [_ Hnone]. vm_compute in Hnone. discriminate Hnone.
  - left. reflexivity.
  - reflexivity.
Defined.

(** The default configuration, read the way the loop reads it. *)
Example config_of_default : config_of (load_config Missing) = Some sample_config.
Proof. vm_compute. reflexivity. Qed.

(** ** The editor *)




Lemma selected_from_ints i checks :
  mapM int_of (JInt <$> selected_from i checks) = Some (selected_from i checks).
Proof.
  revert i. induction checks as [|b rest IH]; intros i; cbn [selected_from]; [reflexivity|].
  destruct b; [|apply IH]. cbn. rewrite IH. reflexivity.
Qed.


(** What an accepted form is turned into. *)
Lemma accepted_shape fm cfg :
  validate_and_start fm = Accepted cfg ->
  exists w ws block interval off,
    cfg = config_dict (w :: ws) block interval (auto_start_checked fm)
                      (JInt <$> selected_from 0 (workday_checks fm)) off
                      (off_work_reminder_checked fm)
    /\ collect_periods (work_rows fm) = Ret (Some (w :: ws))
    /\ collect_periods (block_rows fm) = Ret (Some block)
    /\ 0 < interval
    /\ selected_from 0 (workday_checks fm) <> []
    /\ exists t, parse_time (JStr off) = Ret (Some t).
Proof.
  unfold validate_and_start, validate.
  destruct (collect_periods (work_rows fm)) as [[[|w ws]|]|e]; cbn [rbind]; try discriminate.
  destruct (collect_periods (block_rows fm)) as [[block|]|e]; cbn [rbind]; try discriminate.
  unfold interval_of.
  destruct (PyStr.int (PyStr.strip (interval_text fm))) as [interval|e]; try discriminate.
  destruct (Z.leb_spec interval 0) as [Hle|Hlt]; try discriminate.
  destruct (selected_from 0 (workday_checks fm)) as [|d ds] eqn:Hsel; try discriminate.
  destruct (String.eqb (PyStr.strip (off_work_text fm)) "") eqn:Hoff; cbn [rbind negb].
  - intros [= <-]. exists w, ws, block, interval, "18:00"%string.
    repeat (split; [reflexivity || assumption || discriminate|]).
    eexists. vm_compute. reflexivity.
  - destruct (parse_time (JStr (PyStr.strip (off_work_text fm)))) as [[t|]|e] eqn:Hp;
      cbn [rbind negb]; try discriminate.
    intros [= <-]. exists w, ws, block, interval, (PyStr.strip (off_work_text fm)).
    repeat (split; [reflexivity || assumption || discriminate|]). eauto.
Qed.

Lemma load_saved_dict w ws block interval auto selected off enabled :
  load_config (save_config WriteOk
                 (JObj (config_dict (w :: ws) block interval auto selected off enabled))).1
  = JObj (config_dict (w :: ws)
            (match block with
             | [] => [period_json (JStr "12:00") (JStr "13:30")]
             | _ :: _ => block
             end) interval auto selected off enabled).
Proof.
  destruct block; vm_compute; reflexivity.
Qed.



(** C7, amended. A configuration accepted by the editor and saved is
    loaded back unchanged, field for field, when its list of block periods
    is not empty; when that list is empty, it is loaded back with the
    default block period in its place. *)
Theorem save_then_load fm cfg :
  validate_and_start fm = Accepted cfg ->
  (cfg !! "block_periods"%string <> Some (JArr []) ->
     load_config (save_config WriteOk (JObj cfg)).1 = JObj cfg)
  /\ (cfg !! "block_periods"%string = Some (JArr []) ->
     load_config (save_config WriteOk (JObj cfg)).1
     = JObj (<["block_periods" := default_block_periods]> cfg)).
Proof.
  intros Hv. apply accepted_shape in Hv.
  destruct Hv as (w & ws & block & interval & off & -> & _).
  rewrite load_saved_dict.
  set (selected := JInt <$> selected_from 0 (workday_checks fm)).
  assert (Hb : config_dict (w :: ws) block interval (auto_start_checked fm) selected off
                 (off_work_reminder_checked fm) !! "block_periods"%string
               = Some (JArr block)) by reflexivity.
  rewrite Hb. clearbody selected.
  destruct block as [|b bs]; split; intros H; try congruence.
  vm_compute. reflexivity.
Qed.

(** The editor filled in with the default values. *)
Lemma save_then_load_witness :
  exists cfg, validate_and_start sample_form = Accepted cfg
              /\ load_config (save_config WriteOk (JObj cfg)).1 = JObj cfg.
Proof.
  destruct (validate_and_start sample_form) as [why|cfg] eqn:Hv; [discriminate Hv|].
  exists cfg. split; [reflexivity|].
  apply (proj1 (save_then_load sample_form cfg Hv)).
  injection Hv as <-. vm_compute. discriminate.
Defined.

(** C7 as stated fails for the editor filled in without a block period. *)
Lemma save_then_load_counterexample :
  ~ (forall fm cfg,
       validate_and_start fm = Accepted cfg ->
       load_config (save_config WriteOk (JObj cfg)).1 = JObj cfg).
Proof.
  intros H.
  destruct (validate_and_start sample_form_unblocked) as [why|cfg] eqn:Hv;
    [discriminate Hv|].
  specialize (H _ _ Hv). injection Hv as <-.
  apply (f_equal (fun v => match v with
                           | JObj m => m !! "block_periods"%string
                           | _ => None
                           end)) in H.
  vm_compute in H. discriminate H.
Qed.

(** * Further properties *)

(** ** What an iteration shows and what it leaves alone *)

Lemma off_work_check_shown cfg now st r1 st1 o1 :
  off_work_check cfg now (is_in (weekday_of now) (workdays cfg)) st = (r1, st1, o1) ->
  In EndOfShift o1 ->
  end_of_shift_due cfg now /\ last_off_work_reminder_date st <> Some (dt_date now).
Proof.
  unfold off_work_check, end_of_shift_due, is_workday. sched_unfold.
  destruct (is_in (weekday_of now) (workdays cfg)) eqn:Hwd; cbn [andb];
    [|intros [= _ _ <-] []].
  destruct (off_work_reminder_enabled cfg) eqn:Hen; cbn [andb]; [|intros [= _ _ <-] []].
  destruct (truthy (off_work_time cfg)) eqn:Htr; [|intros [= _ _ <-] []].
  destruct (parse_time (off_work_time cfg)) as [[t|]|e] eqn:Hp; simpl;
    [|intros [= _ _ <-] [] | intros [= _ _ <-] []].
  destruct (Z.leb_spec (Z.abs (now - (combine (dt_date now) t - minutes 10))) (seconds 30))
    as [Hle|Hgt]; simpl; [|intros [= _ _ <-] []].
  case_bool_decide as Hd; simpl; [intros [= _ _ <-] []|].
  intros _ _. apply is_in_spec in Hwd. split; [|exact Hd].
  split; [exact Hwd|]. split; [reflexivity|]. exists t. auto.
Qed.

(** The pop-ups of an iteration are those of the end-of-shift check
    followed by those of the reminder decision. *)
Lemma tick_shown cfg now st r st' out :
  work_periods cfg <> [] ->
  tick cfg now st = (r, st', out) ->
  exists r1 st1 o1 o2,
    off_work_check cfg now (is_in (weekday_of now) (workdays cfg)) st = (r1, st1, o1)
    /\ out = o1 ++ o2 /\ ~ In EndOfShift o2.
Proof.
  intros Hwp Ht. destruct (tick_stages _ _ _ _ _ _ Hwp Ht) as (r1 & st1 & o1 & Ho & Hs).
  exists r1, st1, o1.
  destruct Hs as [(e & _ & _ & _ & ->) | [(e & _ & _ & _ & ->) | Hs]];
    try (exists []; rewrite app_nil_r; split; [exact Ho | split; [reflexivity | intros []]]).
  destruct Hs as (iw & ib & r2 & st2 & o2 & _ & _ & Hr & -> & _).
  exists o2. split; [exact Ho | split; [reflexivity|]].
  apply regular_reminder_frame in Hr. tauto.
Qed.

(** X1. In an iteration with a work period configured, whatever its
    outcome, the end-of-shift pop-up is shown exactly when it is due (a
    working day, the reminder enabled, an off-work time that parses, the
    clock within thirty seconds of ten minutes before it) and today is not
    the recorded date. *)
Theorem end_of_shift_iff cfg now st r st' out :
  work_periods cfg <> [] ->
  tick cfg now st = (r, st', out) ->
  (In EndOfShift out <->
   end_of_shift_due cfg now /\ last_off_work_reminder_date st <> Some (dt_date now)).
Proof.
  intros Hwp Ht.
  destruct (tick_shown _ _ _ _ _ _ Hwp Ht) as (r1 & st1 & o1 & o2 & Ho & -> & Hn).
  rewrite in_app_iff. split.
  - intros [Hin | Hin]; [|contradiction]. exact (off_work_check_shown _ _ _ _ _ _ Ho Hin).
  - intros [Hdue Hl]. rewrite (off_work_check_due _ _ _ Hdue Hl) in Ho.
    injection Ho as <- <- <-. left. left. reflexivity.
Qed.

(** Monday at 17:50:05, the service just started: the pop-up shown was due. *)
Lemma end_of_shift_iff_witness :
  end_of_shift_due sample_config (at_clock monday 17 50 5).
Proof.
  destruct (tick sample_config (at_clock monday 17 50 5) app_start)
    as [[r st'] out] eqn:Ht.
  assert (Hwp : work_periods sample_config <> []) by discriminate.
  apply (proj1 (end_of_shift_iff _ _ _ _ _ _ Hwp Ht)).
  vm_compute in Ht. injection Ht as <- <- <-. left. reflexivity.
Defined.

(** What one iteration, whatever its outcome, does to the two fields the
    stand-up decision reads. *)
Lemma tick_memory cfg now st r st' out :
  tick cfg now st = (r, st', out) ->
  (is_first_start st = false -> is_first_start st' = false)
  /\ (In StandUp out ->
      is_first_start st = false /\ last_reminder_time st' = Some now
      /\ match last_reminder_time st with
         | None => True
         | Some last => interval_over now last (interval_minutes cfg) = true
         end)
  /\ (~ In StandUp out -> is_first_start st = false ->
      last_reminder_time st' = last_reminder_time st).
Proof.
  destruct (work_periods cfg) as [|p ps] eqn:Hwp.
  { unfold tick. rewrite Hwp. intros [= _ <- <-]. simpl. tauto. }
  intros Ht.
  assert (Hne : work_periods cfg <> []) by (rewrite Hwp; discriminate).
  destruct (tick_stages _ _ _ _ _ _ Hne Ht) as (r1 & st1 & o1 & Ho & Hs).
  assert (H1 : is_first_start st1 = is_first_start st
               /\ last_reminder_time st1 = last_reminder_time st
               /\ ~ In StandUp o1).
  { destruct (off_work_check_cases cfg now (is_in (weekday_of now) (workdays cfg)) st)
      as [Hc | [Hc | [Hc _]]]; rewrite Hc in Ho; injection Ho as <- <- <-; simpl;
      intuition discriminate. }
  destruct H1 as (Hf1 & Hl1 & Hn1).
  destruct Hs as [(e & _ & _ & -> & ->) | [(e & _ & _ & -> & ->) | Hs]];
    [rewrite Hf1, Hl1; intuition congruence | rewrite Hf1, Hl1; intuition congruence |].
  destruct Hs as (iw & ib & r2 & st2 & o2 & _ & _ & Hr & -> & Hd).
  assert (H2 : is_first_start st' = is_first_start st2
               /\ last_reminder_time st' = last_reminder_time st2).
  { destruct Hd as [(e & _ & _ & ->) | [_ Hd]]; [auto|].
    rewrite daily_reset_run in Hd. injection Hd as _ <-. simpl. auto. }
  destruct H2 as [-> ->]. rewrite <- Hf1, <- Hl1.
  setoid_rewrite in_app_iff.
  apply decision_effects in Hr.
  destruct (iw && negb ib).
  - destruct (is_first_start st1) eqn:Hf; cbn [orb] in Hr.
    + destruct Hr as (Hs & Hf2 & Hl2 & _). rewrite Hf2, Hl2.
      intuition (try discriminate; try congruence).
    + destruct (last_reminder_time st1) as [last|] eqn:Hl.
      * destruct (interval_over now last (interval_minutes cfg)) eqn:Hi;
          destruct Hr as (Hs & Hf2 & Hl2 & _); rewrite Hf2, Hl2;
          intuition (try discriminate; try congruence).
      * destruct Hr as (Hs & Hf2 & Hl2 & _). rewrite Hf2, Hl2.
        intuition (try discriminate; try congruence).
  - destruct Hr as (Hs & Hf2 & Hl2 & _). rewrite Hf2, Hl2.
    intuition (try discriminate; try congruence).
Qed.

Lemma run_cons ev evs st :
  reminder_service (ev :: evs) st
  = ((reminder_service evs (step ev st).1).1,
     (step ev st).2 ++ (reminder_service evs (step ev st).1).2).
Proof.
  cbn [reminder_service]. destruct (step ev st) as [st1 o1]. cbn [fst snd].
  destruct (reminder_service evs st1) as [st2 o2]. reflexivity.
Qed.

(** X4. Once the first-start flag is cleared it stays cleared over any
    run of iterations, confirmations and saves of the editor. *)
Theorem first_start_cleared_for_good evs : forall st,
  is_first_start st = false ->
  is_first_start (reminder_service evs st).1 = false.
Proof.
  induction evs as [|ev evs IH]; intros st Hf; [exact Hf|].
  rewrite run_cons. cbn [fst]. apply IH.
  destruct ev as [cfg now | t |]; [|exact Hf | exact Hf].
  rewrite step_tick. cbn [fst].
  destruct (tick cfg now st) as [[r st'] out] eqn:Ht. cbn [fst snd].
  exact (proj1 (tick_memory _ _ _ _ _ _ Ht) Hf).
Qed.

(** The Monday evening run, entered with the flag cleared. *)
Lemma first_start_cleared_for_good_witness :
  is_first_start (reminder_service shift_run (mkState false None None None)).1 = false.
Proof.
  exact (first_start_cleared_for_good shift_run (mkState false None None None) eq_refl).
Defined.

(** A run of iterations that shows no stand-up pop-up keeps the stored
    reminder time. *)
Lemma quiet_run_keeps_time evs : forall st,
  only_ticks evs ->
  is_first_start st = false ->
  (forall t, ~ In (t, StandUp) (reminder_service evs st).2) ->
  last_reminder_time (reminder_service evs st).1 = last_reminder_time st
  /\ is_first_start (reminder_service evs st).1 = false.
Proof.
  induction evs as [|ev evs IH]; intros st Hev Hf Hq; [split; [reflexivity | exact Hf]|].
  inversion Hev as [|? ? (cfg & now & ->) Hrest]; subst.
  rewrite run_cons in Hq |- *. cbn [fst snd] in Hq |- *.
  rewrite step_tick in Hq |- *. cbn [fst snd] in Hq |- *.
  destruct (tick cfg now st) as [[r st'] out] eqn:Ht. cbn [fst snd] in Hq |- *.
  destruct (tick_memory _ _ _ _ _ _ Ht) as (Hf' & _ & Hkeep).
  assert (Hn : ~ In StandUp out).
  { intros Hin. apply (Hq now). apply in_app_iff. left.
    apply in_map_iff. exists StandUp. auto. }
  destruct (IH st' Hrest (Hf' Hf)) as [Hl Hff].
  { intros t Hin. apply (Hq t). apply in_app_iff. right. exact Hin. }
  rewrite Hl, (Hkeep Hn Hf). split; [reflexivity | exact Hff].
Qed.

(** X5. With the flag cleared and a reminder time stored, as after a
    pop-up shown or confirmed, a run of iterations that show no stand-up
    pop-up is followed by one only when at least [interval_minutes * 60]
    seconds have passed since the stored time. *)
Theorem stand_up_spacing evs st last cfg now r st' out :
  is_first_start st = false ->
  last_reminder_time st = Some last ->
  only_ticks evs ->
  (forall t, ~ In (t, StandUp) (reminder_service evs st).2) ->
  tick cfg now (reminder_service evs st).1 = (r, st', out) ->
  In StandUp out ->
  interval_minutes cfg * 60 * us_per_second <= now - last.
Proof.
  intros Hf Hl Hev Hq Ht Hin.
  destruct (quiet_run_keeps_time evs st Hev Hf Hq) as [Hl' _].
  destruct (tick_memory _ _ _ _ _ _ Ht) as (_ & Hfire & _).
  destruct (Hfire Hin) as (_ & _ & Hover).
  rewrite Hl', Hl in Hover. apply interval_over_spec in Hover. exact Hover.
Qed.

(** A reminder at 09:10, a quiet iteration at 09:30, the pop-up at 10:15. *)
Lemma stand_up_spacing_witness :
  interval_minutes sample_config * 60 * us_per_second
  <= at_clock monday 10 15 0 - at_clock monday 9 10 0.
Proof.
  set (st := mkState false (Some (at_clock monday 9 10 0)) None None).
  set (evs := [Tick sample_config (at_clock monday 9 30 0)]).
  destruct (tick sample_config (at_clock monday 10 15 0) (reminder_service evs st).1)
    as [[r st'] out] eqn:Ht.
  assert (Hev : only_ticks evs) by (repeat constructor; eauto).
  assert (Hq : forall t, ~ In (t, StandUp) (reminder_service evs st).2).
  { intros t. vm_compute. tauto. }
  apply (stand_up_spacing evs st _ _ _ _ _ _ eq_refl eq_refl Hev Hq Ht).
  vm_compute in Ht. injection Ht as <- <- <-. left. reflexivity.
Defined.

(** X2. On a day that is not a working day an iteration shows no pop-up
    at all, and it leaves the first-start flag and the stored reminder
    time as they were, whatever its outcome. *)
Theorem rest_day_silent cfg now st r st' out :
  ~ is_workday cfg now ->
  tick cfg now st = (r, st', out) ->
  out = []
  /\ is_first_start st' = is_first_start st
  /\ last_reminder_time st' = last_reminder_time st.
Proof.
  intros Hwd.
  destruct (work_periods cfg) as [|p ps] eqn:Hwp.
  { unfold tick. rewrite Hwp. intros [= _ <- <-]. auto. }
  assert (Hne : work_periods cfg <> []) by (rewrite Hwp; discriminate).
  rewrite (tick_unfold cfg now st Hne).
  unfold is_workday in Hwd. rewrite <- is_in_spec in Hwd. apply not_true_is_false in Hwd.
  unfold work_gate. rewrite Hwd.
  unfold off_work_check. sched_unfold. cbn [andb].
  destruct (in_any_period (block_periods cfg) (dt_time now)) as [ib|e];
    [|intros [= _ <- <-]; auto].
  pose proof (regular_reminder_cases cfg now false ib st) as Hc. cbv zeta in Hc.
  cbn [andb] in Hc.
  destruct (next_times cfg now) as [ts|e]; rewrite Hc; [|intros [= _ <- <-]; auto].
  rewrite daily_reset_run. intros [= _ <- <-]. auto.
Qed.

(** Saturday at 10:00. *)
Lemma rest_day_silent_witness :
  (tick sample_config (at_clock saturday 10 0 0) app_start).2 = [].
Proof.
  destruct (tick sample_config (at_clock saturday 10 0 0) app_start)
    as [[r st'] out] eqn:Ht.
  assert (Hwd : ~ is_workday sample_config (at_clock saturday 10 0 0)).
  { unfold is_workday. rewrite <- is_in_spec. vm_compute. discriminate. }
  exact (proj1 (rest_day_silent _ _ _ _ _ _ Hwd Ht)).
Defined.

(** X6. After the editor has saved while the service runs with its
    first-start flag already cleared, the next iteration inside a work
    period of a working day and outside the block periods that runs to
    its end shows the stand-up pop-up, however recent the last one, and
    restarts the interval from now. *)
Theorem reconfigured_fires cfg now st st' out :
  is_first_start st = false ->
  effective cfg now ->
  tick cfg now (step Reconfigured st).1 = (Ret tt, st', out) ->
  In StandUp out
  /\ last_reminder_time st' = Some now
  /\ next_reminder st' = Some (now + minutes (interval_minutes cfg)).
Proof.
  intros Hf Heff Ht.
  assert (Hne : work_periods cfg <> []).
  { destruct Heff as (_ & Hw & _). unfold in_work_period in Hw.
    intros Hnil. rewrite Hnil in Hw. inversion Hw. }
  destruct (tick_completed _ _ _ _ _ Ht Hne)
    as (st1 & o1 & iw & ib & st2 & o2 & Hst1 & Hg & Hr & Hd & ->).
  apply Hg in Heff.
  assert (H1 : is_first_start st1 = false /\ last_reminder_time st1 = None).
  { destruct Hst1 as [[-> _] | (-> & _)]; simpl; auto. }
  destruct H1 as [Hf1 Hl1].
  apply (decision_effects cfg now) in Hr. rewrite Heff, Hf1, Hl1 in Hr. cbn [orb] in Hr.
  destruct Hr as (Hs & _ & Hl2 & Hn2).
  rewrite daily_reset_run in Hd. injection Hd as <-. simpl.
  split; [apply in_app_iff; right; apply Hs; reflexivity|]. split; [exact Hl2|].
  destruct Hn2 as [(_ & _ & Hn2) | (_ & [=] & _)]. exact Hn2.
Qed.

(** A reminder at 10:00, the editor saved, an iteration at 10:15. *)
Lemma reconfigured_fires_witness :
  In StandUp
     (tick sample_config (at_clock monday 10 15 0)
           (step Reconfigured (mkState false (Some (at_clock monday 10 0 0)) None None)).1).2.
Proof.
  set (st := mkState false (Some (at_clock monday 10 0 0)) None None).
  destruct (tick sample_config (at_clock monday 10 15 0) (step Reconfigured st).1)
    as [[r st'] out] eqn:Ht.
  assert (Hr : r = Ret tt) by (vm_compute in Ht; injection Ht as <- _ _; reflexivity).
  subst r.
  assert (Heff : effective sample_config (at_clock monday 10 15 0))
    by (apply effective_decided; vm_compute; reflexivity).
  exact (proj1 (reconfigured_fires _ _ st _ _ eq_refl Heff Ht)).
Defined.

(** ** The estimate outside the effective window *)

Lemma block_end_times_future periods now : forall ts,
  block_end_times periods (dt_date now) now = Ret ts ->
  Forall (fun t => now < t) ts.
Proof.
  induction periods as [|p rest IH]; intros ts; cbn [block_end_times].
  - intros [= <-]. constructor.
  - destruct (parse_time (p_end p)) as [block_end|e] eqn:Hp; cbn [rbind]; [|discriminate].
    destruct (block_end_times rest (dt_date now) now) as [more|e]; cbn [rbind];
      [|discriminate].
    specialize (IH more eq_refl).
    destruct block_end as [t|]; intros [= <-]; [|exact IH].
    constructor; [|exact IH].
    apply parse_time_valid in Hp. destruct Hp as [Hv _].
    apply time_offset_bounds in Hv. pose proof (dt_date_bounds now) as Hb.
    unfold combine, days in *. change us_per_day with 86400000000 in *.
    destruct (Z.leb_spec (dt_date now * 86400000000 + time_offset t) now); lia.
Qed.

Lemma fold_min_spec (rest : list Z) : forall t,
  let m := fold_left Z.min rest t in
  In m (t :: rest) /\ Forall (fun x => m <= x) (t :: rest).
Proof.
  induction rest as [|x rest IH]; intros t; cbn [fold_left].
  - split; [left; reflexivity | constructor; [lia | constructor]].
  - specialize (IH (Z.min t x)). cbv zeta in *.
    set (m := fold_left Z.min rest (Z.min t x)) in *. clearbody m.
    destruct IH as [Hin Hle]. split.
    + destruct Hin as [Hin | Hin]; [|right; right; exact Hin].
      destruct (Z.min_spec t x) as [[_ Hm] | [_ Hm]]; rewrite Hm in Hin;
        [left | right; left]; exact Hin.
    + inversion Hle as [|? ? Hm Hrest]; subst.
      constructor; [lia | constructor; [lia | exact Hrest]].
Qed.

Lemma earliest_spec now ts :
  match ts with
  | [] => earliest now ts = now + hours 1
  | _ => In (earliest now ts) ts /\ Forall (fun t => earliest now ts <= t) ts
  end.
Proof. destruct ts as [|t rest]; [reflexivity | apply fold_min_spec]. Qed.

Lemma next_times_future cfg now ts :
  next_times cfg now = Ret ts -> Forall (fun t => now < t) ts.
Proof.
  unfold next_times.
  destruct (work_start_times cfg now) as [starts|e] eqn:Hs; cbn [rbind]; [|discriminate].
  destruct (block_end_times _ _ _) as [ends|e] eqn:He; cbn [rbind]; [|discriminate].
  intros [= <-]. apply Forall_app. split.
  - exact (work_start_times_future _ _ _ Hs).
  - exact (block_end_times_future _ _ _ He).
Qed.

(** ** An iteration that fails *)

Lemma in_any_period_raises periods t e :
  in_any_period periods t = Raise e -> e = OverflowError.
Proof.
  induction periods as [|p rest IH]; cbn [in_any_period]; [discriminate|].
  destruct (parse_time (p_start p)) as [s|e1] eqn:Hs; cbn [rbind];
    [|intros [= <-]; exact (parse_time_raises _ _ Hs)].
  destruct (parse_time (p_end p)) as [e2|e2] eqn:He; cbn [rbind];
    [|intros [= <-]; exact (parse_time_raises _ _ He)].
  destruct s as [s|], e2 as [e2|]; try exact IH.
  destruct (time_in_range s e2 t); [discriminate | exact IH].
Qed.

Lemma today_start_times_raises periods today now e :
  today_start_times periods today now = Raise e -> e = OverflowError.
Proof.
  induction periods as [|p rest IH]; cbn [today_start_times]; [discriminate|].
  destruct (parse_time (p_start p)) as [s|e1] eqn:Hs; cbn [rbind];
    [|intros [= <-]; exact (parse_time_raises _ _ Hs)].
  destruct (today_start_times rest today now) as [more|e1]; cbn [rbind];
    [destruct s; discriminate | intros [= <-]; apply IH; reflexivity].
Qed.

Lemma block_end_times_raises periods today now e :
  block_end_times periods today now = Raise e -> e = OverflowError.
Proof.
  induction periods as [|p rest IH]; cbn [block_end_times]; [discriminate|].
  destruct (parse_time (p_end p)) as [s|e1] eqn:Hs; cbn [rbind];
    [|intros [= <-]; exact (parse_time_raises _ _ Hs)].
  destruct (block_end_times rest today now) as [more|e1]; cbn [rbind];
    [destruct s; discriminate | intros [= <-]; apply IH; reflexivity].
Qed.

Lemma next_times_raises cfg now e :
  next_times cfg now = Raise e -> e = OverflowError.
Proof.
  unfold next_times, work_start_times.
  destruct (if is_in _ _ then _ else _) as [starts|e1] eqn:Hs; cbn [rbind].
  - destruct (next_workday_start _ _ _ _) as [next|e1] eqn:Hn; cbn [rbind].
    + destruct (block_end_times _ _ _) as [ends|e1] eqn:He; cbn [rbind]; [discriminate|].
      intros [= <-]. exact (block_end_times_raises _ _ _ _ He).
    + intros [= <-]. unfold next_workday_start in Hn.
      destruct (negb _ && _); [|discriminate].
      destruct (work_periods cfg) as [|first_period rest]; [discriminate|].
      destruct (_ <=? 7); [|discriminate].
      destruct (parse_time (p_start first_period)) as [[t|]|e2] eqn:Hp; cbn [rbind] in Hn;
        try discriminate.
      injection Hn as <-. exact (parse_time_raises _ _ Hp).
  - intros [= <-]. destruct (is_in _ _); [|discriminate].
    exact (today_start_times_raises _ _ _ _ Hs).
Qed.

(** X3. On a configuration whose entries have the types that the editor
    writes, an iteration that fails raises an [OverflowError] and leaves
    the next reminder as it was.  It fails either before anything was
    assigned for the stand-up reminder (a time text whose number does not
    fit a C [int], or the estimate of the remaining time out of range):
    then no stand-up pop-up is shown and the first-start flag and the
    stored reminder time are as they were; or inside the window, at the
    sum of [now] and an interval that leaves the calendar: then [now] has
    been stored, the flag cleared, and the stand-up pop-up shown unless
    the flag was set. *)
Theorem tick_failure cfg now st e st' out :
  tick cfg now st = (Raise e, st', out) ->
  e = OverflowError
  /\ next_reminder st' = next_reminder st
  /\ ((~ In StandUp out
       /\ is_first_start st' = is_first_start st
       /\ last_reminder_time st' = last_reminder_time st)
      \/ (effective cfg now /\ ~ interval_fits cfg now
          /\ (In StandUp out <-> is_first_start st = false)
          /\ is_first_start st' = false
          /\ last_reminder_time st' = Some now)).
Proof.
  destruct (work_periods cfg) as [|p ps] eqn:Hwp.
  { unfold tick. rewrite Hwp. discriminate. }
  intros Ht.
  assert (Hne : work_periods cfg <> []) by (rewrite Hwp; discriminate).
  destruct (tick_stages _ _ _ _ _ _ Hne Ht) as (r1 & st1 & o1 & Ho & Hs).
  assert (H1 : is_first_start st1 = is_first_start st
               /\ last_reminder_time st1 = last_reminder_time st
               /\ next_reminder st1 = next_reminder st
               /\ ~ In StandUp o1
               /\ forall x, r1 = Raise x -> x = OverflowError).
  { destruct (off_work_check_cases cfg now (is_in (weekday_of now) (workdays cfg)) st)
      as [Hc | [Hc | [Hc _]]]; rewrite Hc in Ho; injection Ho as <- <- <-; simpl;
      intuition (discriminate || congruence). }
  destruct H1 as (Hf1 & Hl1 & Hn1 & Hno1 & Hx1).
  destruct Hs as [(x & Hr1 & [= <-] & -> & ->) | [(x & Hg & [= <-] & -> & ->) | Hs]].
  - rewrite (Hx1 _ Hr1). auto 6.
  - split; [|auto 6].
    destruct Hg as [Hg | Hg]; [|exact (in_any_period_raises _ _ _ Hg)].
    unfold work_gate in Hg. destruct (is_in _ _); [|discriminate].
    exact (in_any_period_raises _ _ _ Hg).
  - destruct Hs as (iw & ib & r2 & st2 & o2 & Hiw & Hib & Hr & -> & Hd).
    destruct Hd as [(x & -> & [= <-] & ->) | [_ Hd]];
      [|rewrite daily_reset_run in Hd; discriminate Hd].
    assert (Heff : iw && negb ib = true -> effective cfg now).
    { intros Hb. apply andb_true_iff in Hb. destruct Hb as [-> Hb].
      apply negb_true_iff in Hb. subst ib.
      apply gate_spec in Hiw. apply in_any_period_spec in Hib.
      fold (in_block_period cfg now) in Hib. unfold effective.
      intuition discriminate. }
    apply decision_effects in Hr. rewrite <- Hf1, <- Hl1, <- Hn1.
    setoid_rewrite in_app_iff.
    destruct (iw && negb ib).
    + destruct (_ || _).
      * destruct Hr as (Hs & Hf2 & Hl2 & [(_ & [=] & _) | (Hno & [= ->] & Hn2)]).
        split; [reflexivity|]. split; [exact Hn2|]. right.
        split; [auto|]. split; [exact Hno|]. split; [|auto]. tauto.
      * destruct Hr as (Hs & Hf2 & Hl2 & last & _ & [(n & _ & [=] & _) | (x & He & [= ->] & ->)]).
        apply remaining_estimate_raises in He. subst x.
        split; [reflexivity|]. split; [reflexivity|]. left. tauto.
    + destruct Hr as (Hs & Hf2 & Hl2 & [(ts & _ & [=] & _) | (x & He & [= ->] & ->)]).
      split; [exact (next_times_raises _ _ _ He)|]. split; [reflexivity|]. left. tauto.
Qed.

(** A block period whose hour does not fit a C [int]. *)
Lemma tick_failure_witness :
  (tick overflow_config (at_clock monday 10 0 0) app_start).1.1 = Raise OverflowError.
Proof.
  destruct (tick overflow_config (at_clock monday 10 0 0) app_start)
    as [[r st'] out] eqn:Ht.
  destruct r as [u|e]; [vm_compute in Ht; discriminate Ht|].
  destruct (tick_failure _ _ _ _ _ _ Ht) as [-> _]. reflexivity.
Defined.

(** ** The start on the next working day *)

Lemma search_days_ahead_least rounds weekday wds : forall d,
  1 <= d -> 8 <= d + Z.of_nat rounds ->
  forall k, d <= k < search_days_ahead rounds weekday wds d ->
  is_in ((weekday + k - 1) mod 7 + 1) wds = false.
Proof.
  induction rounds as [|n IH]; intros d Hd Hr k; cbn [search_days_ahead].
  - destruct (is_in ((weekday + d - 1) mod 7 + 1) wds) eqn:Hin; cbn [negb]; [lia|].
    destruct (Z.gtb_spec (d + 1) 7); intros Hk; replace k with d by lia; exact Hin.
  - destruct (is_in ((weekday + d - 1) mod 7 + 1) wds) eqn:Hin; cbn [negb]; [lia|].
    destruct (Z.gtb_spec (d + 1) 7); intros Hk.
    + replace k with d by lia. exact Hin.
    + destruct (Z.eq_dec k d) as [-> | Hne]; [exact Hin|].
      apply (IH (d + 1)); lia.
Qed.

Lemma weekday_ahead (today k : Z) :
  (date_weekday today + 1 + k - 1) mod 7 + 1 = date_weekday (today + k) + 1.
Proof.
  unfold date_weekday. f_equal.
  replace ((today + 6) mod 7 + 1 + k - 1) with ((today + 6) mod 7 + k) by lia.
  rewrite Zplus_mod_idemp_l. f_equal. lia.
Qed.

(** X8. On a day off, when some day of the week is a working day, the
    only start considered is that of the first work period on the nearest
    following working day, one to six days ahead. *)
Theorem next_workday_nearest cfg now p ps t w :
  ~ is_workday cfg now ->
  work_periods cfg = p :: ps ->
  parse_time (p_start p) = Ret (Some t) ->
  In w (workdays cfg) -> 1 <= w <= 7 ->
  exists d,
    1 <= d <= 6
    /\ work_start_times cfg now = Ret [combine (dt_date now + d) t]
    /\ working_day_ahead cfg now d
    /\ (forall k, 1 <= k < d -> ~ working_day_ahead cfg now k).
Proof.
  intros Hwd Hwp Hp Hw Hrange.
  pose proof Hwd as Hwd'. unfold is_workday, weekday_of in Hwd'.
  unfold is_workday in Hwd. rewrite <- is_in_spec in Hwd. apply not_true_is_false in Hwd.
  unfold weekday_of in Hwd.
  set (wk := date_weekday (dt_date now) + 1) in *.
  pose proof (search_days_ahead_spec 7 wk (workdays cfg) 1 ltac:(lia) ltac:(lia)) as Hs.
  pose proof (search_days_ahead_least 7 wk (workdays cfg) 1 ltac:(lia) ltac:(lia)) as Hl.
  cbv zeta in Hs.
  set (d := search_days_ahead 7 wk (workdays cfg) 1) in *.
  assert (Hwk : 1 <= wk <= 7).
  { unfold wk, date_weekday. pose proof (Z.mod_pos_bound (dt_date now + 6) 7). lia. }
  assert (Hd6 : d <= 6).
  { destruct (Z.le_gt_cases d ((w - wk) mod 7)) as [Hle | Hgt].
    - pose proof (Z.mod_pos_bound (w - wk) 7). lia.
    - assert (Hk : 1 <= (w - wk) mod 7).
      { assert (Hww : w <> wk) by (intros ->; contradiction).
        pose proof (Z.mod_pos_bound (w - wk) 7 ltac:(lia)) as Hmb.
        destruct (Z.eq_dec ((w - wk) mod 7) 0) as [Hz|]; [|lia].
        apply Z.mod_divide in Hz; [|lia]. destruct Hz as [q Hq]. lia. }
      specialize (Hl ((w - wk) mod 7) ltac:(lia)).
      replace ((wk + (w - wk) mod 7 - 1) mod 7 + 1) with w in Hl.
      + apply is_in_spec in Hw. congruence.
      + replace (wk + (w - wk) mod 7 - 1) with ((w - wk) mod 7 + (wk - 1)) by lia.
        rewrite Zplus_mod_idemp_l. replace (w - wk + (wk - 1)) with (w - 1) by lia.
        rewrite Z.mod_small; lia. }
  destruct Hs as [Hd1 Hin]. specialize (Hin ltac:(lia)).
  exists d. split; [lia|]. split; [|split].
  - unfold work_start_times. fold wk. rewrite Hwd. cbn [rbind app].
    unfold next_workday_start. cbn [negb andb]. fold d.
    assert (Hne : match workdays cfg with [] => false | _ => true end = true).
    { destruct (workdays cfg); [destruct Hw | reflexivity]. }
    rewrite Hne, Hwp. destruct (Z.leb_spec d 7); [|lia].
    rewrite Hp. reflexivity.
  - unfold working_day_ahead. rewrite <- weekday_ahead. fold wk.
    apply is_in_spec. exact Hin.
  - intros k Hk. unfold working_day_ahead. rewrite <- weekday_ahead. fold wk.
    rewrite <- is_in_spec. rewrite (Hl k ltac:(lia)). discriminate.
Qed.

(** Saturday at 10:00: the start falls on Monday. *)
Lemma next_workday_nearest_witness :
  exists d,
    1 <= d <= 6
    /\ work_start_times sample_config (at_clock saturday 10 0 0)
       = Ret [combine (dt_date (at_clock saturday 10 0 0) + d) (mkTime 9 0 0 0)].
Proof.
  assert (Hwd : ~ is_workday sample_config (at_clock saturday 10 0 0)).
  { unfold is_workday. rewrite <- is_in_spec. vm_compute. discriminate. }
  assert (Hw : In 1 (workdays sample_config)) by (left; reflexivity).
  destruct (next_workday_nearest sample_config (at_clock saturday 10 0 0)
              (window "09:00" "18:00") [] (mkTime 9 0 0 0) 1 Hwd eq_refl eq_refl Hw
              ltac:(lia))
    as (d & Hd & Hs & _).
  exists d. split; [exact Hd | exact Hs].
Defined.

(** ** The choice among the candidate times *)

Lemma today_start_times_in periods now : forall ts,
  today_start_times periods (dt_date now) now = Ret ts ->
  forall c, In c ts <->
    exists p t, In p periods /\ parse_time (p_start p) = Ret (Some t)
                /\ c = next_occurrence now t.
Proof.
  induction periods as [|p rest IH]; intros ts; cbn [today_start_times].
  - intros [= <-] c. split; [intros [] | intros (p & t & [] & _)].
  - destruct (parse_time (p_start p)) as [start|e] eqn:Hp; cbn [rbind]; [|discriminate].
    destruct (today_start_times rest (dt_date now) now) as [more|e]; cbn [rbind];
      [|discriminate].
    specialize (IH more eq_refl).
    destruct start as [t|]; intros [= <-] c.
    + cbn [In]. rewrite IH. split.
      * intros [<- | (q & t' & Hq & Hpq & ->)].
        -- exists p, t. split; [left; reflexivity|]. split; [exact Hp | reflexivity].
        -- exists q, t'. split; [right; exact Hq | auto].
      * intros (q & t' & [<- | Hq] & Hpq & ->).
        -- left. rewrite Hp in Hpq. injection Hpq as <-. reflexivity.
        -- right. eauto.
    + rewrite IH. split.
      * intros (q & t' & Hq & H). exists q, t'. split; [right; exact Hq | exact H].
      * intros (q & t' & [<- | Hq] & Hpq & ->); [congruence | eauto].
Qed.

Lemma block_end_times_in periods now : forall ts,
  block_end_times periods (dt_date now) now = Ret ts ->
  forall c, In c ts <->
    exists p t, In p periods /\ parse_time (p_end p) = Ret (Some t)
                /\ c = next_occurrence now t.
Proof.
  induction periods as [|p rest IH]; intros ts; cbn [block_end_times].
  - intros [= <-] c. split; [intros [] | intros (p & t & [] & _)].
  - destruct (parse_time (p_end p)) as [block_end|e] eqn:Hp; cbn [rbind]; [|discriminate].
    destruct (block_end_times rest (dt_date now) now) as [more|e]; cbn [rbind];
      [|discriminate].
    specialize (IH more eq_refl).
    destruct block_end as [t|]; intros [= <-] c.
    + cbn [In]. rewrite IH. split.
      * intros [<- | (q & t' & Hq & Hpq & ->)].
        -- exists p, t. split; [left; reflexivity|]. split; [exact Hp | reflexivity].
        -- exists q, t'. split; [right; exact Hq | auto].
      * intros (q & t' & [<- | Hq] & Hpq & ->).
        -- left. rewrite Hp in Hpq. injection Hpq as <-. reflexivity.
        -- right. eauto.
    + rewrite IH. split.
      * intros (q & t' & Hq & H). exists q, t'. split; [right; exact Hq | exact H].
      * intros (q & t' & [<- | Hq] & Hpq & ->); [congruence | eauto].
Qed.

Lemma working_day_ahead_spec cfg now k :
  working_day_ahead cfg now k
  <-> is_in ((weekday_of now + k - 1) mod 7 + 1) (workdays cfg) = true.
Proof.
  unfold working_day_ahead, weekday_of. rewrite weekday_ahead. symmetry. apply is_in_spec.
Qed.

Lemma next_workday_start_in cfg now ts :
  next_workday_start cfg (dt_date now) (weekday_of now) false = Ret ts ->
  forall c, In c ts <->
    exists p rest t k,
      work_periods cfg = p :: rest /\ parse_time (p_start p) = Ret (Some t)
      /\ 1 <= k <= 7 /\ working_day_ahead cfg now k
      /\ (forall j, 1 <= j < k -> ~ working_day_ahead cfg now j)
      /\ c = combine (dt_date now + k) t.
Proof.
  unfold next_workday_start. cbn [negb andb].
  pose proof (search_days_ahead_spec 7 (weekday_of now) (workdays cfg) 1
                ltac:(lia) ltac:(lia)) as Hs.
  pose proof (search_days_ahead_least 7 (weekday_of now) (workdays cfg) 1
                ltac:(lia) ltac:(lia)) as Hl.
  cbv zeta in Hs.
  set (d := search_days_ahead 7 (weekday_of now) (workdays cfg) 1) in *. clearbody d.
  destruct Hs as [Hd1 Hin].
  assert (Hnone : forall k, 1 <= k < d -> ~ working_day_ahead cfg now k).
  { intros k Hk Hw. apply working_day_ahead_spec in Hw. rewrite (Hl k Hk) in Hw.
    discriminate Hw. }
  destruct (workdays cfg) as [|w ws] eqn:Hwds.
  { intros [= <-] c. split; [intros []|].
    intros (p & rest & t & k & _ & _ & _ & Hw & _).
    unfold working_day_ahead in Hw. rewrite Hwds in Hw. destruct Hw. }
  rewrite <- Hwds in *. clear Hwds w ws.
  destruct (work_periods cfg) as [|first_period others] eqn:Hwp.
  { intros [= <-] c. split; [intros []|].
    intros (p & rest & t & k & [=] & _). }
  destruct (Z.leb_spec d 7) as [Hle | Hgt].
  - specialize (Hin Hle). apply working_day_ahead_spec in Hin.
    destruct (parse_time (p_start first_period)) as [[t|]|e] eqn:Hp; cbn [rbind];
      [| |discriminate]; intros [= <-] c.
    + cbn [In]. split.
      * intros [<- | []]. exists first_period, others, t, d.
        repeat (split; [reflexivity || assumption || lia|]). reflexivity.
      * intros (p & rest & t' & k & [= <- <-] & Hp' & Hk & Hw & Hleast & ->).
        left. rewrite Hp in Hp'. injection Hp' as <-.
        assert (k = d); [|subst; reflexivity].
        destruct (Z.lt_trichotomy k d) as [Hlt | [Heq | Hlt]]; [|exact Heq|].
        -- exfalso. exact (Hnone k ltac:(lia) Hw).
        -- exfalso. exact (Hleast d ltac:(lia) Hin).
    + split; [intros []|].
      intros (p & rest & t' & k & [= <- <-] & Hp' & _). congruence.
  - intros [= <-] c. split; [intros []|].
    intros (p & rest & t & k & _ & _ & Hk & Hw & _). exact (Hnone k ltac:(lia) Hw).
Qed.

(** The list from which the next reminder is taken holds the candidate
    times and nothing else. *)
Lemma next_times_candidates cfg now ts :
  next_times cfg now = Ret ts -> forall c, In c ts <-> candidate cfg now c.
Proof.
  unfold next_times, work_start_times. fold (weekday_of now).
  destruct (is_in (weekday_of now) (workdays cfg)) eqn:Hwd.
  - assert (Hday : is_workday cfg now) by (apply is_in_spec; exact Hwd).
    destruct (today_start_times _ _ _) as [starts|e] eqn:Hs; cbn [rbind]; [|discriminate].
    unfold next_workday_start. cbn [negb andb rbind].
    destruct (block_end_times _ _ _) as [ends|e] eqn:He; cbn [rbind]; [|discriminate].
    intros [= <-] c. rewrite app_nil_r, in_app_iff.
    rewrite (today_start_times_in _ _ _ Hs c), (block_end_times_in _ _ _ He c). split.
    + intros [(p & t & Hp & Hpt & ->) | (p & t & Hp & Hpt & ->)];
        [eapply start_today | eapply block_end]; eassumption.
    + intros Hc. destruct Hc as [p t _ Hp Hpt | p rest t k Hno | p t Hp Hpt];
        [left; eauto | contradiction | right; eauto].
  - assert (Hday : ~ is_workday cfg now).
    { unfold is_workday. rewrite <- is_in_spec, Hwd. discriminate. }
    cbn [rbind].
    destruct (next_workday_start _ _ _ _) as [next|e] eqn:Hn; cbn [rbind]; [|discriminate].
    destruct (block_end_times _ _ _) as [ends|e] eqn:He; cbn [rbind]; [|discriminate].
    intros [= <-] c. cbn [app]. rewrite in_app_iff.
    rewrite (next_workday_start_in _ _ _ Hn c), (block_end_times_in _ _ _ He c). split.
    + intros [(p & rest & t & k & Hwp & Hpt & Hk & Hw & Hleast & ->) | (p & t & Hp & Hpt & ->)];
        [eapply start_next_workday | eapply block_end]; eassumption.
    + intros Hc. destruct Hc as [p t Hyes | p rest t k _ Hwp Hpt Hk Hw Hleast | p t Hp Hpt];
        [contradiction | left; eauto 10 | right; eauto].
Qed.

(** X7. With at least one work period configured, outside the work
    periods, in a block period or on a day off, an iteration that runs to
    its end sets the next reminder to a moment after now: the earliest of
    the candidate times (on a working day the next start of each work
    period, on a day off the start of the first work period on the nearest
    working day, on any day the next end of each block period), or one
    hour from now when there is none. *)
Theorem next_reminder_outside_window cfg now st st' out :
  work_periods cfg <> [] ->
  ~ effective cfg now ->
  tick cfg now st = (Ret tt, st', out) ->
  exists next,
    next_reminder st' = Some next
    /\ now < next
    /\ ((exists c, candidate cfg now c) ->
        candidate cfg now next /\ forall c, candidate cfg now c -> next <= c)
    /\ ((forall c, ~ candidate cfg now c) -> next = now + hours 1).
Proof.
  intros Hne Heff Ht.
  destruct (tick_completed _ _ _ _ _ Ht Hne)
    as (st1 & o1 & iw & ib & st2 & o2 & Hst1 & Hg & Hr & Hd & ->).
  rewrite <- Hg in Heff. apply not_true_is_false in Heff.
  pose proof (regular_reminder_cases cfg now iw ib st1) as Hc. cbv zeta in Hc.
  rewrite Heff in Hc.
  destruct (next_times cfg now) as [ts|e] eqn:Hn; rewrite Hc in Hr; [|discriminate].
  injection Hr as <- <-. rewrite daily_reset_run in Hd. injection Hd as <-.
  exists (earliest now ts). cbn [next_reminder]. split; [reflexivity|].
  pose proof (earliest_spec now ts) as He.
  pose proof (next_times_future _ _ _ Hn) as Hfut.
  pose proof (next_times_candidates _ _ _ Hn) as Hcand.
  destruct ts as [|t rest].
  - rewrite He. unfold hours. change us_per_hour with 3600000000.
    split; [lia|]. split; [|reflexivity].
    intros [c Hcd]. apply Hcand in Hcd. destruct Hcd.
  - destruct He as [Hin Hle]. split.
    + rewrite List.Forall_forall in Hfut. exact (Hfut _ Hin).
    + split.
      * intros _. split; [apply Hcand; exact Hin|].
        intros c Hcd. apply Hcand in Hcd.
        rewrite List.Forall_forall in Hle. exact (Hle _ Hcd).
      * intros Hno. exfalso. apply (Hno t), Hcand. left. reflexivity.
Qed.

(** Saturday at 10:00: the end of the block period, at 13:30, comes before
    the start of work on Monday. *)
Lemma next_reminder_outside_window_witness :
  exists next,
    next_reminder (tick sample_config (at_clock saturday 10 0 0) app_start).1.2 = Some next
    /\ candidate sample_config (at_clock saturday 10 0 0) next.
Proof.
  destruct (tick sample_config (at_clock saturday 10 0 0) app_start)
    as [[r st'] out] eqn:Ht.
  assert (Hr : r = Ret tt) by (vm_compute in Ht; injection Ht as <- _ _; reflexivity).
  subst r.
  assert (Hwp : work_periods sample_config <> []) by discriminate.
  assert (Heff : ~ effective sample_config (at_clock saturday 10 0 0)).
  { intros [Hwd _]. unfold is_workday in Hwd. rewrite <- is_in_spec in Hwd.
    vm_compute in Hwd. discriminate Hwd. }
  destruct (next_reminder_outside_window _ _ _ _ _ Hwp Heff Ht)
    as (next & Hnext & _ & Hmin & _).
  exists next. split; [exact Hnext|]. apply Hmin.
  exists (next_occurrence (at_clock saturday 10 0 0) (mkTime 13 30 0 0)).
  apply (block_end sample_config _ (window "12:00" "13:30"));
    [left; reflexivity | vm_compute; reflexivity].
Defined.

(** ** A window whose two ends coincide *)

Lemma time_leb_antisym (a b : time) :
  time_leb a b = true -> time_leb b a = true -> a = b.
Proof.
  destruct a as [h1 m1 s1 u1], b as [h2 m2 s2 u2].
  unfold time_leb, time_compare. cbn [hour minute second microsecond].
  destruct (Z.compare_spec h1 h2) as [Hh|Hh|Hh];
    destruct (Z.compare_spec h2 h1) as [Hh'|Hh'|Hh']; try lia; try discriminate.
  destruct (Z.compare_spec m1 m2) as [Hm|Hm|Hm];
    destruct (Z.compare_spec m2 m1) as [Hm'|Hm'|Hm']; try lia; try discriminate.
  destruct (Z.compare_spec s1 s2) as [Hs|Hs|Hs];
    destruct (Z.compare_spec s2 s1) as [Hs'|Hs'|Hs']; try lia; try discriminate.
  destruct (Z.compare_spec u1 u2) as [Hu|Hu|Hu];
    destruct (Z.compare_spec u2 u1) as [Hu'|Hu'|Hu']; try lia; try discriminate.
  intros _ _. congruence.
Qed.

Lemma time_leb_refl (a : time) : time_leb a a = true.
Proof. unfold time_leb, time_compare. rewrite !Z.compare_refl. reflexivity. Qed.

(** X9. A period whose start and end are the same time of day holds a
    single instant of the day: that time with zero seconds and zero
    microseconds. *)
Theorem single_instant_window p s now :
  parse_time (p_start p) = Ret (Some s) ->
  parse_time (p_end p) = Ret (Some s) ->
  (window_holds (dt_time now) p <-> now = combine (dt_date now) s).
Proof.
  intros Hs He. unfold window_holds. rewrite Hs, He. split.
  - intros (s' & e' & [= <-] & [= <-] & Hr).
    unfold time_in_range in Hr. rewrite time_leb_refl in Hr.
    apply andb_true_iff in Hr. destruct Hr as [H1 H2].
    rewrite (time_leb_antisym _ _ H1 H2). symmetry. apply combine_date_time.
  - intros Heq. exists s, s. split; [reflexivity|]. split; [reflexivity|].
    assert (Ht : dt_time now = s).
    { rewrite Heq. pose proof (parse_time_valid _ _ Hs) as (Hv & Hsec & Hus).
      pose proof (dt_date_combine (dt_date now) s Hv) as Hd.
      pose proof (combine_date_time (combine (dt_date now) s)) as Hc.
      rewrite Hd in Hc. unfold combine in Hc.
      assert (Ho : time_offset (dt_time (dt_date now * us_per_day + time_offset s))
                   = time_offset s) by lia.
      pose proof (dt_time_valid (dt_date now * us_per_day + time_offset s)) as Hv'.
      unfold combine. set (t' := dt_time _) in *. clearbody t'.
      apply time_leb_antisym; apply time_leb_offset; auto; lia. }
    rewrite Ht. unfold time_in_range. rewrite !time_leb_refl. reflexivity.
Qed.

(** The window 09:00 to 09:00 at 09:00:00 sharp. *)
Lemma single_instant_window_witness :
  window_holds (dt_time (at_clock monday 9 0 0)) (window "09:00" "09:00").
Proof.
  apply (proj2 (single_instant_window (window "09:00" "09:00") (mkTime 9 0 0 0)
                  (at_clock monday 9 0 0) eq_refl eq_refl)).
  vm_compute. reflexivity.
Defined.

(** ** What [load_config] makes of a stored dict *)

(** The entries of the dict loaded from a stored dict of the current
    format. *)
Lemma load_config_current m0 :
  ~ old_format m0 ->
  exists m, load_config (Stored (JObj m0)) = JObj m
    /\ forall k, m !! k =
         if list_key k && negb (truthy (lookup_or_null m0 k)) then Some (default_item k)
         else match m0 !! k with
              | Some v => Some v
              | None => default_config !! k
              end.
Proof.
  intros Hnew.
  destruct (load_config_dict m0) as (m1 & m2 & H1 & H2 & ->). cbv zeta.
  destruct (convert_legacy_dict m0) as (m1' & H1' & Hsame & _).
  rewrite H1 in H1'. injection H1' as <-. rewrite (Hsame Hnew) in *. clear Hsame H1.
  destruct (merge_defaults_dict default_keys m0) as (m2' & H2' & Hm2).
  rewrite H2 in H2'. injection H2' as <-.
  assert (Hbase : forall k, m2 !! k = match m0 !! k with
                                      | Some v => Some v
                                      | None => default_config !! k
                                      end).
  { intros k. rewrite Hm2. destruct (m0 !! k); [reflexivity|].
    destruct (existsb (String.eqb k) default_keys) eqn:Hk.
    - apply default_keys_spec, default_keys_complete in Hk. unfold default_item.
      destruct Hk as [v ->]. reflexivity.
    - destruct (default_config !! k) eqn:Hd; [|reflexivity].
      assert (Hin : In k default_keys) by (apply default_keys_complete; eauto).
      apply default_keys_spec in Hin. congruence. }
  assert (Hnull : forall k, list_key k = true ->
                  truthy (lookup_or_null m2 k) = truthy (lookup_or_null m0 k)
                  \/ (m0 !! k = None /\ m2 !! k = Some (default_item k))).
  { intros k Hk. unfold lookup_or_null at 1 2. rewrite Hbase.
    destruct (m0 !! k); [left; reflexivity|]. right. split; [reflexivity|].
    unfold list_key in Hk. apply orb_true_iff in Hk.
    destruct Hk as [Hk|Hk]; apply String.eqb_eq in Hk; subst; reflexivity. }
  eexists. split; [reflexivity|]. intros k.
  rewrite !lookup_ensured, Hbase. unfold list_key.
  destruct (String.eqb_spec k "block_periods") as [->|Hb].
  - cbn [String.eqb Ascii.eqb Bool.eqb andb orb].
    replace (lookup_or_null (if truthy (lookup_or_null m2 "work_periods") then m2
               else <["work_periods" := default_item "work_periods"]> m2) "block_periods")
      with (lookup_or_null m2 "block_periods")
      by (unfold lookup_or_null at 2; rewrite lookup_ensured; reflexivity).
    destruct (Hnull "block_periods"%string eq_refl) as [-> | [Hn Hd]].
    + destruct (truthy (lookup_or_null m0 "block_periods")); reflexivity.
    + unfold lookup_or_null. rewrite Hd, Hn. reflexivity.
  - cbn [andb]. rewrite orb_false_r.
    destruct (String.eqb_spec k "work_periods") as [->|Hw]; [|reflexivity].
    cbn [andb].
    destruct (Hnull "work_periods"%string eq_refl) as [-> | [Hn Hd]].
    + destruct (truthy (lookup_or_null m0 "work_periods")); reflexivity.
    + unfold lookup_or_null. rewrite Hd, Hn. reflexivity.
Qed.

(** X10. Loading a stored dict of the current format keeps every stored
    entry as it is, the entries the program does not know included,
    except an empty [work_periods] or [block_periods]; a key that is not
    stored is present afterwards exactly when it is a default key, with
    its default value. *)
Theorem load_config_keeps_entries m0 :
  ~ old_format m0 ->
  exists m, load_config (Stored (JObj m0)) = JObj m
    /\ (forall k v, m0 !! k = Some v -> (list_key k = true -> truthy v = true) ->
                    m !! k = Some v)
    /\ (forall k, m0 !! k = None -> m !! k = default_config !! k).
Proof.
  intros Hnew. destruct (load_config_current m0 Hnew) as (m & Hm & Hk).
  exists m. split; [exact Hm|]. split.
  - intros k v Hv Ht. rewrite Hk. unfold lookup_or_null. rewrite Hv.
    destruct (list_key k); [rewrite Ht by reflexivity|]; reflexivity.
  - intros k Hn. rewrite Hk. unfold lookup_or_null. rewrite Hn. cbn [truthy negb].
    rewrite andb_true_r. destruct (list_key k) eqn:Hl; [|reflexivity].
    unfold list_key in Hl. apply orb_true_iff in Hl.
    destruct Hl as [Hl|Hl]; apply String.eqb_eq in Hl; subst; reflexivity.
Qed.

(** The unknown entry stays, the missing one gets its default. *)
Lemma load_config_keeps_entries_witness :
  exists m, load_config (Stored (JObj sample_stored)) = JObj m
            /\ m !! "theme"%string = Some (JStr "dark")
            /\ m !! "off_work_time"%string = Some (JStr "18:00").
Proof.
  assert (Hnew : ~ old_format sample_stored).
  { intros [[v Hv] _]. vm_compute in Hv. discriminate Hv. }
  destruct (load_config_keeps_entries sample_stored Hnew) as (m & Hm & Hkeep & Hdef).
  exists m. split; [exact Hm|]. split.
  - apply Hkeep; [reflexivity | intros H; vm_compute in H; discriminate H].
  - rewrite Hdef; reflexivity.
Defined.

Lemma convert_legacy_old m0 :
  old_format m0 ->
  convert_legacy (JObj m0)
  = Ret (JObj (<["work_periods" :=
                   JArr [period_json (stored_or m0 "start_time" (JStr "09:00"))
                                     (stored_or m0 "end_time" (JStr "18:00"))]]>
              (<["block_periods" :=
                   JArr [period_json (stored_or m0 "block_start" (JStr "12:00"))
                                     (stored_or m0 "block_end" (JStr "13:30"))]]>
              (<["interval_minutes" := stored_or m0 "interval_minutes" (JInt 60)]>
              (<["auto_start" := stored_or m0 "auto_start" (JBool false)]> ∅))))).
Proof.
  intros [[s Hs] Hw]. unfold convert_legacy. rewrite !py_in_dict, Hs, Hw. reflexivity.
Qed.

(** X11. A stored dict of the old flat format is loaded as exactly seven
    entries: one work period and one block period made of the old keys,
    the stored interval and auto-start setting, and the defaults for the
    working days and the end of the shift.  Every other stored entry is
    dropped. *)
Theorem load_config_legacy m0 :
  old_format m0 -> load_config (Stored (JObj m0)) = JObj (converted m0).
Proof.
  intros Hold.
  destruct (load_config_dict m0) as (m1 & m2 & H1 & H2 & ->). cbv zeta.
  rewrite (convert_legacy_old m0 Hold) in H1. injection H1 as <-.
  match type of H2 with merge_defaults _ (JObj ?m) = _ => set (m1 := m) in * end.
  destruct (merge_defaults_dict default_keys m1) as (m2' & H2' & Hm2).
  rewrite H2 in H2'. injection H2' as <-.
  assert (Hw : truthy (lookup_or_null m2 "work_periods") = true).
  { unfold lookup_or_null. rewrite Hm2. reflexivity. }
  rewrite Hw.
  assert (Hb : truthy (lookup_or_null m2 "block_periods") = true).
  { unfold lookup_or_null. rewrite Hm2. reflexivity. }
  rewrite Hb. f_equal. apply map_eq. intros k. rewrite Hm2.
  split_key k "work_periods"%string; [reflexivity|].
  split_key k "block_periods"%string; [reflexivity|].
  split_key k "interval_minutes"%string; [reflexivity|].
  split_key k "auto_start"%string; [reflexivity|].
  split_key k "workdays"%string; [reflexivity|].
  split_key k "off_work_time"%string; [reflexivity|].
  split_key k "off_work_reminder_enabled"%string; [reflexivity|].
  unfold m1, converted. rewrite !lookup_insert_ne, lookup_empty by congruence.
  cbn [existsb default_keys].
  repeat match goal with
         | H : k <> ?key |- context [String.eqb k ?key] =>
             rewrite (proj2 (String.eqb_neq k key) H)
         end.
  reflexivity.
Qed.

(** An old file with working hours 08:30 to 17:30. *)
Lemma load_config_legacy_witness :
  load_config (Stored (JObj sample_legacy)) = JObj (converted sample_legacy).
Proof.
  apply load_config_legacy. split; [eexists; reflexivity | reflexivity].
Defined.

(** ** Loading what has been loaded *)

Lemma load_config_settled (f : file) :
  exists m, load_config f = JObj m
    /\ (forall k, In k default_keys -> is_Some (m !! k))
    /\ truthy (lookup_or_null m "work_periods") = true
    /\ truthy (lookup_or_null m "block_periods") = true.
Proof.
  assert (Hdef : exists m, JObj default_config = JObj m
    /\ (forall k, In k default_keys -> is_Some (m !! k))
    /\ truthy (lookup_or_null m "work_periods") = true
    /\ truthy (lookup_or_null m "block_periods") = true).
  { exists default_config. split; [reflexivity|].
    split; [intros k; apply default_keys_complete | split; reflexivity]. }
  destruct f as [| |v]; [exact Hdef | exact Hdef |].
  destruct (not_dict_cases v) as [[m0 ->] | Hv];
    [|rewrite (load_config_other v Hv); exact Hdef].
  destruct (load_config_dict m0) as (m1 & m2 & _ & H2 & ->). cbv zeta.
  destruct (merge_defaults_dict default_keys m1) as (m2' & H2' & Hm2).
  rewrite H2 in H2'. injection H2' as <-.
  eexists. split; [reflexivity|].
  assert (Htruthy : forall (m : gmap string json) key,
    truthy (default_item key) = true ->
    truthy (lookup_or_null (if truthy (lookup_or_null m key) then m
                            else <[key := default_item key]> m) key) = true).
  { intros m key Hd. unfold lookup_or_null at 1. rewrite lookup_ensured, String.eqb_refl.
    cbn [andb]. destruct (truthy (lookup_or_null m key)) eqn:Ht; cbn [negb]; [|exact Hd].
    exact Ht. }
  split; [|split].
  - intros k Hk. rewrite !lookup_ensured.
    destruct (_ && _); [eauto|]. destruct (_ && _); [eauto|].
    rewrite Hm2. destruct (m1 !! k); [eauto|].
    apply default_keys_spec in Hk. rewrite Hk. eauto.
  - unfold lookup_or_null at 1. rewrite lookup_ensured.
    cbn [String.eqb Ascii.eqb Bool.eqb andb].
    apply (Htruthy m2 "work_periods"%string eq_refl).
  - apply Htruthy. reflexivity.
Qed.

(** X12. Saving what [load_config] returned and loading it again gives
    the same configuration, whatever was in the file. *)
Theorem load_config_idempotent (f : file) :
  load_config (save_config WriteOk (load_config f)).1 = load_config f.
Proof.
  cbn [save_config fst].
  destruct (load_config_settled f) as (m & -> & Hkeys & Hw & Hb).
  assert (Hnew : ~ old_format m).
  { intros [_ Hn]. destruct (Hkeys "work_periods"%string) as [v Hv]; [left; reflexivity|].
    congruence. }
  destruct (load_config_current m Hnew) as (m' & -> & Hm'). f_equal.
  apply map_eq. intros k. rewrite Hm'.
  destruct (list_key k) eqn:Hl.
  - unfold list_key in Hl. apply orb_true_iff in Hl.
    destruct Hl as [Hl|Hl]; apply String.eqb_eq in Hl; subst k.
    + rewrite Hw. cbn [negb andb].
      destruct (Hkeys "work_periods"%string) as [v ->]; [left|]; reflexivity.
    + rewrite Hb. cbn [negb andb].
      destruct (Hkeys "block_periods"%string) as [v ->]; [right; left|]; reflexivity.
  - cbn [andb]. destruct (m !! k) eqn:Hk; [reflexivity|].
    destruct (default_config !! k) eqn:Hd; [|reflexivity].
    destruct (Hkeys k) as [v Hv]; [apply default_keys_complete; eauto | congruence].
Qed.

(** ** Strings *)

Lemma lstrip_no_lead s : no_lead (PyStr.lstrip s).
Proof.
  induction s as [|c s IH]; cbn [PyStr.lstrip]; [exact I|].
  destruct (PyStr.isspace c) eqn:Hc; [exact IH | exact Hc].
Qed.

Lemma no_lead_lstrip s : no_lead s -> PyStr.lstrip s = s.
Proof. destruct s as [|c s]; cbn; [reflexivity|]. intros ->. reflexivity. Qed.

Lemma rstrip_no_lead s : no_lead s -> no_lead (PyStr.rstrip s).
Proof.
  destruct s as [|c s]; cbn [PyStr.rstrip no_lead]; [auto|]. intros Hc.
  destruct (PyStr.rstrip s); [rewrite Hc|]; exact Hc.
Qed.

Lemma rstrip_idempotent s : PyStr.rstrip (PyStr.rstrip s) = PyStr.rstrip s.
Proof.
  induction s as [|c s IH]; cbn [PyStr.rstrip]; [reflexivity|].
  destruct (PyStr.rstrip s) as [|c' r] eqn:Hr.
  - destruct (PyStr.isspace c) eqn:Hc; cbn [PyStr.rstrip]; [reflexivity|].
    rewrite Hc. reflexivity.
  - cbn [PyStr.rstrip]. cbn [PyStr.rstrip] in IH.
    destruct (PyStr.rstrip r) as [|c2 r2] eqn:Hr2.
    + destruct (PyStr.isspace c'); [discriminate IH|]. rewrite IH. reflexivity.
    + rewrite IH. reflexivity.
Qed.

Lemma strip_idempotent s : PyStr.strip (PyStr.strip s) = PyStr.strip s.
Proof.
  unfold PyStr.strip.
  rewrite (no_lead_lstrip (PyStr.rstrip (PyStr.lstrip s)))
    by apply rstrip_no_lead, lstrip_no_lead.
  apply rstrip_idempotent.
Qed.

Lemma strip_no_space s : no_space s = true -> PyStr.strip s = s.
Proof.
  intros H. unfold PyStr.strip.
  assert (Hl : PyStr.lstrip s = s).
  { destruct s as [|c s]; [reflexivity|]. cbn in H |- *.
    destruct (PyStr.isspace c); [discriminate H | reflexivity]. }
  rewrite Hl. clear Hl. induction s as [|c s IH]; [reflexivity|].
  cbn [no_space] in H. apply andb_true_iff in H. destruct H as [Hc Hs].
  cbn [PyStr.rstrip]. rewrite (IH Hs). destruct s; [|reflexivity].
  apply negb_true_iff in Hc. rewrite Hc. reflexivity.
Qed.

(** *** Numerals *)

Lemma digit_char_digit d :
  0 <= d <= 9 -> PyStr.digit (PyText.digit_char d) = Some d.
Proof.
  intros Hd. assert (Hc : d = 0 \/ d = 1 \/ d = 2 \/ d = 3 \/ d = 4 \/ d = 5 \/ d = 6
                          \/ d = 7 \/ d = 8 \/ d = 9) by lia.
  repeat (destruct Hc as [-> | Hc]; [reflexivity|]). subst. reflexivity.
Qed.

Lemma digit_char_no_space d :
  0 <= d <= 9 -> PyStr.isspace (PyText.digit_char d) = false.
Proof.
  intros Hd. assert (Hc : d = 0 \/ d = 1 \/ d = 2 \/ d = 3 \/ d = 4 \/ d = 5 \/ d = 6
                          \/ d = 7 \/ d = 8 \/ d = 9) by lia.
  repeat (destruct Hc as [-> | Hc]; [reflexivity|]). subst. reflexivity.
Qed.

Lemma digit_char_no_int_space d :
  0 <= d <= 9 -> PyStr.int_space (PyText.digit_char d) = false
                 /\ PyStr.is_digit (PyText.digit_char d) = true
                 /\ Ascii.eqb (PyText.digit_char d) "-" = false
                 /\ Ascii.eqb (PyText.digit_char d) "+" = false.
Proof.
  intros Hd. assert (Hc : d = 0 \/ d = 1 \/ d = 2 \/ d = 3 \/ d = 4 \/ d = 5 \/ d = 6
                          \/ d = 7 \/ d = 8 \/ d = 9) by lia.
  repeat (destruct Hc as [-> | Hc]; [repeat split; reflexivity|]). subst.
  repeat split; reflexivity.
Qed.

(** Reading the digits written for [n] in front of [acc] shifts the value
    read so far and adds [n]. *)
Lemma digits_from_digits_of rounds : forall n acc,
  0 <= n < 10 * 2 ^ Z.of_nat rounds ->
  exists p, 0 < p /\ forall a,
    PyStr.digits_from a (PyText.digits_of rounds n acc)
    = PyStr.digits_from (a * p + n) acc.
Proof.
  induction rounds as [|r IH]; intros n acc Hn.
  - cbn [PyText.digits_of]. exists 10. split; [lia|]. intros a.
    cbn [PyStr.digits_from]. change (2 ^ Z.of_nat 0) with 1 in Hn.
    rewrite Z.mod_small by lia. rewrite digit_char_digit by lia. f_equal. lia.
  - cbn [PyText.digits_of].
    destruct (Z.ltb_spec n 10) as [Hlt|Hge].
    + exists 10. split; [lia|]. intros a. cbn [PyStr.digits_from].
      rewrite Z.mod_small by lia. rewrite digit_char_digit by lia. f_equal. lia.
    + assert (Hq : 0 <= n / 10 < 10 * 2 ^ Z.of_nat r).
      { rewrite Nat2Z.inj_succ, Z.pow_succ_r in Hn by lia.
        split; [apply Z.div_pos; lia|]. apply Z.div_lt_upper_bound; [lia|].
        pose proof (Z.pow_pos_nonneg 2 (Z.of_nat r) ltac:(lia) ltac:(lia)). nia. }
      destruct (IH (n / 10) (String (PyText.digit_char (n mod 10)) acc) Hq)
        as (p & Hp & Hread).
      exists (p * 10). split; [lia|]. intros a. rewrite Hread.
      cbn [PyStr.digits_from].
      pose proof (Z.mod_pos_bound n 10 ltac:(lia)) as Hm.
      rewrite digit_char_digit by lia. f_equal.
      pose proof (Z.div_mod n 10 ltac:(lia)). lia.
Qed.

Lemma digits_of_head rounds : forall n acc,
  0 <= n ->
  exists d rest, 0 <= d <= 9 /\ PyText.digits_of rounds n acc = String (PyText.digit_char d) rest.
Proof.
  induction rounds as [|r IH]; intros n acc Hn; cbn [PyText.digits_of].
  - pose proof (Z.mod_pos_bound n 10 ltac:(lia)). eexists _, _. split; [|reflexivity]. lia.
  - destruct (Z.ltb_spec n 10).
    + pose proof (Z.mod_pos_bound n 10 ltac:(lia)). eexists _, _. split; [|reflexivity]. lia.
    + apply IH. apply Z.div_pos; lia.
Qed.

Lemma digits_of_no_space rounds : forall n acc,
  0 <= n -> no_space acc = true -> no_space (PyText.digits_of rounds n acc) = true.
Proof.
  induction rounds as [|r IH]; intros n acc Hn Hacc; cbn [PyText.digits_of].
  - pose proof (Z.mod_pos_bound n 10 ltac:(lia)). cbn [no_space].
    rewrite digit_char_no_space by lia. exact Hacc.
  - pose proof (Z.mod_pos_bound n 10 ltac:(lia)).
    destruct (Z.ltb_spec n 10).
    + cbn [no_space]. rewrite digit_char_no_space by lia. exact Hacc.
    + apply IH; [apply Z.div_pos; lia|]. cbn [no_space].
      rewrite digit_char_no_space by lia. exact Hacc.
Qed.

Lemma log2_rounds n : 0 <= n -> 0 <= n < 10 * 2 ^ Z.of_nat (Z.to_nat (Z.log2 n)).
Proof.
  intros Hn. split; [exact Hn|].
  rewrite Z2Nat.id by apply Z.log2_nonneg.
  destruct (Z.eq_dec n 0) as [->|Hne]; [reflexivity|].
  pose proof (Z.log2_spec n ltac:(lia)) as [_ Hup].
  rewrite Z.pow_succ_r in Hup by apply Z.log2_nonneg. lia.
Qed.

(** [int(str(n)) == n] for [n] that is not negative. *)
Lemma parse_int_str_of_int n :
  0 <= n -> PyStr.parse_int (PyText.str_of_int n) = Some n.
Proof.
  intros Hn. unfold PyText.str_of_int.
  destruct (Z.ltb_spec n 0); [lia|].
  set (rounds := Z.to_nat (Z.log2 n)).
  destruct (digits_of_head rounds n "" Hn) as (d & rest & Hd & Hhead).
  destruct (digits_from_digits_of rounds n "" (log2_rounds n Hn)) as (p & Hp & Hread).
  specialize (Hread 0). unfold PyStr.parse_int.
  destruct (digit_char_no_int_space d Hd) as (Hsp & Hdig & Hminus & Hplus).
  rewrite Hhead in *. cbn [PyStr.skip_int_space]. rewrite Hsp, Hminus, Hplus, Hdig.
  rewrite Hread. cbn [PyStr.digits_from PyStr.skip_int_space]. f_equal. lia.
Qed.

Lemma strip_str_of_int n : 0 <= n -> PyStr.strip (PyText.str_of_int n) = PyText.str_of_int n.
Proof.
  intros Hn. apply strip_no_space. unfold PyText.str_of_int.
  destruct (Z.ltb_spec n 0); [lia|]. apply digits_of_no_space; [exact Hn | reflexivity].
Qed.

(** ** The editor *)

Lemma tidy_rows_cons s e rows :
  tidy_rows ((s, e) :: rows)
  = if String.eqb (PyStr.strip s) "" || String.eqb (PyStr.strip e) ""
    then tidy_rows rows
    else (PyStr.strip s, PyStr.strip e) :: tidy_rows rows.
Proof.
  unfold tidy_rows. cbn [fmap list_fmap List.filter fst snd].
  destruct (_ || _); reflexivity.
Qed.

Lemma collect_periods_tidy rows :
  collect_periods (tidy_rows rows) = collect_periods rows.
Proof.
  induction rows as [|[s e] rows IH]; [reflexivity|].
  rewrite tidy_rows_cons. cbn [collect_periods].
  destruct (String.eqb (PyStr.strip s) "" || String.eqb (PyStr.strip e) "") eqn:Hblank;
    [exact IH|].
  cbn [collect_periods]. rewrite !strip_idempotent, Hblank, IH. reflexivity.
Qed.

(** X14. White space around the texts of the form and rows with a blank
    start or end make no difference to the verdict of the editor nor to
    the configuration it builds. *)
Theorem validate_ignores_blanks fm :
  validate_and_start (tidy fm) = validate_and_start fm.
Proof.
  unfold validate_and_start, validate, tidy, interval_of.
  cbn [work_rows block_rows interval_text workday_checks off_work_text
       off_work_reminder_checked auto_start_checked].
  rewrite !collect_periods_tidy, !strip_idempotent. reflexivity.
Qed.

(** *** The working days *)

Lemma selected_from_spec checks : forall i,
  StronglySorted Z.lt (selected_from i checks)
  /\ forall n, In n (selected_from i checks) <->
               i < n /\ checks !! Z.to_nat (n - i - 1) = Some true.
Proof.
  induction checks as [|b rest IH]; intros i; cbn [selected_from].
  - split; [constructor|]. intros n. split; [intros [] | intros [_ [=]]].
  - destruct (IH (i + 1)) as [Hs Hin].
    assert (Hiff : forall n, In n (selected_from (i + 1) rest) <->
                             i + 1 < n /\ (b :: rest) !! Z.to_nat (n - i - 1) = Some true).
    { intros n. rewrite Hin. split; intros [Hlt Hl]; (split; [lia|]).
      - replace (Z.to_nat (n - i - 1)) with (S (Z.to_nat (n - (i + 1) - 1))) by lia.
        exact Hl.
      - replace (Z.to_nat (n - i - 1)) with (S (Z.to_nat (n - (i + 1) - 1))) in Hl by lia.
        exact Hl. }
    destruct b.
    + split.
      * constructor; [exact Hs|]. apply List.Forall_forall. intros n Hn.
        apply Hin in Hn. lia.
      * intros n. cbn [In]. rewrite Hiff. split.
        -- intros [<- | [Hlt Hl]]; [|split; [lia | exact Hl]].
           split; [lia|]. replace (i + 1 - i - 1) with 0 by lia. reflexivity.
        -- intros [Hlt Hl]. destruct (Z.eq_dec n (i + 1)) as [->|Hne]; [left; reflexivity|].
           right. split; [lia | exact Hl].
    + split; [exact Hs|]. intros n. rewrite Hiff. split.
      * intros [Hlt Hl]. split; [lia | exact Hl].
      * intros [Hlt Hl]. split; [|exact Hl].
        destruct (Z.eq_dec n (i + 1)) as [->|Hne]; [|lia].
        replace (i + 1 - i - 1) with 0 in Hl by lia. discriminate Hl.
Qed.

(** X15. The working days of an accepted configuration are the numbers
    of the ticked boxes, counted from 1, in increasing order without
    repetition, and there is at least one. *)
Theorem accepted_workdays fm cfg :
  validate_and_start fm = Accepted cfg ->
  exists days,
    cfg !! "workdays"%string = Some (JArr (JInt <$> days))
    /\ days <> []
    /\ StronglySorted Z.lt days
    /\ forall n, In n days <->
                 1 <= n /\ workday_checks fm !! Z.to_nat (n - 1) = Some true.
Proof.
  intros Hv. apply accepted_shape in Hv.
  destruct Hv as (w & ws & block & interval & off & -> & _ & _ & _ & Hsel & _).
  exists (selected_from 0 (workday_checks fm)).
  split; [reflexivity|]. split; [exact Hsel|].
  destruct (selected_from_spec (workday_checks fm) 0) as [Hs Hin].
  split; [exact Hs|]. intros n. rewrite Hin.
  replace (n - 0 - 1) with (n - 1) by lia. split; intros [H1 H2]; (split; [lia | exact H2]).
Qed.

(** The editor filled in with the default values. *)
Lemma accepted_workdays_witness :
  exists cfg days,
    validate_and_start sample_form = Accepted cfg
    /\ cfg !! "workdays"%string = Some (JArr (JInt <$> days))
    /\ StronglySorted Z.lt days.
Proof.
  destruct (validate_and_start sample_form) as [why|cfg] eqn:Hv; [discriminate Hv|].
  destruct (accepted_workdays sample_form cfg Hv) as (days & Hd & _ & Hs & _).
  exists cfg, days. split; [reflexivity | split; [exact Hd | exact Hs]].
Defined.

(** *** The window opened on a saved configuration *)

Lemma truthy_period_json a b : truthy (period_json a b) = true.
Proof.
  unfold period_json. cbn [truthy]. rewrite bool_decide_eq_false_2; [reflexivity|].
  apply insert_non_empty.
Qed.

Lemma add_period_json ds de s e :
  add_period ds de (period_json (JStr s) (JStr e)) = Some (s, e).
Proof. unfold add_period. rewrite truthy_period_json. reflexivity. Qed.

(** The rows shown for the periods that the editor collected are the rows
    of the form, tidied. *)
Lemma rows_shown ds de rows : forall ps,
  collect_periods rows = Ret (Some ps) ->
  mapM (add_period ds de) ps = Some (tidy_rows rows).
Proof.
  induction rows as [|[s e] rows IH]; intros ps.
  - intros [= <-]. reflexivity.
  - rewrite tidy_rows_cons. cbn [collect_periods].
    destruct (String.eqb (PyStr.strip s) "" || String.eqb (PyStr.strip e) ""); [apply IH|].
    destruct (parse_time (JStr (PyStr.strip s))) as [[ts|]|x]; cbn [rbind]; try discriminate.
    destruct (parse_time (JStr (PyStr.strip e))) as [[te|]|x]; cbn [rbind]; try discriminate.
    destruct (collect_periods rows) as [[more|]|x]; cbn [rbind option_map]; try discriminate.
    intros [= <-]. cbn [mapM]. rewrite add_period_json, (IH more eq_refl). reflexivity.
Qed.

Lemma tidy_rows_length ds de rows ps :
  mapM (add_period ds de) ps = Some (tidy_rows rows) -> ps <> [] -> tidy_rows rows <> [].
Proof.
  intros H Hne Hnil. rewrite Hnil in H. destruct ps as [|p ps]; [contradiction|].
  cbn [mapM] in H. destruct (add_period ds de p); cbn in H; [|discriminate].
  destruct (mapM (add_period ds de) ps); discriminate.
Qed.

(** The texts behind an accepted configuration. *)
Lemma accepted_texts fm cfg :
  validate_and_start fm = Accepted cfg ->
  exists w ws block interval off,
    cfg = config_dict (w :: ws) block interval (auto_start_checked fm)
                      (JInt <$> selected_from 0 (workday_checks fm)) off
                      (off_work_reminder_checked fm)
    /\ collect_periods (work_rows fm) = Ret (Some (w :: ws))
    /\ collect_periods (block_rows fm) = Ret (Some block)
    /\ 0 < interval
    /\ selected_from 0 (workday_checks fm) <> []
    /\ PyStr.strip off = off /\ off <> ""%string
    /\ exists t, parse_time (JStr off) = Ret (Some t).
Proof.
  unfold validate_and_start, validate.
  destruct (collect_periods (work_rows fm)) as [[[|w ws]|]|e]; cbn [rbind]; try discriminate.
  destruct (collect_periods (block_rows fm)) as [[block|]|e]; cbn [rbind]; try discriminate.
  unfold interval_of.
  destruct (PyStr.int (PyStr.strip (interval_text fm))) as [interval|e]; try discriminate.
  destruct (Z.leb_spec interval 0) as [Hle|Hlt]; try discriminate.
  destruct (selected_from 0 (workday_checks fm)) as [|d ds] eqn:Hsel; try discriminate.
  destruct (String.eqb_spec (PyStr.strip (off_work_text fm)) "") as [Hoff|Hoff];
    cbn [rbind negb].
  - intros [= <-]. exists w, ws, block, interval, "18:00"%string.
    repeat (split; [reflexivity || assumption || discriminate|]).
    eexists. vm_compute. reflexivity.
  - destruct (parse_time (JStr (PyStr.strip (off_work_text fm)))) as [[t|]|e] eqn:Hp;
      cbn [rbind negb]; try discriminate.
    intros [= <-]. exists w, ws, block, interval, (PyStr.strip (off_work_text fm)).
    repeat (split; [reflexivity || assumption || discriminate|]).
    split; [apply strip_idempotent|]. split; [exact Hoff | eauto].
Qed.

Lemma checks_shown checks :
  length checks = 7%nat ->
  (fun day_num => is_in day_num (selected_from 0 checks)) <$> [1; 2; 3; 4; 5; 6; 7] = checks.
Proof.
  intros H.
  destruct checks as [|b1 [|b2 [|b3 [|b4 [|b5 [|b6 [|b7 [|b8 rest]]]]]]]]; try discriminate.
  destruct b1, b2, b3, b4, b5, b6, b7; reflexivity.
Qed.

Lemma interval_of_str_of_int n :
  0 < n -> interval_of (PyText.str_of_int n) = Some n.
Proof.
  intros Hn. unfold interval_of, PyStr.int.
  rewrite strip_str_of_int, parse_int_str_of_int by lia.
  destruct (Z.leb_spec n 0); [lia | reflexivity].
Qed.

(** X16. When the window is opened again on the file that an accepted
    form was saved to, it shows a form with the same boxes ticked, and
    pressing the button without a change is accepted with exactly the
    configuration that was loaded. *)
Theorem reopen_and_save fm cfg auto_enabled :
  validate_and_start fm = Accepted cfg ->
  length (workday_checks fm) = 7%nat ->
  exists fm' m',
    load_config (save_config WriteOk (JObj cfg)).1 = JObj m'
    /\ show_config_window auto_enabled (save_config WriteOk (JObj cfg)).1 = Some fm'
    /\ validate_and_start fm' = Accepted m'
    /\ workday_checks fm' = workday_checks fm
    /\ off_work_reminder_checked fm' = off_work_reminder_checked fm
    /\ auto_start_checked fm' = auto_start_checked fm.
Proof.
  intros Hv Hlen. apply accepted_texts in Hv.
  destruct Hv as (w & ws & block & interval & off & -> & Hw & Hb & Hi & Hsel
                  & Hoff & Hoffne & t & Ht).
  unfold show_config_window. rewrite load_saved_dict.
  set (block' := match block with
                 | [] => [period_json (JStr "12:00") (JStr "13:30")]
                 | _ :: _ => block
                 end).
  set (brows := match block with
                | [] => [("12:00", "13:30")%string]
                | _ :: _ => tidy_rows (block_rows fm)
                end).
  assert (Hbrows : mapM (add_period "12:00" "13:30") block' = Some brows
                   /\ collect_periods brows = Ret (Some block')).
  { unfold block', brows. destruct block as [|b bs]; [split; reflexivity|].
    split; [apply rows_shown, Hb | rewrite collect_periods_tidy; exact Hb]. }
  destruct Hbrows as [Hbshown Hbcollect].
  assert (Hbne : exists b bs, block' = b :: bs).
  { unfold block'. destruct block; eauto. }
  destruct Hbne as (b & bs & Hbeq). clearbody block' brows.
  pose proof (rows_shown "09:00" "18:00" _ _ Hw) as Hwshown.
  pose proof (tidy_rows_length _ _ _ _ Hwshown ltac:(discriminate)) as Hwne.
  eexists _, _. split; [reflexivity|].
  unfold prefill.
  set (m := config_dict _ _ _ _ _ _ _).
  replace (periods_shown m "work_periods" "start_time" "end_time" "09:00" "18:00")
    with (JArr (w :: ws)) by reflexivity.
  replace (periods_shown m "block_periods" "block_start" "block_end" "12:00" "13:30")
    with (JArr block') by (subst block'; reflexivity).
  replace (stored_or m "interval_minutes" (JInt 60)) with (JInt interval) by reflexivity.
  replace (stored_or m "workdays" (JArr (JInt <$> [1; 2; 3; 4; 5])))
    with (JArr (JInt <$> selected_from 0 (workday_checks fm))) by reflexivity.
  replace (stored_or m "off_work_time" (JStr "18:00")) with (JStr off) by reflexivity.
  replace (stored_or m "off_work_reminder_enabled" (JBool true))
    with (JBool (off_work_reminder_checked fm)) by reflexivity.
  replace (stored_or m "auto_start" (JBool auto_enabled))
    with (JBool (auto_start_checked fm)) by reflexivity.
  cbn [period_rows int_of entry_insert]. rewrite Hwshown, Hbshown, selected_from_ints.
  cbn [mbind option_bind]. rewrite (checks_shown _ Hlen).
  split; [reflexivity|].
  split; [|repeat split; reflexivity].
  unfold validate_and_start, validate.
  cbn [work_rows block_rows interval_text workday_checks off_work_text
       off_work_reminder_checked auto_start_checked].
  replace (collect_periods (match tidy_rows (work_rows fm) with
                            | [] => [("09:00", "18:00")%string]
                            | _ :: _ => tidy_rows (work_rows fm)
                            end))
    with (@Ret (option (list json)) (Some (w :: ws))).
  2:{ destruct (tidy_rows (work_rows fm)) eqn:Htr; [contradiction|].
      rewrite <- Htr, collect_periods_tidy. symmetry. exact Hw. }
  cbn [rbind]. rewrite Hbcollect. cbn [rbind].
  rewrite (interval_of_str_of_int _ Hi).
  destruct (selected_from 0 (workday_checks fm)) as [|d ds] eqn:Hs; [contradiction|].
  rewrite Hoff. destruct (String.eqb_spec off "") as [He|_]; [contradiction|].
  rewrite Ht. cbn [rbind negb]. subst m. rewrite <- Hs. reflexivity.
Qed.

(** The editor saved without a block period, and opened again. *)
Lemma reopen_and_save_witness :
  exists cfg fm' m',
    validate_and_start sample_form_unblocked = Accepted cfg
    /\ show_config_window false (save_config WriteOk (JObj cfg)).1 = Some fm'
    /\ validate_and_start fm' = Accepted m'.
Proof.
  destruct (validate_and_start sample_form_unblocked) as [why|cfg] eqn:Hv;
    [discriminate Hv|].
  destruct (reopen_and_save sample_form_unblocked cfg false Hv eq_refl)
    as (fm' & m' & _ & Hshow & Hagain & _).
  exists cfg, fm', m'. split; [reflexivity | split; [exact Hshow | exact Hagain]].
Defined.

(** ** The tray icon *)

Lemma format_02d_two_digits m :
  0 <= m <= 99 ->
  String.length (PyText.format_02d m) = 2%nat
  /\ PyStr.parse_int (PyText.format_02d m) = Some m.
Proof.
  intros Hm.
  assert (Hall : forallb (fun k => Nat.eqb (String.length (PyText.format_02d k)) 2
                                   && match PyStr.parse_int (PyText.format_02d k) with
                                      | Some v => v =? k
                                      | None => false
                                      end)
                         (Z.of_nat <$> seq 0 100) = true) by (vm_compute; reflexivity).
  rewrite forallb_forall in Hall. specialize (Hall m).
  destruct (andb_prop _ _ (Hall ltac:(
    apply in_map_iff; exists (Z.to_nat m); split; [lia | apply in_seq; lia])))
    as [Hlen Hval].
  apply Nat.eqb_eq in Hlen. split; [exact Hlen|].
  destruct (PyStr.parse_int (PyText.format_02d m)) as [v|]; [|discriminate].
  apply Z.eqb_eq in Hval. congruence.
Qed.

(** The whole minutes that the icon counts. *)
Lemma tray_minutes next now :
  (let remaining := Z.quot (next - now) us_per_second in
   let remaining := if remaining <? 0 then 0 else remaining in
   remaining / 60) = Z.max 0 (next - now) / us_per_minute.
Proof.
  cbv zeta. change us_per_minute with (1000000 * 60). change us_per_second with 1000000.
  rewrite <- Z.div_div by lia.
  destruct (Z.le_gt_cases 0 (next - now)) as [Hpos|Hneg].
  - rewrite Z.quot_div_nonneg by lia. rewrite Z.max_r by lia.
    destruct (Z.ltb_spec ((next - now) / 1000000) 0) as [Hlt|]; [|reflexivity].
    pose proof (Z.div_pos (next - now) 1000000 Hpos ltac:(lia)). lia.
  - rewrite Z.max_l by lia.
    assert (Hq : Z.quot (next - now) 1000000 <= 0) by (apply Z.quot_le_upper_bound; lia).
    destruct (Z.ltb_spec (Z.quot (next - now) 1000000) 0); [reflexivity|].
    replace (Z.quot (next - now) 1000000) with 0 by lia. reflexivity.
Qed.

Lemma tray_text next now :
  update_tray_icon true (Some next) now
  = Some (if Z.max 0 (next - now) / us_per_minute >? 99 then "99+"%string
          else PyText.format_02d (Z.max 0 (next - now) / us_per_minute)).
Proof. unfold update_tray_icon. rewrite tray_minutes. reflexivity. Qed.

Lemma tray_minutes_range next now :
  0 <= Z.max 0 (next - now) / us_per_minute
  /\ (Z.max 0 (next - now) / us_per_minute > 99 <-> minutes 100 <= next - now).
Proof.
  unfold minutes. change us_per_minute with 60000000.
  split; [apply Z.div_pos; lia|].
  split; intros H.
  - destruct (Z.le_gt_cases (100 * 60000000) (next - now)) as [|Hlt]; [assumption|].
    assert (Z.max 0 (next - now) / 60000000 < 100)
      by (apply Z.div_lt_upper_bound; lia). lia.
  - assert (100 <= Z.max 0 (next - now) / 60000000)
      by (apply Z.div_le_lower_bound; lia). lia.
Qed.

(** X17. The text on the tray icon: with less than a hundred minutes to
    go, two digits that read as the whole minutes left, none when the
    moment has passed; from a hundred minutes on, [99+]. *)
Theorem tray_countdown next now :
  exists text,
    update_tray_icon true (Some next) now = Some text
    /\ (next - now < minutes 100 ->
        String.length text = 2%nat
        /\ PyStr.parse_int text = Some (Z.max 0 (next - now) / us_per_minute))
    /\ (minutes 100 <= next - now -> text = "99+"%string).
Proof.
  rewrite tray_text. eexists. split; [reflexivity|].
  destruct (tray_minutes_range next now) as [Hpos Hbig].
  destruct (Z.gtb_spec (Z.max 0 (next - now) / us_per_minute) 99) as [Hgt|Hle].
  - split; [intros Hlt; lia | reflexivity].
  - split; [intros _; apply format_02d_two_digits; lia | intros Hge; lia].
Qed.

(** X18. The rectangle painted behind the text of the countdown lies
    inside the 64 by 64 image, and the text, at seven pixels a character,
    ends at its right edge. *)
Theorem tray_label_fits has_icon next_reminder now text :
  update_tray_icon has_icon next_reminder now = Some text ->
  exists x0 y0 x1 y1,
    label_box text = Some (x0, y0, x1, y1)
    /\ 0 <= x0 < x1 /\ x1 < icon_size
    /\ 0 <= y0 < y1 /\ y1 < icon_size
    /\ (label_origin text).1 + 7 * Z.of_nat (String.length text) <= x1.
Proof.
  destruct has_icon; [|discriminate]. destruct next_reminder as [next|]; [|discriminate].
  rewrite tray_text. intros [= <-].
  destruct (tray_minutes_range next now) as [Hpos Hbig].
  assert (Hlen : (2 <= String.length
                     (if Z.max 0 (next - now) / us_per_minute >? 99 then "99+"%string
                      else PyText.format_02d (Z.max 0 (next - now) / us_per_minute))
                  <= 3)%nat).
  { destruct (Z.gtb_spec (Z.max 0 (next - now) / us_per_minute) 99) as [Hgt|Hle].
    - cbn. lia.
    - destruct (format_02d_two_digits (Z.max 0 (next - now) / us_per_minute)) as [-> _]; lia. }
  set (text := if _ >? 99 then _ else _) in *. clearbody text.
  destruct text as [|c rest]; [cbn in Hlen; lia|].
  unfold label_box, label_origin, icon_size. cbn [fst].
  set (n := String.length (String c rest)) in *.
  eexists _, _, _, _. split; [reflexivity|]. lia.
Qed.

(** Five minutes to go. *)
Lemma tray_label_fits_witness :
  exists x0 y0 x1 y1,
    label_box "05" = Some (x0, y0, x1, y1) /\ 0 <= x0 < x1 /\ x1 < icon_size.
Proof.
  destruct (tray_label_fits true (Some (minutes 5)) 0 "05" eq_refl)
    as (x0 & y0 & x1 & y1 & Hbox & Hx & Hx1 & _).
  exists x0, y0, x1, y1. split; [exact Hbox | split; [exact Hx | exact Hx1]].
Defined.

(** ** Start at logon *)

(** X19. [set_auto_start] succeeds exactly when the [Run] key exists and
    opens for writing; when it fails the registry is unchanged; when it
    succeeds, [is_auto_start_enabled] for the same program path answers
    with the value that was set. *)
Theorem set_auto_start_spec enabled reg exe_path reg' ok :
  set_auto_start enabled reg exe_path = (reg', ok) ->
  (ok = true <-> is_Some (run_key reg) /\ opens_for_write reg = true)
  /\ (ok = false -> reg' = reg)
  /\ (ok = true -> opens_for_read reg = true ->
      is_auto_start_enabled reg' exe_path = enabled).
Proof.
  unfold set_auto_start, is_auto_start_enabled, open_key.
  destruct (run_key reg) as [v|] eqn:Hk.
  - destruct (opens_for_write reg) eqn:Hw; intros [= <- <-]; cbn [run_key opens_for_read].
    + split; [split; eauto|]. split; [discriminate|]. intros _ ->.
      destruct enabled; [apply String.eqb_refl | reflexivity].
    + split; [split; [discriminate | intros [_ [=]]]|]. split; [reflexivity | discriminate].
  - intros [= <- <-]. split; [split; [discriminate | intros [[? [=]] _]]|].
    split; [reflexivity | discriminate].
Qed.

(** Start at logon switched on where it was off. *)
Lemma set_auto_start_spec_witness :
  is_auto_start_enabled (set_auto_start true sample_registry sample_exe_path).1
                        sample_exe_path = true.
Proof.
  destruct (set_auto_start true sample_registry sample_exe_path) as [reg' ok] eqn:Hs.
  destruct (set_auto_start_spec _ _ _ _ _ Hs) as (Hok & _ & Hq).
  apply Hq; [|reflexivity]. apply Hok. split; [eexists; reflexivity | reflexivity].
Defined.

(** ** The start of the program *)

(** The [auto_start] entry of the loaded configuration. *)
Lemma loaded_auto_start f :
  exists m, load_config f = JObj m
    /\ m !! "auto_start"%string
       = Some (match f with
               | Stored (JObj m0) => stored_or m0 "auto_start" (JBool false)
               | _ => JBool false
               end).
Proof.
  destruct f as [| |v]; [exists default_config; split; reflexivity..|].
  destruct (not_dict_cases v) as [[m0 ->] | Hv].
  - destruct (m0 !! "start_time"%string) as [s|] eqn:Hs;
      [destruct (m0 !! "work_periods"%string) as [w|] eqn:Hw|].
    + destruct (load_config_current m0) as (m & -> & Hm); [intros [_ H]; congruence|].
      exists m. split; [reflexivity|]. rewrite Hm. cbn [list_key String.eqb Ascii.eqb
        Bool.eqb orb andb]. unfold stored_or. destruct (m0 !! "auto_start"%string); reflexivity.
    + destruct (load_config_dict m0) as (m1 & m2 & H1 & H2 & ->). cbv zeta.
      rewrite (convert_legacy_old m0) in H1 by (split; [eauto | exact Hw]).
      injection H1 as <-.
      match type of H2 with merge_defaults _ (JObj ?m) = _ => set (m1 := m) in * end.
      destruct (merge_defaults_dict default_keys m1) as (m2' & H2' & Hm2).
      rewrite H2 in H2'. injection H2' as <-.
      eexists. split; [reflexivity|]. rewrite !lookup_ensured.
      cbn [String.eqb Ascii.eqb Bool.eqb andb]. rewrite Hm2. reflexivity.
    + destruct (load_config_current m0) as (m & -> & Hm);
        [intros [[? H] _]; congruence|].
      exists m. split; [reflexivity|]. rewrite Hm. cbn [list_key String.eqb Ascii.eqb
        Bool.eqb orb andb]. unfold stored_or. destruct (m0 !! "auto_start"%string); reflexivity.
  - rewrite (load_config_other v Hv). exists default_config.
    split; [reflexivity|]. destruct v; try reflexivity. destruct (Hv m eq_refl).
Qed.

Lemma app_init_cases argv f :
  app_init argv f
  = if negb (should_show_config argv f)
       && truthy (match f with
                  | Stored (JObj m0) => stored_or m0 "auto_start" (JBool false)
                  | _ => JBool false
                  end)
    then StartService else ShowConfigWindow.
Proof.
  unfold app_init. destruct (loaded_auto_start f) as (m & -> & Hm).
  cbn [py_get]. rewrite Hm. destruct (negb _); [|reflexivity].
  cbn [andb]. destruct (truthy _); reflexivity.
Qed.

(** X20. The program goes straight to the tray exactly when neither
    [--config] nor [--setup] is given, the file holds a dict, and its
    [auto_start] entry is truthy; in every other case, a missing or
    unreadable file included, it opens the configuration window. *)
Theorem app_init_spec argv f :
  (app_init argv f = StartService <->
   in_argv "--config" argv = false /\ in_argv "--setup" argv = false
   /\ exists m v, f = Stored (JObj m) /\ m !! "auto_start"%string = Some v
                  /\ truthy v = true)
  /\ (app_init argv f <> StartService -> app_init argv f = ShowConfigWindow).
Proof.
  rewrite app_init_cases. unfold should_show_config. split.
  - destruct (in_argv "--config" argv); cbn [orb negb andb];
      [split; [discriminate | intros [[=] _]]|].
    destruct (in_argv "--setup" argv); cbn [orb negb andb];
      [split; [discriminate | intros [_ [[=] _]]]|].
    destruct f as [| |v]; cbn [negb andb truthy];
      [split; [discriminate | intros (_ & _ & m & v & [=] & _)]..|].
    destruct v; cbn [truthy];
      try (split; [discriminate | intros (_ & _ & m' & v' & [=] & _)]).
    unfold stored_or. destruct (m !! "auto_start"%string) as [v|] eqn:Hv.
    + destruct (truthy v) eqn:Ht.
      * split; [intros _ | reflexivity]. repeat (split; [reflexivity|]). eauto.
      * split; [discriminate|]. intros (_ & _ & m' & v' & [= <-] & Hv' & Ht'). congruence.
    + cbn [truthy]. split; [discriminate|].
      intros (_ & _ & m' & v' & [= <-] & Hv' & _). congruence.
  - destruct (_ && _); [intros H; destruct (H eq_refl) | reflexivity].
Qed.

(** X21. After an accepted form is saved and the registry written, the
    registry entry and the next start of the program agree with the
    auto-start box: the program is started at logon and goes straight to
    the tray exactly when the box was ticked. *)
Theorem auto_start_agrees fm cfg reg exe_path reg' argv :
  validate_and_start fm = Accepted cfg ->
  set_auto_start (auto_start_checked fm) reg exe_path = (reg', true) ->
  opens_for_read reg = true ->
  in_argv "--config" argv = false -> in_argv "--setup" argv = false ->
  is_auto_start_enabled reg' exe_path = auto_start_checked fm
  /\ (app_init argv (save_config WriteOk (JObj cfg)).1 = StartService <->
      auto_start_checked fm = true).
Proof.
  intros Hv Hset Hread Hc Hs. split.
  - unfold set_auto_start, is_auto_start_enabled, open_key in *.
    destruct (run_key reg) as [v|]; [|discriminate Hset].
    destruct (opens_for_write reg); [|discriminate Hset].
    injection Hset as <-. cbn [run_key opens_for_read]. rewrite Hread.
    destruct (auto_start_checked fm); [apply String.eqb_refl | reflexivity].
  - rewrite app_init_cases. unfold should_show_config. rewrite Hc, Hs.
    cbn [save_config fst orb negb andb].
    apply accepted_shape in Hv.
    destruct Hv as (w & ws & block & interval & off & -> & _).
    replace (stored_or _ "auto_start" (JBool false)) with (JBool (auto_start_checked fm))
      by reflexivity.
    cbn [truthy]. destruct (auto_start_checked fm); split; congruence.
Qed.

(** The default form, whose auto-start box is not ticked. *)
Lemma auto_start_agrees_witness :
  exists cfg,
    validate_and_start sample_form = Accepted cfg
    /\ app_init ["LetMeGo.exe"%string] (save_config WriteOk (JObj cfg)).1 <> StartService.
Proof.
  destruct (validate_and_start sample_form) as [why|cfg] eqn:Hv; [discriminate Hv|].
  destruct (set_auto_start (auto_start_checked sample_form) sample_registry
                           sample_exe_path) as [reg' ok] eqn:Hs.
  assert (Hok : ok = true) by (vm_compute in Hs; injection Hs as _ <-; reflexivity).
  subst ok.
  destruct (auto_start_agrees sample_form cfg sample_registry sample_exe_path reg'
              ["LetMeGo.exe"%string] Hv Hs eq_refl eq_refl eq_refl) as [_ Hiff].
  exists cfg. split; [reflexivity|]. intros H. apply Hiff in H. discriminate H.
Defined.
